(** * Minddrift: the ENF batched scrape-and-merge pipeline

    A shallow embedding of the pure parts of the ENF installer scripts
    (enf_scraper_apify.py, enf_detail_scraper.py, enf_rescrape_missing.py,
    enf_rescrape_wecp.py), the properties the specification states about
    them, and further properties of the code (the last part).

    Conventions of the embedding:
    - a Python [str] is a [string]; its characters are the code points
      0..255, so the character classes below are Python's restricted to
      that range;
    - a Python [dict] is an insertion-ordered association list ([PyDict]):
      assigning to a present key keeps its position, assigning to a new key
      appends it, which is what [csv.DictReader] rows and the header order
      depend on;
    - a Python [set] is a [gset]; the order in which a [for] loop visits it
      is not determined by the program and is taken as a parameter;
    - code that can raise returns a [result], and [try_except] is its
      [try: ... except Exception: ...];
    - the remote job service is an oracle ([world]) giving the outcome of
      each call the scripts make. *)

From Stdlib Require Import Ascii String NArith ZArith DecimalString DecimalNat.
From stdpp Require Import base list gmap strings sorting.

(** ** Exceptions *)

Inductive exn : Set :=
| ValueError
| IndexError
| KeyError
| ClientError.

Inductive result (A : Type) : Type :=
| Ok (a : A)
| Raise (e : exn).
Arguments Ok {A} a.
Arguments Raise {A} e.

#[global] Instance result_ret : MRet result := fun A a => Ok a.

#[global] Instance result_bind : MBind result := fun A B k m =>
  match m with
  | Ok a => k a
  | Raise e => Raise e
  end.

Definition try_except {A} (body : result A) (handler : exn -> result A) : result A :=
  match body with
  | Ok a => Ok a
  | Raise e => handler e
  end.

(** ** Python strings *)

Module PyStr.

Definition ord (c : ascii) : N := N_of_ascii c.

Definition in_range (lo hi : N) (c : ascii) : bool :=
  ((lo <=? ord c) && (ord c <=? hi))%N.

(** [str.isspace] on one character: TAB..CR, FS..US, space, NEL, NBSP. *)
Definition isspace (c : ascii) : bool :=
  in_range 9 13 c || in_range 28 32 c || (ord c =? 133)%N || (ord c =? 160)%N.

(** [str.lower] on one character: A-Z and the Latin-1 capitals. *)
Definition lower_char (c : ascii) : ascii :=
  if in_range 65 90 c || (in_range 192 222 c && negb (ord c =? 215)%N)
  then ascii_of_N (ord c + 32)
  else c.

Definition isascii_alpha (c : ascii) : bool :=
  in_range 65 90 c || in_range 97 122 c.

Definition isdigit (c : ascii) : bool := in_range 48 57 c.

Fixpoint lower (s : string) : string :=
  match s with
  | "" => ""
  | String c r => String (lower_char c) (lower r)
  end.

Fixpoint all_chars (p : ascii -> bool) (s : string) : bool :=
  match s with
  | "" => true
  | String c r => p c && all_chars p r
  end.

Fixpoint contains_char (c : ascii) (s : string) : bool :=
  match s with
  | "" => false
  | String d r => Ascii.eqb c d || contains_char c r
  end.

Fixpoint lstrip_by (p : ascii -> bool) (s : string) : string :=
  match s with
  | "" => ""
  | String c r => if p c then lstrip_by p r else s
  end.

Definition rstrip_by (p : ascii -> bool) (s : string) : string :=
  String.rev (lstrip_by p (String.rev s)).

(** [s.strip()] *)
Definition strip (s : string) : string := rstrip_by isspace (lstrip_by isspace s).

(** [s.startswith(p)] *)
Definition startswith (p s : string) : bool := String.prefix p s.

(** [s[:n]] and [s[n:]] for [n >= 0]. *)
Fixpoint take (n : nat) (s : string) : string :=
  match n, s with
  | S n, String c r => String c (take n r)
  | _, _ => ""
  end.

Fixpoint drop (n : nat) (s : string) : string :=
  match n, s with
  | S n, String _ r => drop n r
  | _, _ => s
  end.

(** [s[a:b]] for [0 <= a], [0 <= b]. *)
Definition slice (a b : nat) (s : string) : string := take (b - a) (drop a s).

(** [s.find(c)] for a one-character needle; [None] is Python's [-1]. *)
Fixpoint find (c : ascii) (s : string) : option nat :=
  match s with
  | "" => None
  | String d r => if Ascii.eqb c d then Some 0 else S <$> find c r
  end.

(** [s.find(c, start)] *)
Definition find_from (c : ascii) (start : nat) (s : string) : option nat :=
  (fun i => start + i) <$> find c (drop start s).

(** [s.replace(c, "")] for a one-character [c]. *)
Fixpoint remove_char (c : ascii) (s : string) : string :=
  match s with
  | "" => ""
  | String d r => if Ascii.eqb c d then remove_char c r else String d (remove_char c r)
  end.

(** [s.split(c)[0]]: everything before the first [c]. *)
Fixpoint split_head (c : ascii) (s : string) : string :=
  match s with
  | "" => ""
  | String d r => if Ascii.eqb c d then "" else String d (split_head c r)
  end.

(** [s.partition(c)[2]]: everything after the first [c], or [""]. *)
Fixpoint partition_tail (c : ascii) (s : string) : string :=
  match s with
  | "" => ""
  | String d r => if Ascii.eqb c d then r else partition_tail c r
  end.

(** [sep.join(l)] *)
Fixpoint join (sep : string) (l : list string) : string :=
  match l with
  | [] => ""
  | [x] => x
  | x :: r => x +:+ sep +:+ join sep r
  end.

End PyStr.

(** ** Python dictionaries

    Insertion-ordered, as [dict] is: [set] on a present key replaces the
    value where it stands, on a new key it appends the pair. *)

Module PyDict.
Section Dict.
Context {K V : Type} `{EqDecision K}.

(** [d.get(k)] *)
Fixpoint get (d : list (K * V)) (k : K) : option V :=
  match d with
  | [] => None
  | (k', v) :: r => if decide (k = k') then Some v else get r k
  end.

(** [d.get(k, default)] *)
Definition get_or (d : list (K * V)) (k : K) (default : V) : V :=
  match get d k with
  | Some v => v
  | None => default
  end.

(** [d[k] = v] *)
Fixpoint set (d : list (K * V)) (k : K) (v : V) : list (K * V) :=
  match d with
  | [] => [(k, v)]
  | (k', v') :: r => if decide (k = k') then (k, v) :: r else (k', v') :: set r k v
  end.

(** [list(d.keys())] *)
Definition keys (d : list (K * V)) : list K := d.*1.

End Dict.
End PyDict.

Abbreviation dict K V := (list (K * V)) (only parsing).

(** A record of the store: field name to string value. *)
Abbreviation entry := (list (string * string)) (only parsing).

(** Python truthiness of a string: non-empty. *)
Definition truthy (s : string) : bool := negb (String.eqb s "").

(** Truthiness of [e.get(k)]: the key is present with a non-empty value. *)
Definition has_value (e : entry) (k : string) : bool :=
  match PyDict.get e k with
  | Some v => truthy v
  | None => false
  end.

(** [str(n)] for a length. *)
Definition str_of_nat (n : nat) : string :=
  DecimalString.NilZero.string_of_uint (Nat.to_uint n).

(** [l[a:b]] on a list, [0 <= a], [0 <= b]. *)
Definition py_slice {A} (a b : nat) (l : list A) : list A := take (b - a) (drop a l).

(** [range(a, b)] *)
Definition py_range (a b : nat) : list nat := seq a (b - a).

(** ** urllib.parse.urlsplit, netloc component

    The standard library's [urlsplit] (CPython 3.12), restricted to what
    decides the [netloc] attribute of its result and whether it raises.
    [urlparse(url).netloc] is [urlsplit(url).netloc]. The validation of a
    bracketed host (an IPv6 or IPvFuture literal) is the library's
    [_check_bracketed_host], taken as a parameter. [_checknetloc] only
    raises when NFKC normalisation produces one of [/?#@:], which no
    code point below 256 does. *)

Section Pipeline.

Variable bracketed_host_ok : string -> bool.

Definition c0_control_or_space (c : ascii) : bool := PyStr.in_range 0 32 c.

Definition scheme_char (c : ascii) : bool :=
  PyStr.isascii_alpha c || PyStr.isdigit c
  || Ascii.eqb c "+" || Ascii.eqb c "-" || Ascii.eqb c ".".

(** [_UNSAFE_URL_BYTES_TO_REMOVE = ['\t', '\r', '\n']] *)
Definition remove_unsafe (url : string) : string :=
  PyStr.remove_char "010" (PyStr.remove_char "013" (PyStr.remove_char "009" url)).

(** [_splitnetloc(url, start)] *)
Definition splitnetloc (url : string) (start : nat) : string * string :=
  let delim :=
    foldl (fun delim c =>
             match PyStr.find_from c start url with
             | Some wdelim => Nat.min delim wdelim
             | None => delim
             end)
          (String.length url) ["/"; "?"; "#"]%char in
  (PyStr.slice start delim url, PyStr.drop delim url).

(** The scheme split: [i = url.find(':')], and when the prefix before it
    is a scheme the url continues after the colon. *)
Definition strip_scheme (url : string) : string :=
  match PyStr.find ":" url, url with
  | Some (S i), String c0 _ =>
      if PyStr.isascii_alpha c0 && PyStr.all_chars scheme_char (PyStr.take (S i) url)
      then PyStr.drop (S (S i)) url
      else url
  | _, _ => url
  end.

Definition urlsplit_netloc (url : string) : result string :=
  let url := PyStr.lstrip_by c0_control_or_space url in
  let url := remove_unsafe url in
  let url := strip_scheme url in
  if String.eqb (PyStr.take 2 url) "//" then
    let netloc := fst (splitnetloc url 2) in
    let lb := PyStr.contains_char "[" netloc in
    let rb := PyStr.contains_char "]" netloc in
    if (lb && negb rb) || (rb && negb lb) then Raise ValueError
    else if lb && rb then
      let bracketed_host := PyStr.split_head "]" (PyStr.partition_tail "[" netloc) in
      if bracketed_host_ok bracketed_host then Ok netloc else Raise ValueError
    else Ok netloc
  else Ok "".

(** ** Domain Normalizer

    [normalize_domain], the same text in enf_scraper_apify.py,
    enf_detail_scraper.py and enf_rescrape_missing.py. *)

Definition normalize_domain (url : string) : result string :=
  if String.eqb url "" || String.eqb (PyStr.strip url) "" then Ok ""
  else
    let url := PyStr.strip url in
    let url :=
      if PyStr.startswith "http://" url || PyStr.startswith "https://" url
      then url
      else "https://" +:+ url in
    try_except
      (netloc ← urlsplit_netloc url;
       let domain := PyStr.lower netloc in
       let domain :=
         if PyStr.startswith "www." domain then PyStr.drop 4 domain else domain in
       let domain :=
         if PyStr.contains_char ":" domain then PyStr.split_head ":" domain else domain in
       Ok domain)
      (fun _ => Ok "").

(** The string the callers receive. The second branch stands for an
    exception reaching the caller, which [normalize_domain_total] below
    shows never happens. *)
Definition normalize_domain_str (url : string) : string :=
  match normalize_domain url with
  | Ok d => d
  | Raise _ => ""
  end.

(** ** Remote job data

    What the page function returns for one page, after the scripts'
    [item.get(key, default)] reads: [entryIndex] is [None] when the key is
    absent, the other fields take their defaults. *)

Record item : Type := Item {
  item_detail_url : string;
  item_entryIndex : option nat;
  websites : list string;
  phone : string;
  address : string;
}.

(** [{}] read through the same [get]s. *)
Definition empty_item : item := Item "" None [] "" "".

(** One element of [startUrls]: the url and [userData.entryIndex] (the
    constant method and the company name sent along are left out). *)
Record request : Type := Request {
  req_url : string;
  req_entryIndex : nat;
}.

#[global] Instance request_eq_dec : EqDecision request.
Proof. solve_decision. Defined.

(** ** Batch Planner *)

(** [math.ceil(n / b)] for a length [n] and a batch size [b > 0] (the
    scripts use 100 and 200): the floating-point quotient is exact far
    beyond any list Python can hold. *)
Definition ceil_div (n b : nat) : nat :=
  n / b + (if Nat.eqb (n mod b) 0 then 0 else 1).

(** enf_rescrape_missing.py, main: the slices [missing_indices[start:end]]
    for [batch_num] in [range(1, total_batches + 1)]. *)
Definition batch_of {A} (BATCH_SIZE : nat) (work : list A) (batch_num : nat) : list A :=
  let start_idx := (batch_num - 1) * BATCH_SIZE in
  let end_idx := Nat.min (start_idx + BATCH_SIZE) (length work) in
  py_slice start_idx end_idx work.

Definition batches {A} (BATCH_SIZE : nat) (work : list A) : list (list A) :=
  let total_batches := ceil_div (length work) BATCH_SIZE in
  batch_of BATCH_SIZE work <$> py_range 1 (total_batches + 1).

(** enf_rescrape_wecp.py, main: the same slices with [batch_num] in
    [range(num_batches)]. *)
Definition wecp_batch_of {A} (BATCH_SIZE : nat) (work : list A) (batch_num : nat) : list A :=
  let batch_start := batch_num * BATCH_SIZE in
  let batch_end := Nat.min (batch_start + BATCH_SIZE) (length work) in
  py_slice batch_start batch_end work.

Definition wecp_batches {A} (BATCH_SIZE : nat) (work : list A) : list (list A) :=
  let num_batches := ceil_div (length work) BATCH_SIZE in
  wecp_batch_of BATCH_SIZE work <$> py_range 0 num_batches.

(** enf_detail_scraper.py, main: a chunk is the index range
    [range(start_idx, min(end_idx, len(entries)))] that
    [prepare_urls_for_batch] and [update_entries_with_results] walk. *)
Definition detail_batch_range (BATCH_SIZE n batch_num : nat) : list nat :=
  let start_idx := (batch_num - 1) * BATCH_SIZE in
  let end_idx := start_idx + BATCH_SIZE in
  py_range start_idx (Nat.min end_idx n).

Definition detail_batch_ranges (BATCH_SIZE n : nat) : list (list nat) :=
  let total_batches := ceil_div n BATCH_SIZE in
  detail_batch_range BATCH_SIZE n <$> py_range 1 (total_batches + 1).

(** ** Preparing the submission *)

(** enf_rescrape_missing.py, get_missing_indices *)
Definition get_missing_indices (entries : list entry) : list nat :=
  (List.filter (fun p => negb (has_value p.2 "website_url_primary"))
               (imap pair entries)).*1.

(** enf_rescrape_missing.py, prepare_urls: [entries[idx]] raises
    [IndexError] outside the list. *)
Definition prepare_urls_body (entries : list entry) (acc : result (list request))
    (idx : nat) : result (list request) :=
  urls ← acc;
  match entries !! idx with
  | None => Raise IndexError
  | Some e =>
      let detail_url := PyDict.get_or e "detail_url" "" in
      if truthy detail_url
      then Ok (urls ++ [Request detail_url idx])
      else Ok urls
  end.

Definition prepare_urls (entries : list entry) (indices : list nat) : result (list request) :=
  foldl (prepare_urls_body entries) (Ok []) indices.

(** enf_detail_scraper.py, prepare_urls_for_batch *)
Definition prepare_urls_for_batch_body (entries : list entry) (urls : list request)
    (i : nat) : list request :=
  match entries !! i with
  | None => urls
  | Some e =>
      let detail_url := PyDict.get_or e "detail_url" "" in
      if truthy detail_url
      then urls ++ [Request detail_url i]
      else urls
  end.

Definition prepare_urls_for_batch (entries : list entry) (start_idx end_idx : nat)
  : list request :=
  foldl (prepare_urls_for_batch_body entries) []
        (py_range start_idx (Nat.min end_idx (length entries))).

(** ** Result Merger *)

(** The body of [if websites:], the same statements in update_entries
    and update_entries_with_results. *)
Definition set_websites (ws : list string) (e : entry) : entry :=
  match ws with
  | [] => e
  | w0 :: _ =>
      let e := PyDict.set e "website_url_primary" w0 in
      let e := PyDict.set e "website_domain_primary" (normalize_domain_str w0) in
      if 1 <? length ws then
        let e := PyDict.set e "website_count" (str_of_nat (length ws)) in
        let e := PyDict.set e "website_urls_all" (PyStr.join "|" ws) in
        PyDict.set e "website_domains_all" (PyStr.join "|" (normalize_domain_str <$> ws))
      else e
  end.

(** [if v and not e.get(k): e[k] = v] *)
Definition fill_if_empty (k v : string) (e : entry) : entry :=
  if truthy v && negb (has_value e k) then PyDict.set e k v else e.

(** enf_rescrape_missing.py, update_entries: what one [(idx, item)] of
    the loop does to [entries[idx]]. *)
Definition merge_item (it : item) (e : entry) : entry :=
  let e := set_websites (websites it) e in
  let e := fill_if_empty "phone" (phone it) e in
  fill_if_empty "address" (address it) e.

(** Whether the loop body evaluates [entries[idx]] at all: the guards
    short-circuit on an empty phone and address. *)
Definition reads_entry (it : item) : bool :=
  negb (bool_decide (websites it = [])) || truthy (phone it) || truthy (address it).

Definition found_website (it : item) : nat :=
  match websites it with
  | [] => 0
  | _ => 1
  end.

(** enf_rescrape_missing.py, update_entries: returns the entries after
    the in-place updates and the count [updated]. *)
Definition update_entries_body (acc : result (list entry * nat)) (kv : nat * item)
  : result (list entry * nat) :=
  '(entries, updated) ← acc;
  let '(idx, it) := kv in
  if reads_entry it then
    match entries !! idx with
    | None => Raise IndexError
    | Some e => Ok (<[idx := merge_item it e]> entries, updated + found_website it)
    end
  else Ok (entries, updated).

Definition update_entries (entries : list entry) (results : dict nat item)
  : result (list entry * nat) :=
  foldl update_entries_body (Ok (entries, 0)) results.

(** enf_detail_scraper.py, update_entries_with_results: what the loop
    body does to [entry] given its [result]. *)
Definition apply_result (r : item) (e : entry) : entry :=
  let e :=
    match websites r with
    | [] =>
        let e := PyDict.set e "website_url_primary" "" in
        PyDict.set e "website_domain_primary" ""
    | _ => set_websites (websites r) e
    end in
  let e := PyDict.set e "phone" (phone r) in
  PyDict.set e "address" (address r).

(** The result the loop body reads for [entry]:
    [results.get(entry.get("detail_url", ""), {})]. *)
Definition result_for (results : dict string item) (e : entry) : item :=
  let detail_url := PyDict.get_or e "detail_url" "" in
  PyDict.get_or results detail_url empty_item.

Definition update_entries_with_results_body (results : dict string item)
    (acc : list entry * nat) (i : nat) : list entry * nat :=
  let '(entries, updated) := acc in
  match entries !! i with
  | None => (entries, updated)
  | Some e =>
      let r := result_for results e in
      (<[i := apply_result r e]> entries, updated + found_website r)
  end.

Definition update_entries_with_results (entries : list entry) (results : dict string item)
    (start_idx end_idx : nat) : list entry * nat :=
  foldl (update_entries_with_results_body results) (entries, 0)
        (py_range start_idx (Nat.min end_idx (length entries))).

(** ** Remote Extraction Client *)

(** The run object [client.actor(..).call(..)] returns. *)
Record run : Type := Run {
  run_id : string;
  defaultDatasetId : option string;
}.

(** One pass through the [try] of the polling loop: the request or the
    reading of its answer raised, or the status was read with
    [get("status", "UNKNOWN")]. *)
Inductive poll_reply : Type :=
| PollRaised (e : exn)
| PollStatus (status : string).

(** The service's answers to the calls made for one chunk. *)
Record world : Type := World {
  actor_call : result run;
  run_get : nat -> poll_reply;
  iterate_items : result (list item);
}.

Definition terminal (status : string) : bool :=
  bool_decide (status ∈ ["SUCCEEDED"; "FAILED"; "ABORTED"; "TIMED-OUT"]).

(** The [while True] polling loop from its [n]-th request on; [fuel]
    bounds the number of requests, [None] is a loop still running. *)
Fixpoint poll_status (w : world) (n fuel : nat) : option string :=
  match fuel with
  | 0 => None
  | S fuel =>
      match run_get w n with
      | PollStatus status =>
          if terminal status then Some status else poll_status w (S n) fuel
      | PollRaised _ => poll_status w (S n) fuel
      end
  end.

Section Client.
Context {K : Type} `{EqDecision K}.

(** How a script keys the mapping it returns. *)
Variable key_of : item -> option K.

Definition collect_results_body (results : dict K item) (it : item) : dict K item :=
  match key_of it with
  | Some k => PyDict.set results k it
  | None => results
  end.

Definition collect_results (items : list item) : dict K item :=
  foldl collect_results_body [] items.

(** run_apify_batch, from the submission on. *)
Definition run_apify_batch (w : world) (fuel : nat) : option (dict K item) :=
  match actor_call w with
  | Raise _ => Some []
  | Ok actor_run =>
      status ← poll_status w 0 fuel;
      Some (if String.eqb status "SUCCEEDED" then
              match defaultDatasetId actor_run with
              | Some dataset_id =>
                  if truthy dataset_id then
                    match iterate_items w with
                    | Ok items => collect_results items
                    | Raise _ => []
                    end
                  else []
              | None => []
              end
            else [])
  end.

End Client.

(** enf_detail_scraper.py: [url = item.get("detail_url", ""); if url:] *)
Definition key_by_url (it : item) : option string :=
  if truthy (item_detail_url it) then Some (item_detail_url it) else None.

(** enf_rescrape_missing.py: [idx = item.get("entryIndex"); if idx is not None:] *)
Definition key_by_index (it : item) : option nat := item_entryIndex it.

(** ** Record Store *)

Record csv_file : Type := Csv {
  csv_header : list string;
  csv_rows : list (list string);
}.

Definition base_cols : list string :=
  ["company_name"; "area"; "battery_storage"; "detail_url"; "source_page";
   "website_url_primary"; "website_domain_primary"; "phone"; "address";
   "website_count"; "website_urls_all"; "website_domains_all"].

(** The order in which [for col in existing_cols] visits a set in one
    call. Python does not fix it: it varies with the hash seed of the
    process and with the history of the set, so a statement about two
    calls takes an order for each. *)
Variable set_iter : gset string -> list string.

(** enf_detail_scraper.py, get_fieldnames.
    [existing_cols.update(entry.keys())] over the entries: *)
Definition existing_cols_of (entries : list entry) : gset string :=
  foldl (fun cols (e : entry) => cols ∪ list_to_set (PyDict.keys e)) ∅ entries.

(** [if col not in fieldnames: fieldnames.append(col)] *)
Definition append_if_new (fieldnames : list string) (col : string) : list string :=
  if bool_decide (col ∈ fieldnames) then fieldnames else fieldnames ++ [col].

Definition get_fieldnames (entries : list entry) : list string :=
  let existing_cols := existing_cols_of entries in
  let fieldnames :=
    List.filter (fun c => bool_decide (c ∈ existing_cols) || bool_decide (c ∈ base_cols))
                base_cols in
  foldl append_if_new fieldnames (set_iter existing_cols).

(** A [csv.DictWriter] row with [extrasaction="ignore"]: the fields in
    header order, [""] for a field the record lacks. *)
Definition row_of (fieldnames : list string) (e : entry) : list string :=
  (fun f => PyDict.get_or e f "") <$> fieldnames.

(** The default [extrasaction="raise"]: a key outside the header is a
    [ValueError]. *)
Definition checked_row_of (fieldnames : list string) (e : entry) : result (list string) :=
  if forallb (fun k => bool_decide (k ∈ fieldnames)) (PyDict.keys e)
  then Ok (row_of fieldnames e)
  else Raise ValueError.

(** enf_detail_scraper.py, save_csv: the file written, [None] when
    nothing is written. *)
Definition save_csv (entries : list entry) : option csv_file :=
  match entries with
  | [] => None
  | _ =>
      let fieldnames := get_fieldnames entries in
      Some (Csv fieldnames (row_of fieldnames <$> entries))
  end.

(** [writer.writerows(entries)] under the default [extrasaction]: the
    rows written before the first record that raises, and how it ended. *)
Fixpoint write_rows (fieldnames : list string) (entries : list entry)
  : list (list string) * result unit :=
  match entries with
  | [] => ([], Ok ())
  | e :: rest =>
      match checked_row_of fieldnames e with
      | Raise x => ([], Raise x)
      | Ok row =>
          let '(rows, r) := write_rows fieldnames rest in
          (row :: rows, r)
      end
  end.

(** enf_rescrape_missing.py, save_csv, and the inline writes of
    enf_rescrape_wecp.py: the content of the file afterwards, and whether
    the write raised. *)
Definition save_csv_with (entries : list entry) (fieldnames : list string)
  : csv_file * result unit :=
  let '(rows, r) := write_rows fieldnames entries in
  (Csv fieldnames rows, r).

(** enf_scraper_apify.py, save_to_csv *)
Definition listing_fieldnames : list string :=
  ["company_name"; "area"; "battery_storage"; "detail_url"; "source_page"].

Definition dedup_step (acc : gset string * list entry) (inst : entry)
  : gset string * list entry :=
  let '(seen, unique) := acc in
  let url := PyDict.get_or inst "detail_url" "" in
  if truthy url && negb (bool_decide (url ∈ seen)) then ({[url]} ∪ seen, unique ++ [inst])
  else if negb (truthy url) then (seen, unique ++ [inst])
  else (seen, unique).

Definition save_to_csv (installers : list entry) : csv_file * list entry :=
  let unique := (foldl dedup_step (∅, []) installers).2 in
  (Csv listing_fieldnames (row_of listing_fieldnames <$> unique), unique).

(** ** The batch loops *)

(** What a batch loop carries: the entries, the running total, the last
    content written to the store file ([None]: not written by this run)
    and the batch numbers whose job was submitted. *)
Record run_state : Type := RunState {
  st_entries : list entry;
  st_total : nat;
  st_file : option csv_file;
  st_submitted : list nat;
}.



(** enf_rescrape_missing.py, main, one iteration of the batch loop. An
    exception of [prepare_urls], [update_entries] or [save_csv] is not
    caught and ends the run. *)
Definition rescrape_batch (BATCH_SIZE : nat) (missing_indices : list nat)
    (fieldnames : list string) (worlds : nat -> world) (fuel : nat)
    (st : run_state) (batch_num : nat) : option (result run_state) :=
  let batch_indices := batch_of BATCH_SIZE missing_indices batch_num in
  match prepare_urls (st_entries st) batch_indices with
  | Raise x => Some (Raise x)
  | Ok [] => Some (Ok st)
  | Ok (_ :: _) =>
      results ← run_apify_batch key_by_index (worlds batch_num) fuel;
      Some ('(entries, found) ← update_entries (st_entries st) results;
            let '(file, written) := save_csv_with entries fieldnames in
            _ ← written;
            Ok (RunState entries (st_total st + found) (Some file)
                         (st_submitted st ++ [batch_num])))
  end.


(** enf_rescrape_wecp.py *)

Record wecp_item : Type := WecpItem {
  wecp_url : option string;
  wecp_website : string;
}.

(** An element of [urls_to_scrape]. *)
Record target : Type := Target {
  tgt_index : nat;
  tgt_url : string;
}.

(** The answers to one chunk: [call] waits for the run itself, and the
    run's status is printed, never tested. *)
Record wecp_world : Type := WecpWorld {
  wecp_call : result string;
  wecp_items : result (list wecp_item);
}.

(** enf_rescrape_wecp.py, extract_domain *)
Definition extract_domain (url : string) : string :=
  if truthy url then
    match urlsplit_netloc url with
    | Ok domain => if PyStr.startswith "www." domain then PyStr.drop 4 domain else domain
    | Raise _ => ""
    end
  else "".

(** [{r['url']: r for r in results}] *)
Definition url_to_result_body (acc : result (dict string wecp_item)) (r : wecp_item)
  : result (dict string wecp_item) :=
  m ← acc;
  match wecp_url r with
  | Some url => Ok (PyDict.set m url r)
  | None => Raise KeyError
  end.

Definition url_to_result (results : list wecp_item) : result (dict string wecp_item) :=
  foldl url_to_result_body (Ok []) results.

(** The [for item in batch] loop: the rows after the assignments made,
    and the count or the exception that cut the loop short. *)
Definition wecp_update_body (m : dict string wecp_item) (acc : list entry * result nat)
    (tgt : target) : list entry * result nat :=
  let '(rows, found) := acc in
  match found with
  | Raise _ => (rows, found)
  | Ok batch_found =>
      match PyDict.get m (tgt_url tgt) with
      | None => (rows, found)
      | Some r =>
          let website := PyStr.strip (wecp_website r) in
          if truthy website then
            match rows !! tgt_index tgt with
            | None => (rows, Raise IndexError)
            | Some e =>
                let e := PyDict.set e "website_url_primary" website in
                let e := PyDict.set e "website_domain_primary" (extract_domain website) in
                (<[tgt_index tgt := e]> rows, Ok (batch_found + 1))
            end
          else (rows, found)
      end
  end.

Definition wecp_update (rows : list entry) (m : dict string wecp_item) (batch : list target)
  : list entry * result nat :=
  foldl (wecp_update_body m) (rows, Ok 0) batch.

(** One iteration: the whole body is inside [try], and the handler is
    [continue]. *)
Definition wecp_batch (fieldnames : list string) (worlds : nat -> wecp_world)
    (st : run_state) (batch_num : nat) (batch : list target) : run_state :=
  let submitted := st_submitted st ++ [batch_num] in
  match wecp_call (worlds batch_num), wecp_items (worlds batch_num) with
  | Ok _, Ok results =>
      match url_to_result results with
      | Raise _ => RunState (st_entries st) (st_total st) (st_file st) submitted
      | Ok m =>
          match wecp_update (st_entries st) m batch with
          | (rows, Raise _) => RunState rows (st_total st) (st_file st) submitted
          | (rows, Ok batch_found) =>
              let '(file, _) := save_csv_with rows fieldnames in
              RunState rows (st_total st + batch_found) (Some file) submitted
          end
      end
  | _, _ => RunState (st_entries st) (st_total st) (st_file st) submitted
  end.

Definition wecp_loop (BATCH_SIZE : nat) (fieldnames : list string)
    (worlds : nat -> wecp_world) (urls_to_scrape : list target) (st : run_state)
  : run_state :=
  foldl (fun st batch_num =>
           wecp_batch fieldnames worlds st batch_num
                      (wecp_batch_of BATCH_SIZE urls_to_scrape batch_num))
        st (py_range 0 (ceil_div (length urls_to_scrape) BATCH_SIZE)).

End Pipeline.

(** * Further code of the scripts *)

(** ** Sorting

    [list.sort] and [sorted] are stable; the list they return is the one
    this insertion sort returns. With [reverse=True] the comparison is
    reversed and records with equal keys still keep their order. *)

Fixpoint insert_by {A} (le : A -> A -> bool) (x : A) (l : list A) : list A :=
  match l with
  | [] => [x]
  | y :: r => if le x y then x :: y :: r else y :: insert_by le x r
  end.

Definition stable_sort {A} (le : A -> A -> bool) (l : list A) : list A :=
  foldr (insert_by le) [] l.

(** The comparison of [sort(key=...)] on integer keys. *)
Definition key_le {A} (key : A -> Z) (x y : A) : bool := (key x <=? key y)%Z.

(** ** enf_detail_scraper.py, read_and_sort_csv *)

(** A value of a row while it is sorted: the strings read from the file
    and the integer sort key. *)
Inductive pyval : Type :=
| VStr (s : string)
| VInt (n : Z).

(** [del d[k]]; the key is present where the scripts delete. *)
Fixpoint dict_del {V} (d : list (string * V)) (k : string) : list (string * V) :=
  match d with
  | [] => []
  | (k', v) :: r => if decide (k = k') then r else (k', v) :: dict_del r k
  end.

Section ReadAndSort.

(** [int(s)] on a string, [None] when it raises [ValueError]. *)
Variable py_int : string -> option Z.

(** [int(row.get("source_page", 0))] under the [try]: [0] when the
    conversion raises, and when the column is missing. *)
Definition source_page_int (row : list (string * pyval)) : Z :=
  match PyDict.get row "source_page" with
  | Some (VStr s) =>
      match py_int s with
      | Some n => n
      | None => 0%Z
      end
  | Some (VInt n) => n
  | None => 0%Z
  end.

(** The sort key read back: [x["_source_page_int"]]. *)
Definition sort_key (row : list (string * pyval)) : Z :=
  match PyDict.get row "_source_page_int" with
  | Some (VInt n) => n
  | _ => 0%Z
  end.

Definition read_and_sort_csv (rows : list (list (string * pyval)))
  : list (list (string * pyval)) :=
  let entries :=
    (fun row => PyDict.set row "_source_page_int" (VInt (source_page_int row))) <$> rows in
  let entries := stable_sort (key_le sort_key) entries in
  (fun entry => dict_del entry "_source_page_int") <$> entries.

End ReadAndSort.

(** ** enf_scraper_apify.py, generate_urls *)

Definition BASE_URL : string :=
  "https://www.enfsolar.com/directory/installer/United%20States".

(** One element of the list: the url and [userData.pageNum]. *)
Record page_request : Type := PageRequest {
  page_url : string;
  page_num : nat;
}.

Definition generate_urls (start_page end_page : nat) : list page_request :=
  (fun page => PageRequest (BASE_URL +:+ "?page=" +:+ str_of_nat page) page)
    <$> py_range start_page (end_page + 1).

(** ** enf_scraper_apify.py, generate_summary: the areas *)

(** [d[k] = d.get(k, 0) + 1] *)
Definition count_step (d : list (string * nat)) (k : string) : list (string * nat) :=
  PyDict.set d k (PyDict.get_or d k 0 + 1).

(** [i.get("area", "Unknown") or "Unknown"] *)
Definition area_of (i : entry) : string :=
  let area := PyDict.get_or i "area" "Unknown" in
  if truthy area then area else "Unknown".

(** The [areas] dictionary after the counting loop. *)
Definition count_areas (installers : list entry) : list (string * nat) :=
  foldl count_step [] (area_of <$> installers).

(** [sorted(areas.items(), key=lambda x: x[1], reverse=True)[:15]] *)
Definition top_areas (installers : list entry) : list (string * nat) :=
  take 15 (stable_sort (fun x y : string * nat => y.2 <=? x.2) (count_areas installers)).

(** ** enf_rescrape_wecp.py, main: selecting and clearing *)

(** The rows whose [website_count] is none of [''], ['0'], ['1']. *)
Definition multi_website_indices (rows : list entry) : list nat :=
  (List.filter
     (fun p : nat * entry =>
        negb (bool_decide (PyDict.get_or p.2 "website_count" "0" ∈ [""; "0"; "1"])))
     (imap pair rows)).*1.

(** One pass of the clearing loop: [rows[idx]['detail_url']] raises
    [KeyError] on a row without that column. *)
Definition clear_primary_body (acc : result (list entry * list target)) (idx : nat)
  : result (list entry * list target) :=
  '(rows, urls_to_scrape) ← acc;
  match rows !! idx with
  | None => Raise IndexError
  | Some e =>
      let e := PyDict.set e "website_url_primary" "" in
      let e := PyDict.set e "website_domain_primary" "" in
      match PyDict.get e "detail_url" with
      | None => Raise KeyError
      | Some url => Ok (<[idx := e]> rows, urls_to_scrape ++ [Target idx url])
      end
  end.

Definition clear_primary (rows : list entry) (indices : list nat)
  : result (list entry * list target) :=
  foldl clear_primary_body (Ok (rows, [])) indices.

(** ** csv.DictReader *)

(** The row [DictReader] yields for a line with as many cells as the
    header has fields: [dict(zip(fieldnames, cells))]. *)
Definition read_row (fieldnames : list string) (cells : list string) : entry :=
  foldl (fun d kv => PyDict.set d kv.1 kv.2) [] (zip fieldnames cells).

(** enf_rescrape_wecp.py, main: [still_missing], the selected rows whose
    primary website is blank at the end. *)
Definition still_missing_body (rows : list entry) (acc : result nat) (idx : nat)
  : result nat :=
  n ← acc;
  match rows !! idx with
  | None => Raise IndexError
  | Some e =>
      Ok (if truthy (PyStr.strip (PyDict.get_or e "website_url_primary" "")) then n
          else n + 1)
  end.

Definition still_missing (rows : list entry) (indices : list nat) : result nat :=
  foldl (still_missing_body rows) (Ok 0) indices.

(** enf_rescrape_wecp.py, main, from the rows read to the figures of the
    final summary. *)
Record wecp_summary : Type := WecpSummary {
  entries_processed : nat;
  websites_found : nat;
  still_missing_count : nat;
}.

(** [connect] is the outcome of [client.user("me").get()]. The first save
    and the connection are outside any [try]. [Ok None] is the early
    [return] when no row is selected. *)
Definition wecp_main (ok : string -> bool) (BATCH_SIZE : nat) (fieldnames : list string)
    (rows : list entry) (connect : result unit) (worlds : nat -> wecp_world)
  : result (option (list entry * wecp_summary)) :=
  let multi_website_indices := multi_website_indices rows in
  match multi_website_indices with
  | [] => Ok None
  | _ :: _ =>
      '(rows, urls_to_scrape) ← clear_primary rows multi_website_indices;
      let '(file, written) := save_csv_with rows fieldnames in
      _ ← written;
      _ ← connect;
      let st :=
        wecp_loop ok BATCH_SIZE fieldnames worlds urls_to_scrape
                  (RunState rows 0 (Some file) []) in
      still_missing ← still_missing (st_entries st) multi_website_indices;
      Ok (Some (st_entries st,
                WecpSummary (length multi_website_indices) (st_total st) still_missing))
  end.

(** * Vocabulary of the statements *)

(** [inst.get("detail_url", "")] *)
Definition detail_url_of (inst : entry) : string := PyDict.get_or inst "detail_url" "".

Definition field_at (entries : list entry) (i : nat) (k : string) : option string :=
  e ← entries !! i; PyDict.get e k.

(** The request a record at index [i] contributes, if any. *)
Definition submitted_for (entries : list entry) (i : nat) : option request :=
  e ← entries !! i;
  if has_value e "detail_url" then Some (Request (PyDict.get_or e "detail_url" "") i)
  else None.

(** A run of assignments [e[k] = v], first to last. *)
Definition assign (kvs : list (string * string)) (e : entry) : entry :=
  foldl (fun e kv => PyDict.set e kv.1 kv.2) e kvs.

Definition website_keys : list string :=
  ["website_url_primary"; "website_domain_primary"; "website_count";
   "website_urls_all"; "website_domains_all"].

(** The assignments of the [if websites:] block. *)
Definition website_assignments (ok : string -> bool) (ws : list string)
  : list (string * string) :=
  match ws with
  | [] => []
  | w0 :: _ =>
      [("website_url_primary", w0); ("website_domain_primary", normalize_domain_str ok w0)]
      ++ (if 1 <? length ws then
            [("website_count", str_of_nat (length ws));
             ("website_urls_all", PyStr.join "|" ws);
             ("website_domains_all", PyStr.join "|" (normalize_domain_str ok <$> ws))]
          else [])
  end.

(** The assignments update_entries_with_results makes to one entry. *)
Definition result_assignments (ok : string -> bool) (r : item) : list (string * string) :=
  match websites r with
  | [] => [("website_url_primary", ""); ("website_domain_primary", "")]
  | ws => website_assignments ok ws
  end ++ [("phone", phone r); ("address", address r)].

(** What update_entries_with_results leaves in an entry of the range. *)
Definition applied (ok : string -> bool) (results : dict string item) (e : entry) : entry :=
  apply_result ok (result_for results e) e.

(** The count update_entries returns: the items with a website. *)
Definition found_count (results : dict nat item) : nat :=
  sum_list (found_website <$> results.*2).

(** The polling loop sees [status] as its first terminal status, at its
    [n]-th request: every earlier request raised or gave a status that is
    not terminal. *)
Definition first_terminal (w : world) (n : nat) (status : string) : Prop :=
  run_get w n = PollStatus status
  /\ terminal status = true
  /\ forall m s, m < n -> run_get w m = PollStatus s -> terminal s = false.

(** The header the specification describes: the base fields, then every
    other field in the order the records first show it. *)
Definition first_seen_fieldnames (entries : list entry) : list string :=
  foldl append_if_new base_cols (concat (PyDict.keys <$> entries)).

(** A set iteration that visits the names in alphabetical order. *)
Definition alphabetical_iter (s : gset string) : list string :=
  merge_sort String.le (elements s).

(** Another iteration of the same sets: the reverse order. *)
Definition reverse_alphabetical_iter (s : gset string) : list string :=
  reverse (alphabetical_iter s).

(** The indices an [enumerate] loop with an [if] collects, counting
    from [k]. *)
Definition select_from {A} (p : A -> bool) (k : nat) (l : list A) : list nat :=
  (List.filter (fun q : nat * A => p q.2) (imap (fun i e => (k + i, e)) l)).*1.

(** What the clearing loop of enf_rescrape_wecp.py leaves in a selected
    row. *)
Definition cleared (e : entry) : entry :=
  PyDict.set (PyDict.set e "website_url_primary" "") "website_domain_primary" "".

(** Whether the result of the record at [i] lists a website. *)
Definition found_at (results : dict string item) (entries : list entry) (i : nat) : nat :=
  match entries !! i with
  | Some e => found_website (result_for results e)
  | None => 0
  end.

(** The row at [idx] exists and its primary website is blank. *)
Definition blank_at (rows : list entry) (idx : nat) : bool :=
  match rows !! idx with
  | Some e => negb (truthy (PyStr.strip (PyDict.get_or e "website_url_primary" "")))
  | None => false
  end.

(** The chunk's results hold a website for the target. *)
Definition wecp_found (m : dict string wecp_item) (tgt : target) : bool :=
  match PyDict.get m (tgt_url tgt) with
  | Some r => truthy (PyStr.strip (wecp_website r))
  | None => false
  end.

(** What the update loop of enf_rescrape_wecp.py leaves in the row of a
    target. *)
Definition wecp_resolved (ok : string -> bool) (m : dict string wecp_item) (tgt : target)
    (e : entry) : entry :=
  match PyDict.get m (tgt_url tgt) with
  | Some r =>
      let website := PyStr.strip (wecp_website r) in
      if truthy website then
        PyDict.set (PyDict.set e "website_url_primary" website)
                   "website_domain_primary" (extract_domain ok website)
      else e
  | None => e
  end.

(** What one chunk, and the loop, keep and count on the targets [ts]. *)
Definition wecp_accounts (st st' : run_state) (ts : list target) : Prop :=
  length (st_entries st') = length (st_entries st)
  /\ (forall i, i ∉ tgt_index <$> ts -> st_entries st' !! i = st_entries st !! i)
  /\ (forall i k, k ≠ "website_url_primary" -> k ≠ "website_domain_primary" ->
        field_at (st_entries st') i k = field_at (st_entries st) i k)
  /\ st_total st'
     + length (filter (fun i => blank_at (st_entries st') i = true) (tgt_index <$> ts))
     = st_total st + length ts.

(** ** Sample data *)

(** A validator of bracketed hosts; none of the samples has brackets. *)
Definition no_brackets : string -> bool := fun _ => true.

Definition acme_entry : entry :=
  [("company_name", "Acme Solar");
   ("detail_url", "https://www.enfsolar.com/acme");
   ("website_url_primary", "http://acme.com");
   ("website_domain_primary", "acme.com");
   ("phone", "555-1234");
   ("address", "1 Main St")].

Definition acme_page : item :=
  Item "https://www.enfsolar.com/acme" (Some 0) ["http://acme.com"] "" "".

Definition acme_page_other_phone : item :=
  Item "https://www.enfsolar.com/acme" (Some 0) [] "555-9999" "".


(** A store whose second and third records have no detail URL. *)
Definition four_entries : list entry :=
  [[("company_name", "A"); ("detail_url", "https://www.enfsolar.com/a")];
   [("company_name", "B"); ("detail_url", "")];
   [("company_name", "C")];
   [("company_name", "D"); ("detail_url", "https://www.enfsolar.com/d")]].

Definition two_site_page : item :=
  Item "https://www.enfsolar.com/acme" (Some 0)
       ["http://acme.com"; "http://www.acme-solar.com/home"] "555-9999" "".



(** A store with two fields outside the base columns. *)
Definition zip_fax_store : list entry :=
  [[("company_name", "Acme Solar"); ("zip", "94105"); ("fax", "555-0000")]].

(** [int(s)] on the strings of ASCII digits; the sample rows hold no
    other string it accepts. *)
Definition digits_int (s : string) : option Z :=
  Z.of_uint <$> DecimalString.NilZero.uint_of_string s.

(** Rows as read, pages out of order and one page that is no number. *)
Definition paged_rows : list (list (string * pyval)) :=
  [[("company_name", VStr "B"); ("source_page", VStr "2")];
   [("company_name", VStr "A"); ("source_page", VStr "1")];
   [("company_name", VStr "C"); ("source_page", VStr "n/a")];
   [("company_name", VStr "D"); ("source_page", VStr "1")]].

(** A store whose first and third rows list several websites. *)
Definition wecp_rows : list entry :=
  [[("detail_url", "https://www.enfsolar.com/a"); ("website_url_primary", "http://a.com");
    ("website_count", "2")];
   [("detail_url", "https://www.enfsolar.com/b"); ("website_url_primary", "http://b.com");
    ("website_count", "1")];
   [("detail_url", "https://www.enfsolar.com/c"); ("website_count", "3")]].

(** A record without website and with an empty phone. *)
Definition bare_entry : entry :=
  [("company_name", "Bare Solar");
   ("detail_url", "https://www.enfsolar.com/acme");
   ("phone", "")].

(** The job succeeds at once and returns two items for one page. *)
Definition repeated_item_world : world :=
  World (Ok (Run "run-3" (Some "dataset-3")))
        (fun _ => PollStatus "SUCCEEDED")
        (Ok [acme_page; acme_page_other_phone]).

(** The job is reported as RUNNING for ever. *)
Definition stuck_world : world :=
  World (Ok (Run "run-4" (Some "dataset-4"))) (fun _ => PollStatus "RUNNING") (Ok []).

(** The job succeeds at once and returns one item with two websites for
    the record at position 0. *)
Definition two_site_world : world :=
  World (Ok (Run "run-5" (Some "dataset-5")))
        (fun _ => PollStatus "SUCCEEDED")
        (Ok [two_site_page]).

(** One chunk returns a website for the first target, the other fails. *)
Definition wecp_sample_worlds (batch_num : nat) : wecp_world :=
  if Nat.eqb batch_num 0 then
    WecpWorld (Ok "SUCCEEDED")
              (Ok [WecpItem (Some "https://www.enfsolar.com/a") " http://www.a-solar.com/home "])
  else WecpWorld (Raise ClientError) (Ok []).

Definition wecp_header : list string :=
  ["detail_url"; "website_url_primary"; "website_domain_primary"; "website_count"].

(** * Proofs *)

Ltac solve_decide := refine (bool_decide_unpack _ _); vm_compute; exact I.

(** ** Domain Normalizer *)

Lemma lstrip_by_all p s : PyStr.all_chars p s = true -> PyStr.lstrip_by p s = "".
Proof.
  induction s as [|c r IH]; simpl; [done|].
  intros [Hc Hr]%andb_prop. rewrite Hc. auto.
Qed.

Lemma strip_whitespace s : PyStr.all_chars PyStr.isspace s = true -> PyStr.strip s = "".
Proof.
  intros H. unfold PyStr.strip, PyStr.rstrip_by. rewrite (lstrip_by_all _ _ H). reflexivity.
Qed.

(** Claim C8. [normalize_domain] returns a string for every input string:
    an exception of [urlparse] is caught and yields [""]; and when the
    input is empty or made of whitespace only the result is [""]. *)
Theorem normalize_domain_total ok s :
  (exists d, normalize_domain ok s = Ok d) /\
  (PyStr.all_chars PyStr.isspace s = true -> normalize_domain ok s = Ok "").
Proof.
  split.
  - unfold normalize_domain.
    destruct (String.eqb s "" || String.eqb (PyStr.strip s) ""); [eauto|].
    cbv zeta.
    destruct (urlsplit_netloc ok _) as [netloc|e]; simpl; eauto.
  - intros H. unfold normalize_domain. rewrite (strip_whitespace _ H).
    simpl. by rewrite orb_true_r.
Qed.

Lemma normalize_domain_total_witness :
  PyStr.all_chars PyStr.isspace "   " = true
  /\ normalize_domain no_brackets "   " = Ok "".
Proof.
  split; [reflexivity|].
  apply (proj2 (normalize_domain_total no_brackets "   ")). reflexivity.
Defined.

(** Claim C2. The two test vectors, evaluated: [normalize_domain("")] is
    [""], but for ["HTTP://WWW.Example.com:8080/x"] the case-sensitive
    [startswith] does not see the scheme, ["https://"] is prepended, the
    netloc is ["HTTP:"] and the result is ["http"], not ["example.com"].
    With the scheme in lower case the result is ["example.com"]. *)
Theorem normalize_domain_test_vectors ok :
  normalize_domain ok "" = Ok "" /\
  normalize_domain ok "http://WWW.Example.com:8080/x" = Ok "example.com" /\
  normalize_domain ok "HTTP://WWW.Example.com:8080/x" = Ok "http".
Proof. repeat split; vm_compute; reflexivity. Qed.

(** ** Batch Planner *)

Lemma ceil_div_spec n b : 0 < b -> n ≤ ceil_div n b * b < n + b.
Proof.
  intros Hb. unfold ceil_div.
  pose proof (Nat.div_mod_eq n b) as Hdm.
  pose proof (Nat.mod_upper_bound n b ltac:(lia)) as Hm.
  destruct (Nat.eqb_spec (n mod b) 0) as [H0|H0]; nia.
Qed.

Lemma take_min_length {A} (l : list A) n : take (n `min` length l) l = take n l.
Proof.
  destruct (decide (n ≤ length l)) as [H|H].
  - by rewrite Nat.min_l.
  - rewrite Nat.min_r by lia. rewrite !take_ge; [done|lia..].
Qed.

Lemma py_slice_chunk {A} (l : list A) a b :
  py_slice a ((a + b) `min` length l) l = take b (drop a l).
Proof.
  unfold py_slice.
  replace ((a + b) `min` length l - a) with (b `min` length (drop a l))
    by (rewrite length_drop; lia).
  apply take_min_length.
Qed.

Lemma batch_of_S {A} B (l : list A) k : batch_of B l (S k) = take B (drop (k * B) l).
Proof.
  unfold batch_of. replace (S k - 1) with k by lia. apply py_slice_chunk.
Qed.

Lemma wecp_batch_of_eq {A} B (l : list A) k : wecp_batch_of B l k = take B (drop (k * B) l).
Proof. unfold wecp_batch_of. apply py_slice_chunk. Qed.

Lemma py_range_1 n : py_range 1 (n + 1) = S <$> seq 0 n.
Proof. unfold py_range. rewrite fmap_S_seq. f_equal. lia. Qed.

Lemma py_range_0 n : py_range 0 n = seq 0 n.
Proof. unfold py_range. f_equal. lia. Qed.

Lemma batches_alt {A} B (l : list A) :
  batches B l = (fun k => take B (drop (k * B) l)) <$> seq 0 (ceil_div (length l) B).
Proof.
  unfold batches. rewrite py_range_1, <- list_fmap_compose.
  apply list_fmap_ext. intros _ k _. apply batch_of_S.
Qed.

Lemma wecp_batches_alt {A} B (l : list A) : wecp_batches B l = batches B l.
Proof.
  rewrite batches_alt. unfold wecp_batches. rewrite py_range_0.
  apply list_fmap_ext. intros _ k _. apply wecp_batch_of_eq.
Qed.

Lemma concat_chunks {A} B (l : list A) n :
  concat ((fun k => take B (drop (k * B) l)) <$> seq 0 n) = take (n * B) l.
Proof.
  induction n as [|n IH]; [done|].
  rewrite seq_S, fmap_app, concat_app, IH. simpl.
  rewrite app_nil_r, take_take_drop. f_equal. lia.
Qed.

Lemma detail_batch_range_S B n k :
  detail_batch_range B n (S k) = take B (drop (k * B) (seq 0 n)).
Proof.
  unfold detail_batch_range, py_range. replace (S k - 1) with k by lia.
  rewrite drop_seq, take_seq. simpl. f_equal. lia.
Qed.

Lemma detail_batch_ranges_alt B n : detail_batch_ranges B n = batches B (seq 0 n).
Proof.
  rewrite batches_alt, length_seq. unfold detail_batch_ranges.
  rewrite py_range_1, <- list_fmap_compose.
  apply list_fmap_ext. intros _ k _. apply detail_batch_range_S.
Qed.

Lemma batches_lookup {A} B (l : list A) i c :
  batches B l !! i = Some c ->
  i < ceil_div (length l) B /\ c = take B (drop (i * B) l).
Proof.
  rewrite batches_alt, list_lookup_fmap.
  destruct (seq 0 _ !! i) as [k|] eqn:Hk; [|done].
  apply lookup_seq in Hk as [-> Hlt]. simpl. intros [= <-]. done.
Qed.

(** Claim C4. For a chunk size [B > 0] and [N] work items the planner
    makes [ceil(N/B)] chunks (the count [k] with [N <= k*B < N+B]), their
    concatenation is the work list, and every chunk has [B] items except
    the last, which has [N mod B] when that is not zero. The three scripts
    plan the same chunks. *)
Theorem batch_planner {A} (B : nat) (work : list A) :
  0 < B ->
  let N := length work in
  let chunks := batches B work in
  length chunks = ceil_div N B
  /\ N ≤ length chunks * B < N + B
  /\ concat chunks = work
  /\ (forall i c, chunks !! i = Some c ->
        length c = if decide (S i < length chunks) then B
                   else if Nat.eqb (N mod B) 0 then B else N mod B)
  /\ wecp_batches B work = chunks
  /\ detail_batch_ranges B N = batches B (seq 0 N).
Proof.
  intros HB N chunks.
  assert (Hlen : length chunks = ceil_div N B).
  { unfold chunks. rewrite batches_alt, length_fmap, length_seq. done. }
  pose proof (ceil_div_spec N B HB) as Hk.
  split_and!.
  - done.
  - lia.
  - lia.
  - unfold chunks. rewrite batches_alt, concat_chunks. apply take_ge. fold N. lia.
  - intros i c [Hi ->]%batches_lookup. fold N in Hi.
    rewrite length_take, length_drop. fold N. rewrite Hlen.
    pose proof (Nat.div_mod_eq N B) as Hdm.
    pose proof (Nat.mod_upper_bound N B ltac:(lia)) as Hm.
    unfold ceil_div in *.
    destruct (Nat.eqb_spec (N mod B) 0) as [H0|H0]; case_decide; nia.
  - apply wecp_batches_alt.
  - apply detail_batch_ranges_alt.
Qed.

Lemma batch_planner_witness :
  0 < 2 /\ concat (batches 2 [10; 11; 12; 13; 14]) = [10; 11; 12; 13; 14].
Proof.
  split; [lia|]. apply (batch_planner 2 [10; 11; 12; 13; 14]). lia.
Defined.

(** ** Preparing the submission *)

Lemma truthy_get_or (e : entry) k : truthy (PyDict.get_or e k "") = has_value e k.
Proof. unfold has_value, PyDict.get_or. by destruct (PyDict.get e k). Qed.

Lemma prepare_urls_for_batch_fold entries acc l :
  foldl (prepare_urls_for_batch_body entries) acc l = acc ++ omap (submitted_for entries) l.
Proof.
  revert acc. induction l as [|i l IH]; intros acc; simpl.
  - by rewrite app_nil_r.
  - rewrite IH. unfold prepare_urls_for_batch_body, submitted_for.
    destruct (entries !! i) as [e|]; simpl; [|done].
    rewrite truthy_get_or. destruct (has_value e "detail_url"); [|done].
    by rewrite <- app_assoc.
Qed.

Lemma prepare_urls_for_batch_spec entries start_idx end_idx :
  prepare_urls_for_batch entries start_idx end_idx
  = omap (submitted_for entries) (py_range start_idx (end_idx `min` length entries)).
Proof. unfold prepare_urls_for_batch. by rewrite prepare_urls_for_batch_fold. Qed.

Lemma prepare_urls_fold entries acc l :
  Forall (fun i => i < length entries) l ->
  foldl (prepare_urls_body entries) (Ok acc) l = Ok (acc ++ omap (submitted_for entries) l).
Proof.
  intros Hl. revert acc. induction Hl as [|i l Hi _ IH]; intros acc; simpl.
  - by rewrite app_nil_r.
  - apply lookup_lt_is_Some_2 in Hi as [e He].
    unfold prepare_urls_body at 1, submitted_for. rewrite He. simpl.
    rewrite truthy_get_or. destruct (has_value e "detail_url"); rewrite IH; [|done].
    by rewrite <- app_assoc.
Qed.

Lemma prepare_urls_spec entries indices :
  Forall (fun i => i < length entries) indices ->
  prepare_urls entries indices = Ok (omap (submitted_for entries) indices).
Proof. intros H. unfold prepare_urls. by rewrite prepare_urls_fold. Qed.

Lemma submitted_for_index entries i r : submitted_for entries i = Some r -> req_entryIndex r = i.
Proof.
  unfold submitted_for. destruct (entries !! i) as [e|]; simpl; [|done].
  destruct (has_value e "detail_url"); [|done]. by intros [= <-].
Qed.

Lemma submitted_for_spec (entries : list entry) (l : list nat) idx (e : entry) :
  idx ∈ l -> entries !! idx = Some e ->
  if has_value e "detail_url"
  then Request (PyDict.get_or e "detail_url" "") idx ∈ omap (submitted_for entries) l
  else forall r, r ∈ omap (submitted_for entries) l -> req_entryIndex r ≠ idx.
Proof.
  intros Hidx He. destruct (has_value e "detail_url") eqn:Hv.
  - apply list_elem_of_omap. exists idx. split; [done|].
    unfold submitted_for. rewrite He. simpl. by rewrite Hv.
  - intros r [j [_ Hj]]%list_elem_of_omap Hr.
    pose proof (submitted_for_index _ _ _ Hj) as Hrj. rewrite Hr in Hrj. subst j.
    unfold submitted_for in Hj. rewrite He in Hj. simpl in Hj. by rewrite Hv in Hj.
Qed.

Lemma get_missing_indices_bound (entries : list entry) :
  Forall (fun i => i < length entries) (get_missing_indices entries).
Proof.
  unfold get_missing_indices. apply Forall_forall. intros i Hi.
  apply list_elem_of_fmap in Hi as ([j e] & -> & Hin).
  apply list_elem_of_In, filter_In in Hin as [Hin _].
  apply list_elem_of_In, list_elem_of_lookup in Hin as [k Hk].
  rewrite list_lookup_imap in Hk.
  destruct (entries !! k) as [e'|] eqn:He; simpl in Hk; [|done].
  injection Hk as <- <-. simpl. by eapply lookup_lt_Some.
Qed.

Lemma batch_of_Forall {A} (P : A -> Prop) BATCH_SIZE (l : list A) batch_num :
  Forall P l -> Forall P (batch_of BATCH_SIZE l batch_num).
Proof. intros H. unfold batch_of, py_slice. by apply Forall_take, Forall_drop. Qed.

(** Claim C9. [prepare_urls] and [prepare_urls_for_batch] return, in
    order, one request for each record of the chunk that has a non-empty
    [detail_url], and none for a record whose [detail_url] is missing or
    empty; neither raises on the chunks the batch loops pass them. *)
Theorem prepare_urls_skips_missing (entries : list entry) :
  (forall indices,
      Forall (fun i => i < length entries) indices ->
      exists urls,
        prepare_urls entries indices = Ok urls
        /\ urls = omap (submitted_for entries) indices
        /\ (forall idx (e : entry), idx ∈ indices -> entries !! idx = Some e ->
              if has_value e "detail_url"
              then Request (PyDict.get_or e "detail_url" "") idx ∈ urls
              else forall r, r ∈ urls -> req_entryIndex r ≠ idx))
  /\ (forall BATCH_SIZE batch_num,
        Forall (fun i => i < length entries)
               (batch_of BATCH_SIZE (get_missing_indices entries) batch_num))
  /\ (forall start_idx end_idx,
        let chunk := py_range start_idx (end_idx `min` length entries) in
        let urls := prepare_urls_for_batch entries start_idx end_idx in
        urls = omap (submitted_for entries) chunk
        /\ (forall i (e : entry), i ∈ chunk -> entries !! i = Some e ->
              if has_value e "detail_url"
              then Request (PyDict.get_or e "detail_url" "") i ∈ urls
              else forall r, r ∈ urls -> req_entryIndex r ≠ i)).
Proof.
  split_and!.
  - intros indices Hin. eexists. split; [by apply prepare_urls_spec|]. split; [done|].
    intros idx e. apply submitted_for_spec.
  - intros BATCH_SIZE batch_num. apply batch_of_Forall, get_missing_indices_bound.
  - intros start_idx end_idx chunk urls.
    assert (Hurls : urls = omap (submitted_for entries) chunk)
      by apply prepare_urls_for_batch_spec.
    split; [done|]. rewrite Hurls. intros i e. apply submitted_for_spec.
Qed.

Lemma prepare_urls_skips_missing_witness :
  Forall (fun i => i < length four_entries) [0; 1; 2; 3]
  /\ prepare_urls four_entries [0; 1; 2; 3]
     = Ok [Request "https://www.enfsolar.com/a" 0; Request "https://www.enfsolar.com/d" 3].
Proof.
  assert (Hin : Forall (fun i => i < length four_entries) [0; 1; 2; 3]).
  { repeat constructor. }
  split; [exact Hin|].
  destruct (proj1 (prepare_urls_skips_missing four_entries) [0; 1; 2; 3] Hin)
    as (urls & -> & -> & _).
  reflexivity.
Defined.

(** ** Dictionaries and runs of assignments *)

Section DictFacts.
Context {K V : Type} `{EqDecision K}.
Implicit Types (d : list (K * V)) (k : K) (v : V).

Lemma get_set_eq d k v : PyDict.get (PyDict.set d k v) k = Some v.
Proof.
  induction d as [|[k' v'] d IH]; simpl.
  - by rewrite decide_True.
  - destruct (decide (k = k')) as [->|Hne]; simpl.
    + by rewrite decide_True.
    + by rewrite decide_False.
Qed.

Lemma get_set_ne d k k' v : k ≠ k' -> PyDict.get (PyDict.set d k v) k' = PyDict.get d k'.
Proof.
  intros Hne. induction d as [|[k0 v0] d IH]; simpl.
  - by rewrite decide_False.
  - destruct (decide (k = k0)) as [->|Hk]; simpl.
    + by rewrite !decide_False.
    + destruct (decide (k' = k0)); [done|apply IH].
Qed.

Lemma set_id d k v : PyDict.get d k = Some v -> PyDict.set d k v = d.
Proof.
  induction d as [|[k0 v0] d IH]; simpl; [done|].
  destruct (decide (k = k0)) as [->|Hk].
  - by intros [= ->].
  - intros Hg. by rewrite IH.
Qed.

Lemma keys_set d k v :
  PyDict.keys (PyDict.set d k v)
  = match PyDict.get d k with
    | Some _ => PyDict.keys d
    | None => PyDict.keys d ++ [k]
    end.
Proof.
  unfold PyDict.keys.
  induction d as [|[k0 v0] d IH]; simpl; [done|].
  destruct (decide (k = k0)) as [->|Hk]; simpl; [done|].
  change (list_fmap _ _ fst ?l) with (l.*1). rewrite IH.
  by destruct (PyDict.get d k).
Qed.

Lemma get_None_keys d k : PyDict.get d k = None <-> k ∉ PyDict.keys d.
Proof.
  unfold PyDict.keys. induction d as [|[k0 v0] d IH]; simpl.
  - split; [intros _; apply not_elem_of_nil|done].
  - rewrite not_elem_of_cons. destruct (decide (k = k0)) as [->|Hk].
    + split; [done|]. by intros [? _].
    + rewrite IH. tauto.
Qed.

Lemma NoDup_keys_set d k v : NoDup (PyDict.keys d) -> NoDup (PyDict.keys (PyDict.set d k v)).
Proof.
  intros Hnd. rewrite keys_set. destruct (PyDict.get d k) eqn:Hg; [done|].
  apply get_None_keys in Hg.
  apply NoDup_app. split_and!; [done| |apply NoDup_singleton].
  by intros x Hx ->%list_elem_of_singleton.
Qed.

End DictFacts.

Lemma has_value_set_eq (e : entry) k v : has_value (PyDict.set e k v) k = truthy v.
Proof. unfold has_value. by rewrite get_set_eq. Qed.

Lemma get_assign_notin kvs (e : entry) k :
  k ∉ kvs.*1 -> PyDict.get (assign kvs e) k = PyDict.get e k.
Proof.
  unfold assign. revert e. induction kvs as [|[k0 v0] kvs IH]; intros e; simpl; [done|].
  intros [Hk Hin]%not_elem_of_cons. rewrite IH by done. by apply get_set_ne.
Qed.

Lemma get_assign_in kvs (e : entry) k v :
  NoDup kvs.*1 -> (k, v) ∈ kvs -> PyDict.get (assign kvs e) k = Some v.
Proof.
  unfold assign. revert e. induction kvs as [|[k0 v0] kvs IH]; intros e; simpl.
  - by intros _ ?%elem_of_nil.
  - intros [Hk0 Hnd]%NoDup_cons [[= -> ->]|Hin]%elem_of_cons.
    + fold (assign kvs (PyDict.set e k0 v0)). rewrite get_assign_notin by done.
      apply get_set_eq.
    + by apply IH.
Qed.

Lemma assign_absorb kvs (e : entry) :
  Forall (fun kv => PyDict.get e kv.1 = Some kv.2) kvs -> assign kvs e = e.
Proof.
  unfold assign. induction 1 as [|[k v] kvs Hkv _ IH]; simpl; [done|].
  by rewrite set_id.
Qed.

Lemma assign_idemp kvs (e : entry) :
  NoDup kvs.*1 -> assign kvs (assign kvs e) = assign kvs e.
Proof.
  intros Hnd. apply assign_absorb. apply Forall_forall. intros [k v] Hin.
  by apply get_assign_in.
Qed.

Lemma set_websites_assign ok ws e :
  set_websites ok ws e = assign (website_assignments ok ws) e.
Proof.
  unfold set_websites, website_assignments. destruct ws as [|w0 ws]; [done|].
  by destruct (1 <? length (w0 :: ws)).
Qed.

Lemma apply_result_assign ok r e : apply_result ok r e = assign (result_assignments ok r) e.
Proof.
  unfold apply_result, result_assignments, assign.
  rewrite foldl_app. simpl. f_equal. f_equal.
  destruct (websites r) as [|w0 ws] eqn:Hw; [done|].
  by rewrite set_websites_assign.
Qed.

Lemma website_assignments_keys ok ws :
  (website_assignments ok ws).*1 ⊆ website_keys /\ NoDup (website_assignments ok ws).*1.
Proof.
  unfold website_assignments. destruct ws as [|w0 ws]; [|destruct (1 <? length (w0 :: ws))];
    cbn [fmap list_fmap fst app]; split; solve_decide.
Qed.

Lemma result_assignments_keys ok r :
  (result_assignments ok r).*1 ⊆ website_keys ++ ["phone"; "address"]
  /\ NoDup (result_assignments ok r).*1.
Proof.
  unfold result_assignments, website_assignments.
  destruct (websites r) as [|w0 ws]; [|destruct (1 <? length (w0 :: ws))];
    cbn [fmap list_fmap fst app]; split; solve_decide.
Qed.

(** ** Result Merger, one record *)

Section MergerFacts.
Variable ok : string -> bool.
Implicit Types (e : entry) (it r : item).

Lemma get_fill_ne k k' v e : k ≠ k' -> PyDict.get (fill_if_empty k v e) k' = PyDict.get e k'.
Proof.
  intros Hne. unfold fill_if_empty.
  destruct (truthy v && negb (has_value e k)); [by apply get_set_ne|done].
Qed.

Lemma has_value_fill_eq k v e : truthy v = true -> has_value (fill_if_empty k v e) k = true.
Proof.
  intros Hv. unfold fill_if_empty. rewrite Hv. simpl.
  destruct (has_value e k) eqn:He; simpl; [done|]. by rewrite has_value_set_eq.
Qed.

Lemma fill_noop k v e : (truthy v = true -> has_value e k = true) -> fill_if_empty k v e = e.
Proof.
  intros H. unfold fill_if_empty. destruct (truthy v); [|done]. by rewrite H.
Qed.

Lemma get_set_websites_other ws e k :
  k ∉ website_keys -> PyDict.get (set_websites ok ws e) k = PyDict.get e k.
Proof.
  intros Hk. rewrite set_websites_assign. apply get_assign_notin.
  intros Hin. apply Hk. by apply (website_assignments_keys ok ws).
Qed.

Lemma merge_item_keeps k it e :
  k = "phone" \/ k = "address" ->
  has_value e k = true -> PyDict.get (merge_item ok it e) k = PyDict.get e k.
Proof.
  intros Hk He. unfold merge_item.
  assert (Hw : forall k', k' = "phone" \/ k' = "address" ->
             PyDict.get (set_websites ok (websites it) e) k' = PyDict.get e k').
  { intros k' Hk'. apply get_set_websites_other. destruct Hk' as [-> | ->]; solve_decide. }
  destruct Hk as [-> | ->].
  - rewrite get_fill_ne by done. rewrite fill_noop; [apply Hw; auto|].
    intros _. unfold has_value in *. rewrite Hw by auto. done.
  - rewrite fill_noop; [rewrite get_fill_ne by done; apply Hw; auto|].
    intros _. unfold has_value in *. rewrite get_fill_ne by done. rewrite Hw by auto. done.
Qed.

Lemma merge_item_no_website k it e :
  websites it = [] -> k ≠ "phone" -> k ≠ "address" ->
  PyDict.get (merge_item ok it e) k = PyDict.get e k.
Proof.
  intros Hw Hp Ha. unfold merge_item. rewrite Hw. simpl.
  by rewrite !get_fill_ne by done.
Qed.

Lemma merge_item_noread it e : reads_entry it = false -> merge_item ok it e = e.
Proof.
  unfold reads_entry. intros [[Hw Hp]%orb_false_elim Ha]%orb_false_elim.
  apply negb_false_iff, bool_decide_eq_true in Hw.
  unfold merge_item. rewrite Hw. simpl.
  rewrite (fill_noop "phone") by (by rewrite Hp). apply fill_noop. by rewrite Ha.
Qed.

Lemma merge_item_idemp it e : merge_item ok it (merge_item ok it e) = merge_item ok it e.
Proof.
  set (e1 := merge_item ok it e).
  assert (Hweb : set_websites ok (websites it) e1 = e1).
  { rewrite set_websites_assign. apply assign_absorb, Forall_forall. intros [k v] Hin.
    destruct (website_assignments_keys ok (websites it)) as [Hsub Hnd].
    assert (Hk : k ∈ website_keys) by (apply Hsub, list_elem_of_fmap; by exists (k, v)).
    assert (k ≠ "phone" /\ k ≠ "address") as [Hp Ha].
    { split; intros ->; revert Hk; solve_decide. }
    unfold e1, merge_item. simpl. rewrite !get_fill_ne by done.
    rewrite set_websites_assign. by apply get_assign_in. }
  assert (Hphone : truthy (phone it) = true -> has_value e1 "phone" = true).
  { intros Hp. unfold e1, merge_item, has_value. rewrite get_fill_ne by done.
    by apply has_value_fill_eq. }
  assert (Haddr : truthy (address it) = true -> has_value e1 "address" = true).
  { intros Ha. unfold e1, merge_item. by apply has_value_fill_eq. }
  unfold merge_item at 1. fold e1. rewrite Hweb.
  rewrite (fill_noop "phone") by done. by apply fill_noop.
Qed.

Lemma apply_result_idemp r e : apply_result ok r (apply_result ok r e) = apply_result ok r e.
Proof. rewrite !apply_result_assign. apply assign_idemp, result_assignments_keys. Qed.

Lemma apply_result_get r e k v :
  (k, v) ∈ result_assignments ok r -> PyDict.get (apply_result ok r e) k = Some v.
Proof.
  intros Hin. rewrite apply_result_assign. apply get_assign_in; [|done].
  apply result_assignments_keys.
Qed.

Lemma apply_result_phone r e :
  PyDict.get (apply_result ok r e) "phone" = Some (phone r)
  /\ PyDict.get (apply_result ok r e) "address" = Some (address r).
Proof.
  split; apply apply_result_get; unfold result_assignments;
    apply elem_of_app; right; repeat constructor.
Qed.

Lemma apply_result_no_website r e :
  websites r = [] ->
  PyDict.get (apply_result ok r e) "website_url_primary" = Some ""
  /\ PyDict.get (apply_result ok r e) "website_domain_primary" = Some "".
Proof.
  intros Hw. split; apply apply_result_get; unfold result_assignments; rewrite Hw;
    apply elem_of_app; left; repeat constructor.
Qed.

Lemma apply_result_other r e k :
  k ∉ website_keys ++ ["phone"; "address"] ->
  PyDict.get (apply_result ok r e) k = PyDict.get e k.
Proof.
  intros Hk. rewrite apply_result_assign. apply get_assign_notin.
  intros Hin. apply Hk. by apply (result_assignments_keys ok r).
Qed.

Lemma result_for_apply_result results r e :
  result_for results (apply_result ok r e) = result_for results e.
Proof.
  unfold result_for, PyDict.get_or. rewrite apply_result_other; [done|solve_decide].
Qed.

End MergerFacts.

(** ** Result Merger, the store *)

Section StoreFacts.
Variable ok : string -> bool.

Lemma update_entries_raise results x :
  foldl (update_entries_body ok) (Raise x) results = Raise x.
Proof. induction results as [|kv results IH]; [done|]. simpl. apply IH. Qed.

Lemma update_entries_body_step entries updated j it :
  update_entries_body ok (Ok (entries, updated)) (j, it)
  = if reads_entry it then
      match entries !! j with
      | None => Raise IndexError
      | Some e => Ok (<[j := merge_item ok it e]> entries, updated + found_website it)
      end
    else Ok (entries, updated).
Proof. reflexivity. Qed.

Lemma update_entries_fold_lookup results :
  NoDup (PyDict.keys results) ->
  forall entries updated entries' n,
    foldl (update_entries_body ok) (Ok (entries, updated)) results = Ok (entries', n) ->
    forall idx,
      entries' !! idx
      = match PyDict.get results idx with
        | Some it => merge_item ok it <$> entries !! idx
        | None => entries !! idx
        end.
Proof.
  unfold PyDict.keys.
  induction results as [|[j it] results IH]; intros Hnd entries updated entries' n Hrun idx.
  - simpl in *. by injection Hrun as <- _.
  - apply NoDup_cons in Hnd as [Hj Hnd].
    change (foldl ?f ?a (?x :: ?l)) with (foldl f (f a x) l) in Hrun.
    rewrite update_entries_body_step in Hrun.
    assert (Hget : PyDict.get ((j, it) :: results) idx
                   = if decide (idx = j) then Some it else PyDict.get results idx)
      by reflexivity.
    rewrite Hget. clear Hget.
    assert (Hnone : PyDict.get results j = None) by (by apply get_None_keys).
    destruct (reads_entry it) eqn:Hr.
    + destruct (entries !! j) as [e|] eqn:He.
      * rewrite (IH Hnd _ _ _ _ Hrun idx).
        destruct (decide (idx = j)) as [->|Hne].
        -- rewrite Hnone, list_lookup_insert_eq by (by eapply lookup_lt_Some).
           by rewrite He.
        -- by rewrite list_lookup_insert_ne.
      * by rewrite update_entries_raise in Hrun.
    + rewrite (IH Hnd _ _ _ _ Hrun idx).
      destruct (decide (idx = j)) as [->|Hne]; [|done].
      rewrite Hnone. destruct (entries !! j) as [e|]; simpl; [|done].
      by rewrite merge_item_noread.
Qed.

Lemma update_entries_lookup entries results entries' n :
  NoDup (PyDict.keys results) ->
  update_entries ok entries results = Ok (entries', n) ->
  forall idx,
    entries' !! idx
    = match PyDict.get results idx with
      | Some it => merge_item ok it <$> entries !! idx
      | None => entries !! idx
      end.
Proof. intros Hnd Hrun. by eapply update_entries_fold_lookup. Qed.

Lemma update_with_results_body_step results entries updated j :
  update_entries_with_results_body ok results (entries, updated) j
  = match entries !! j with
    | None => (entries, updated)
    | Some e =>
        (<[j := applied ok results e]> entries, updated + found_website (result_for results e))
    end.
Proof. reflexivity. Qed.

Lemma update_with_results_fold_lookup results l :
  NoDup l ->
  forall entries updated i,
    (foldl (update_entries_with_results_body ok results) (entries, updated) l).1 !! i
    = if decide (i ∈ l) then applied ok results <$> entries !! i else entries !! i.
Proof.
  induction l as [|j l IH]; intros Hnd entries updated i.
  - case_decide as Hi; [by apply elem_of_nil in Hi|done].
  - apply NoDup_cons in Hnd as [Hj Hnd].
    change (foldl ?f ?a (?x :: ?l)) with (foldl f (f a x) l).
    rewrite update_with_results_body_step.
    assert (Hin : i ∈ j :: l <-> i = j \/ i ∈ l) by apply elem_of_cons.
    destruct (entries !! j) as [e|] eqn:He; rewrite IH by done.
    + destruct (decide (i = j)) as [->|Hne].
      * rewrite list_lookup_insert_eq by (by eapply lookup_lt_Some).
        rewrite He. repeat case_decide; tauto.
      * rewrite list_lookup_insert_ne by done. repeat case_decide; tauto.
    + destruct (decide (i = j)) as [->|Hne].
      * rewrite He. repeat case_decide; tauto.
      * repeat case_decide; tauto.
Qed.

Lemma update_with_results_lookup entries results start_idx end_idx i :
  (update_entries_with_results ok entries results start_idx end_idx).1 !! i
  = if decide (start_idx ≤ i < end_idx `min` length entries)
    then applied ok results <$> entries !! i
    else entries !! i.
Proof.
  unfold update_entries_with_results, py_range.
  rewrite update_with_results_fold_lookup by apply NoDup_seq.
  destruct (decide (i ∈ seq start_idx (end_idx `min` length entries - start_idx)))
    as [Hi|Hi]; rewrite elem_of_seq in Hi; case_decide; (done || lia).
Qed.

Lemma update_with_results_length entries results start_idx end_idx :
  length (update_entries_with_results ok entries results start_idx end_idx).1 = length entries.
Proof.
  unfold update_entries_with_results.
  generalize (py_range start_idx (end_idx `min` length entries)) 0.
  intros l. revert entries. induction l as [|j l IH]; intros entries u; [done|].
  change (foldl ?f ?a (?x :: ?l)) with (foldl f (f a x) l).
  rewrite update_with_results_body_step.
  destruct (entries !! j); rewrite IH; [apply length_insert|done].
Qed.

Lemma applied_idemp results e : applied ok results (applied ok results e) = applied ok results e.
Proof.
  unfold applied. rewrite result_for_apply_result. apply apply_result_idemp.
Qed.

Lemma update_with_results_idemp entries results start_idx end_idx :
  let once := (update_entries_with_results ok entries results start_idx end_idx).1 in
  (update_entries_with_results ok once results start_idx end_idx).1 = once.
Proof.
  intros once. apply list_eq. intros i.
  rewrite update_with_results_lookup.
  replace (length once) with (length entries)
    by (symmetry; apply update_with_results_length).
  unfold once. rewrite !update_with_results_lookup.
  case_decide; [|done].
  destruct (entries !! i); simpl; [|done]. by rewrite applied_idemp.
Qed.

End StoreFacts.

Lemma found_count_cons j it results :
  found_count ((j, it) :: results) = found_website it + found_count results.
Proof. reflexivity. Qed.

Section StoreFacts2.
Variable ok : string -> bool.

Lemma update_entries_fold_inv results :
  forall entries updated entries' n,
    foldl (update_entries_body ok) (Ok (entries, updated)) results = Ok (entries', n) ->
    Forall (fun kv => reads_entry kv.2 = true -> kv.1 < length entries) results
    /\ n = updated + found_count results
    /\ length entries' = length entries.
Proof.
  induction results as [|[j it] results IH]; intros entries updated entries' n Hrun.
  - simpl in Hrun. injection Hrun as <- <-. unfold found_count. simpl.
    split; [constructor|]. split; [lia|done].
  - change (foldl ?f ?a (?x :: ?l)) with (foldl f (f a x) l) in Hrun.
    rewrite update_entries_body_step in Hrun.
    rewrite found_count_cons.
    destruct (reads_entry it) eqn:Hr.
    + destruct (entries !! j) as [e|] eqn:He.
      * apply IH in Hrun as (Hall & -> & Hlen). rewrite length_insert in *.
        split; [|split; [lia|done]].
        constructor; [|done]. simpl. intros _. by eapply lookup_lt_Some.
      * by rewrite update_entries_raise in Hrun.
    + apply IH in Hrun as (Hall & -> & Hlen).
      split; [|split; [|done]].
      * constructor; [|done]. simpl. by rewrite Hr.
      * unfold reads_entry in Hr. apply orb_false_elim in Hr as [[Hw _]%orb_false_elim _].
        apply negb_false_iff, bool_decide_eq_true in Hw.
        unfold found_website. rewrite Hw. lia.
Qed.

Lemma update_entries_fold_ok results :
  forall entries updated,
    Forall (fun kv => reads_entry kv.2 = true -> kv.1 < length entries) results ->
    exists entries',
      foldl (update_entries_body ok) (Ok (entries, updated)) results
      = Ok (entries', updated + found_count results).
Proof.
  induction results as [|[j it] results IH]; intros entries updated Hall.
  - exists entries. unfold found_count. simpl. do 2 f_equal. lia.
  - apply Forall_cons in Hall as [Hj Hall]. simpl in Hj.
    change (foldl ?f ?a (?x :: ?l)) with (foldl f (f a x) l).
    rewrite update_entries_body_step.
    rewrite found_count_cons.
    destruct (reads_entry it) eqn:Hr.
    + destruct (lookup_lt_is_Some_2 entries j (Hj eq_refl)) as [e He]. rewrite He.
      destruct (IH (<[j := merge_item ok it e]> entries) (updated + found_website it))
        as [entries' Hrun].
      { by rewrite length_insert. }
      exists entries'. rewrite Hrun. do 2 f_equal. lia.
    + destruct (IH entries updated Hall) as [entries' Hrun].
      exists entries'. rewrite Hrun. do 2 f_equal.
      unfold reads_entry in Hr. apply orb_false_elim in Hr as [[Hw _]%orb_false_elim _].
      apply negb_false_iff, bool_decide_eq_true in Hw.
      unfold found_website. rewrite Hw. lia.
Qed.

Lemma update_entries_idemp entries results entries1 n :
  NoDup (PyDict.keys results) ->
  update_entries ok entries results = Ok (entries1, n) ->
  update_entries ok entries1 results = Ok (entries1, n).
Proof.
  intros Hnd Hrun.
  pose proof (update_entries_lookup ok _ _ _ _ Hnd Hrun) as Hlook1.
  apply update_entries_fold_inv in Hrun as (Hall & -> & Hlen).
  destruct (update_entries_fold_ok results entries1 0) as [entries2 Hrun2].
  { by rewrite Hlen. }
  unfold update_entries. rewrite Hrun2. do 2 f_equal.
  apply list_eq. intros i.
  rewrite (update_entries_lookup ok _ _ _ _ Hnd Hrun2 i), Hlook1.
  destruct (PyDict.get results i) as [it|]; [|done].
  destruct (entries !! i); simpl; [|done]. by rewrite merge_item_idemp.
Qed.

End StoreFacts2.

(** Claim C1, as the code has it. In update_entries (the re-scrape of the
    missing websites) a result with no website leaves
    [website_url_primary] and [website_domain_primary] of its record as
    they were. In update_entries_with_results (the detail scraper) every
    record of the chunk whose result has no website, or that has no
    result, gets both fields set to [""]. *)
Theorem no_website_merge (ok : string -> bool) :
  (forall entries results entries' n idx it,
      NoDup (PyDict.keys results) ->
      update_entries ok entries results = Ok (entries', n) ->
      PyDict.get results idx = Some it ->
      websites it = [] ->
      field_at entries' idx "website_url_primary" = field_at entries idx "website_url_primary"
      /\ field_at entries' idx "website_domain_primary"
         = field_at entries idx "website_domain_primary")
  /\ (forall entries results start_idx end_idx i e,
        entries !! i = Some e ->
        start_idx ≤ i < end_idx ->
        websites (result_for results e) = [] ->
        let entries' := (update_entries_with_results ok entries results start_idx end_idx).1 in
        field_at entries' i "website_url_primary" = Some ""
        /\ field_at entries' i "website_domain_primary" = Some "").
Proof.
  split.
  - intros entries results entries' n idx it Hnd Hrun Hit Hw.
    unfold field_at. rewrite (update_entries_lookup ok _ _ _ _ Hnd Hrun idx), Hit.
    destruct (entries !! idx) as [e|]; simpl; [|done].
    by rewrite !(merge_item_no_website ok) by done.
  - intros entries results start_idx end_idx i e He Hi Hw entries'.
    unfold field_at, entries'. rewrite update_with_results_lookup.
    pose proof (lookup_lt_Some _ _ _ He) as Hlt.
    rewrite decide_True by lia. rewrite He. simpl.
    by apply apply_result_no_website.
Qed.

Lemma no_website_merge_witness :
  (exists entries',
      update_entries no_brackets [acme_entry] [(0, acme_page_other_phone)] = Ok (entries', 0)
      /\ field_at entries' 0 "website_url_primary" = Some "http://acme.com")
  /\ field_at (update_entries_with_results no_brackets [acme_entry] [] 0 200).1 0
              "website_url_primary" = Some "".
Proof.
  destruct (no_website_merge no_brackets) as [Hrescrape Hdetail]. split.
  - eexists. split; [vm_compute; reflexivity|].
    refine (eq_trans (proj1 (Hrescrape [acme_entry] [(0, acme_page_other_phone)] _ 0 0
                                       acme_page_other_phone _ _ _ _)) _).
    + solve_decide.
    + vm_compute. reflexivity.
    + reflexivity.
    + reflexivity.
    + reflexivity.
  - refine (proj1 (Hdetail [acme_entry] [] 0 200 0 acme_entry _ _ _)).
    + reflexivity.
    + lia.
    + reflexivity.
Defined.

(** A chunk without results on a store that holds a website:
    update_entries_with_results replaces the website by [""]. *)
Lemma update_with_results_blanks_website :
  websites (result_for [] acme_entry) = []
  /\ field_at [acme_entry] 0 "website_url_primary" = Some "http://acme.com"
  /\ field_at (update_entries_with_results no_brackets [acme_entry] [] 0 200).1 0
              "website_url_primary" = Some "".
Proof. repeat split; vm_compute; reflexivity. Qed.

(** Claim C3, as the code has it. In update_entries a record whose phone
    (or address) is non-empty keeps it whatever the result holds. In
    update_entries_with_results the phone and the address of every record
    of the chunk are replaced by those of its result, [""] when the result
    has none. *)
Theorem phone_address_merge (ok : string -> bool) :
  (forall entries results entries' n idx it e k,
      NoDup (PyDict.keys results) ->
      update_entries ok entries results = Ok (entries', n) ->
      PyDict.get results idx = Some it ->
      entries !! idx = Some e ->
      k = "phone" \/ k = "address" ->
      has_value e k = true ->
      field_at entries' idx k = PyDict.get e k)
  /\ (forall entries results start_idx end_idx i e,
        entries !! i = Some e ->
        start_idx ≤ i < end_idx ->
        let entries' := (update_entries_with_results ok entries results start_idx end_idx).1 in
        field_at entries' i "phone" = Some (phone (result_for results e))
        /\ field_at entries' i "address" = Some (address (result_for results e))).
Proof.
  split.
  - intros entries results entries' n idx it e k Hnd Hrun Hit He Hk Hv.
    unfold field_at. rewrite (update_entries_lookup ok _ _ _ _ Hnd Hrun idx), Hit, He.
    simpl. by apply merge_item_keeps.
  - intros entries results start_idx end_idx i e He Hi entries'.
    unfold field_at, entries'. rewrite update_with_results_lookup.
    pose proof (lookup_lt_Some _ _ _ He) as Hlt.
    rewrite decide_True by lia. rewrite He. simpl.
    apply apply_result_phone.
Qed.

Lemma phone_address_merge_witness :
  (exists entries',
      update_entries no_brackets [acme_entry] [(0, acme_page_other_phone)] = Ok (entries', 0)
      /\ field_at entries' 0 "phone" = Some "555-1234")
  /\ field_at (update_entries_with_results no_brackets [acme_entry] [] 0 200).1 0 "phone"
     = Some "".
Proof.
  destruct (phone_address_merge no_brackets) as [Hrescrape Hdetail]. split.
  - eexists. split; [vm_compute; reflexivity|].
    refine (Hrescrape [acme_entry] [(0, acme_page_other_phone)] _ 0 0
                      acme_page_other_phone acme_entry "phone" _ _ _ _ _ _).
    + solve_decide.
    + vm_compute. reflexivity.
    + reflexivity.
    + reflexivity.
    + by left.
    + reflexivity.
  - refine (proj1 (Hdetail [acme_entry] [] 0 200 0 acme_entry _ _)).
    + reflexivity.
    + lia.
Defined.

(** A stored phone is replaced by [""] when the chunk has no result for
    the record, and by the result's phone when it has one. *)
Lemma update_with_results_overwrites_phone :
  has_value acme_entry "phone" = true
  /\ phone (result_for [] acme_entry) = ""
  /\ field_at (update_entries_with_results no_brackets [acme_entry] [] 0 200).1 0 "phone"
     = Some ""
  /\ phone (result_for [("https://www.enfsolar.com/acme", acme_page_other_phone)] acme_entry)
     = "555-9999"
  /\ field_at (update_entries_with_results no_brackets [acme_entry]
                 [("https://www.enfsolar.com/acme", acme_page_other_phone)] 0 200).1 0 "phone"
     = Some "555-9999".
Proof. repeat split; vm_compute; reflexivity. Qed.

(** Claim C6. Both mergers are idempotent, on one record and on the store:
    applying the same result twice gives what applying it once gives, and
    the pipe-joined fields hold each website once. *)
Theorem merge_idempotent (ok : string -> bool) :
  (forall it e, merge_item ok it (merge_item ok it e) = merge_item ok it e)
  /\ (forall r e, apply_result ok r (apply_result ok r e) = apply_result ok r e)
  /\ (forall entries results entries1 n,
        NoDup (PyDict.keys results) ->
        update_entries ok entries results = Ok (entries1, n) ->
        update_entries ok entries1 results = Ok (entries1, n))
  /\ (forall entries results start_idx end_idx,
        let once := (update_entries_with_results ok entries results start_idx end_idx).1 in
        (update_entries_with_results ok once results start_idx end_idx).1 = once)
  /\ (forall it e,
        1 < length (websites it) ->
        let twice := merge_item ok it (merge_item ok it e) in
        PyDict.get twice "website_urls_all" = Some (PyStr.join "|" (websites it))
        /\ PyDict.get twice "website_domains_all"
           = Some (PyStr.join "|" (normalize_domain_str ok <$> websites it))).
Proof.
  split_and!.
  - apply merge_item_idemp.
  - apply apply_result_idemp.
  - apply update_entries_idemp.
  - apply update_with_results_idemp.
  - intros it e Hlen twice. unfold twice. rewrite merge_item_idemp.
    unfold merge_item. rewrite !get_fill_ne by done.
    rewrite set_websites_assign.
    destruct (website_assignments_keys ok (websites it)) as [_ Hnd].
    split; apply get_assign_in; try done; unfold website_assignments;
      destruct (websites it) as [|w0 ws]; simpl in Hlen; try lia;
      apply Nat.ltb_lt in Hlen; cbn [length]; rewrite Hlen;
      apply elem_of_app; right.
    + apply list_elem_of_further, list_elem_of_here.
    + apply list_elem_of_further, list_elem_of_further, list_elem_of_here.
Qed.

Lemma merge_idempotent_witness :
  NoDup (PyDict.keys [(0, two_site_page)])
  /\ exists entries1,
       update_entries no_brackets [acme_entry] [(0, two_site_page)] = Ok (entries1, 1)
       /\ update_entries no_brackets entries1 [(0, two_site_page)] = Ok (entries1, 1)
       /\ field_at entries1 0 "website_urls_all"
          = Some "http://acme.com|http://www.acme-solar.com/home"
       /\ field_at entries1 0 "website_domains_all" = Some "acme.com|acme-solar.com"
       /\ field_at entries1 0 "phone" = Some "555-1234".
Proof.
  assert (Hnd : NoDup (PyDict.keys [(0, two_site_page)])) by solve_decide.
  split; [exact Hnd|]. eexists. split; [vm_compute; reflexivity|].
  split; [|repeat split; vm_compute; reflexivity].
  refine (proj1 (proj2 (proj2 (merge_idempotent no_brackets))) [acme_entry] _ _ _ Hnd _).
  vm_compute. reflexivity.
Defined.

(** ** Remote Extraction Client *)


Lemma poll_status_first w n status :
  first_terminal w n status ->
  forall k fuel, k ≤ n -> n - k < fuel -> poll_status w k fuel = Some status.
Proof.
  intros (Hn & Hterm & Hbefore) k fuel. revert k.
  induction fuel as [|fuel IH]; intros k Hk Hfuel; [lia|].
  simpl. destruct (decide (k = n)) as [->|Hne].
  - by rewrite Hn, Hterm.
  - destruct (run_get w k) as [x|s] eqn:Hget.
    + apply IH; lia.
    + rewrite (Hbefore k s) by (done || lia). apply IH; lia.
Qed.

Section ClientFacts.
Context {K : Type} `{EqDecision K}.
Variable key_of : item -> option K.




Lemma collect_results_NoDup items : NoDup (PyDict.keys (collect_results key_of items)).
Proof.
  unfold collect_results.
  assert (Hgen : forall acc, NoDup (PyDict.keys acc) ->
            NoDup (PyDict.keys (foldl (collect_results_body key_of) acc items))).
  { induction items as [|it items IH]; intros acc Hacc; [done|].
    simpl. apply IH. unfold collect_results_body.
    destruct (key_of it); [by apply NoDup_keys_set|done]. }
  apply Hgen. constructor.
Qed.

End ClientFacts.

(** ** The batch loops *)

Section LoopFacts.
Variable ok : string -> bool.
Variable set_iter : gset string -> list string.

Lemma write_rows_ok fieldnames (entries : list entry) :
  Forall (fun e : entry => PyDict.keys e ⊆ fieldnames) entries ->
  write_rows fieldnames entries = (row_of fieldnames <$> entries, Ok ()).
Proof.
  induction 1 as [|e entries He _ IH]; [done|].
  simpl. unfold checked_row_of.
  assert (forallb (fun k => bool_decide (k ∈ fieldnames)) (PyDict.keys e) = true) as ->.
  { apply forallb_forall. intros k Hk%list_elem_of_In. apply bool_decide_eq_true. by apply He. }
  by rewrite IH.
Qed.

Lemma save_csv_with_ok (entries : list entry) fieldnames :
  Forall (fun e : entry => PyDict.keys e ⊆ fieldnames) entries ->
  save_csv_with entries fieldnames = (Csv fieldnames (row_of fieldnames <$> entries), Ok ()).
Proof. intros H. unfold save_csv_with. by rewrite write_rows_ok. Qed.






End LoopFacts.




(** ** Record Store: the header *)

Lemma existing_cols_of_spec (entries : list entry) c :
  c ∈ existing_cols_of entries <-> exists e : entry, e ∈ entries /\ c ∈ PyDict.keys e.
Proof.
  unfold existing_cols_of.
  assert (Hgen : forall (acc : gset string),
            c ∈ foldl (fun cols (e : entry) => cols ∪ list_to_set (PyDict.keys e)) acc entries
            <-> c ∈ acc \/ exists e : entry, e ∈ entries /\ c ∈ PyDict.keys e).
  { induction entries as [|e entries IH]; intros acc; simpl.
    - split; [auto|]. intros [?|(e & He & _)]; [done|]. by apply elem_of_nil in He.
    - rewrite IH, elem_of_union, elem_of_list_to_set. split.
      + intros [[?|?]|(e' & He' & Hc)]; [by left|right; exists e|right; exists e'];
          (split; [|done]); [apply list_elem_of_here|by apply list_elem_of_further].
      + intros [?|(e' & [->|He']%elem_of_cons & Hc)]; [by left; left|by left; right|].
        right. by exists e'. }
  rewrite Hgen. split; [|auto]. intros [Hc|?]; [|done]. by apply elem_of_empty in Hc.
Qed.

Lemma filter_base_cols (existing_cols : gset string) :
  List.filter (fun c => bool_decide (c ∈ existing_cols) || bool_decide (c ∈ base_cols)) base_cols
  = base_cols.
Proof.
  assert (Hgen : forall l, l ⊆ base_cols ->
            List.filter (fun c => bool_decide (c ∈ existing_cols) || bool_decide (c ∈ base_cols)) l
            = l).
  { induction l as [|c l IH]; intros Hl; [done|]. simpl.
    rewrite (bool_decide_true (c ∈ base_cols)) by (apply Hl; left).
    rewrite orb_true_r, IH; [done|]. intros x Hx. apply Hl. by right. }
  by apply Hgen.
Qed.

Lemma filter_ext_elem {A} (P1 P2 : A -> Prop)
    `{!forall x, Decision (P1 x), !forall x, Decision (P2 x)} (l : list A) :
  (forall x, x ∈ l -> P1 x <-> P2 x) -> filter P1 l = filter P2 l.
Proof.
  induction l as [|a l IH]; intros Hl; [done|].
  assert (Ha : P1 a <-> P2 a) by (apply Hl; left).
  assert (Hrest : filter P1 l = filter P2 l) by (apply IH; intros x Hx; apply Hl; by right).
  destruct (decide (P1 a)).
  - rewrite !filter_cons_True by tauto. by rewrite Hrest.
  - rewrite !filter_cons_False by tauto. done.
Qed.

Lemma foldl_append_if_new acc l :
  NoDup l -> foldl append_if_new acc l = acc ++ filter (fun c => c ∉ acc) l.
Proof.
  intros Hl. revert acc. induction Hl as [|c l Hc Hl IH]; intros acc; simpl.
  - by rewrite app_nil_r.
  - rewrite IH. unfold append_if_new. case_bool_decide as Hin.
    + by rewrite filter_cons_False by (by intros ?).
    + rewrite filter_cons_True by done. rewrite <- app_assoc. simpl. do 2 f_equal.
      apply filter_ext_elem. intros x Hx. rewrite elem_of_app, list_elem_of_singleton.
      split; [tauto|]. intros Hn [?| ->]; done.
Qed.

Section Fieldnames.
Variable set_iter : gset string -> list string.
Hypothesis set_iter_elements : forall s, set_iter s ≡ₚ elements s.

Lemma get_fieldnames_spec entries :
  get_fieldnames set_iter entries
  = base_cols ++ filter (fun c => c ∉ base_cols) (set_iter (existing_cols_of entries)).
Proof.
  unfold get_fieldnames. rewrite filter_base_cols. apply foldl_append_if_new.
  rewrite set_iter_elements. apply NoDup_elements.
Qed.

End Fieldnames.

(** Claim C7, as the code has it. The header get_fieldnames builds is the
    twelve base fields in their fixed order followed by every other field
    of the records, each once, in the order the set of column names is
    iterated; save_csv writes that header. A second call, with an
    iteration order of its own, on a store with the same set of column
    names builds a header with the same fields, and the same header when
    it visits the set in the same order. *)
Theorem fieldnames_base_then_extra (set_iter : gset string -> list string)
    (entries : list entry) :
  (forall s, set_iter s ≡ₚ elements s) ->
  let extra := filter (fun c => c ∉ base_cols) (set_iter (existing_cols_of entries)) in
  get_fieldnames set_iter entries = base_cols ++ extra
  /\ NoDup (get_fieldnames set_iter entries)
  /\ (forall c, c ∈ extra <->
        ((c ∉ base_cols) /\ exists e : entry, e ∈ entries /\ c ∈ PyDict.keys e))
  /\ (forall e es, entries = e :: es ->
        csv_header <$> save_csv set_iter entries = Some (base_cols ++ extra))
  /\ (forall (set_iter' : gset string -> list string) (entries' : list entry),
        (forall s, set_iter' s ≡ₚ elements s) ->
        existing_cols_of entries' = existing_cols_of entries ->
        get_fieldnames set_iter' entries' ≡ₚ get_fieldnames set_iter entries
        /\ (set_iter' (existing_cols_of entries') = set_iter (existing_cols_of entries) ->
            get_fieldnames set_iter' entries' = get_fieldnames set_iter entries)).
Proof.
  intros Hiter extra.
  assert (Hspec := get_fieldnames_spec set_iter Hiter entries). fold extra in Hspec.
  assert (Hextra : forall c, c ∈ extra <->
            ((c ∉ base_cols) /\ exists e : entry, e ∈ entries /\ c ∈ PyDict.keys e)).
  { intros c. unfold extra. rewrite list_elem_of_filter, Hiter, elem_of_elements.
    by rewrite existing_cols_of_spec. }
  split_and!; [done| |done| |].
  - rewrite Hspec. apply NoDup_app. split_and!.
    + solve_decide.
    + intros c Hc Hc'. by apply Hextra in Hc' as [? _].
    + unfold extra. apply NoDup_filter. rewrite Hiter. apply NoDup_elements.
  - intros e es ->. simpl. by rewrite Hspec.
  - intros set_iter' entries' Hiter' Hcols.
    rewrite Hspec, (get_fieldnames_spec set_iter' Hiter' entries'). split.
    + apply Permutation_app_head. unfold extra. by rewrite Hiter', Hiter, Hcols.
    + by intros ->.
Qed.

Lemma alphabetical_iter_elements s : alphabetical_iter s ≡ₚ elements s.
Proof. apply merge_sort_Permutation. Qed.

Lemma fieldnames_base_then_extra_witness :
  (forall s, alphabetical_iter s ≡ₚ elements s)
  /\ get_fieldnames alphabetical_iter zip_fax_store = base_cols ++ ["fax"; "zip"].
Proof.
  split; [exact alphabetical_iter_elements|].
  rewrite (proj1 (fieldnames_base_then_extra alphabetical_iter zip_fax_store
                    alphabetical_iter_elements)).
  vm_compute. reflexivity.
Defined.

(** With a set iteration in alphabetical order the fields zip, fax of
    the records come out as fax, zip. *)
Lemma fieldnames_not_first_seen :
  (forall s, alphabetical_iter s ≡ₚ elements s)
  /\ first_seen_fieldnames zip_fax_store = base_cols ++ ["zip"; "fax"]
  /\ get_fieldnames alphabetical_iter zip_fax_store = base_cols ++ ["fax"; "zip"].
Proof.
  split; [exact alphabetical_iter_elements|]. split; vm_compute; reflexivity.
Qed.

(** Two calls that visit the same set of column names in different
    orders write different headers. *)
Lemma fieldnames_depend_on_iteration :
  existing_cols_of zip_fax_store = existing_cols_of (reverse <$> zip_fax_store)
  /\ get_fieldnames alphabetical_iter zip_fax_store = base_cols ++ ["fax"; "zip"]
  /\ get_fieldnames reverse_alphabetical_iter (reverse <$> zip_fax_store)
     = base_cols ++ ["zip"; "fax"].
Proof. split; [|split]; vm_compute; reflexivity. Qed.

(** ** Record Store: duplicates of the listing *)

Lemma truthy_true s : truthy s = true <-> s ≠ "".
Proof.
  unfold truthy. rewrite negb_true_iff. split.
  - intros H ->. by rewrite String.eqb_refl in H.
  - intros H. by apply String.eqb_neq.
Qed.

Lemma truthy_false s : truthy s = false <-> s = "".
Proof. unfold truthy. rewrite negb_false_iff. apply String.eqb_eq. Qed.

Lemma dedup_seen (installers : list entry) :
  forall u, u ∈ (foldl dedup_step (∅, []) installers).1
            <-> u ≠ "" /\ u ∈ detail_url_of <$> installers.
Proof.
  induction installers as [|inst installers IH] using rev_ind; intros u.
  - simpl. split; [by intros ?%elem_of_empty|]. by intros [_ ?%elem_of_nil].
  - rewrite foldl_app, fmap_app, elem_of_app. simpl.
    destruct (foldl dedup_step (∅, []) installers) as [seen unique] eqn:Hfold.
    simpl in IH. unfold dedup_step. fold (detail_url_of inst).
    rewrite list_elem_of_singleton.
    destruct (truthy (detail_url_of inst)) eqn:Ht; simpl.
    + apply truthy_true in Ht. case_bool_decide as Hseen; simpl.
      * rewrite IH. split; [tauto|]. intros [Hu [?| ->]]; [done|]. by apply IH.
      * rewrite elem_of_union, elem_of_singleton, IH. split.
        -- intros [->|[? ?]]; tauto.
        -- intros [Hu [?| ->]]; tauto.
    + apply truthy_false in Ht. rewrite IH. split; [tauto|].
      intros [Hu [?| ->]]; [done|]. by rewrite Ht in Hu.
Qed.

Lemma save_to_csv_snoc (installers : list entry) (inst : entry) :
  (save_to_csv (installers ++ [inst])).2
  = (save_to_csv installers).2
    ++ (if decide (detail_url_of inst = "" \/ detail_url_of inst ∉ detail_url_of <$> installers)
        then [inst] else []).
Proof.
  unfold save_to_csv. simpl. rewrite foldl_app. simpl.
  pose proof (dedup_seen installers (detail_url_of inst)) as Hseen.
  destruct (foldl dedup_step (∅, []) installers) as [seen unique]. simpl in *.
  unfold dedup_step. fold (detail_url_of inst).
  destruct (truthy (detail_url_of inst)) eqn:Ht; simpl.
  - apply truthy_true in Ht. case_bool_decide as Hin; simpl.
    + rewrite decide_False by tauto. by rewrite app_nil_r.
    + rewrite decide_True by tauto. done.
  - apply truthy_false in Ht. rewrite decide_True by tauto. done.
Qed.

Lemma save_to_csv_sublist (installers : list entry) :
  (save_to_csv installers).2 `sublist_of` installers.
Proof.
  induction installers as [|inst installers IH] using rev_ind; [done|].
  rewrite save_to_csv_snoc. apply sublist_app; [done|].
  case_decide; [done|apply sublist_nil_l].
Qed.

Lemma save_to_csv_urls (installers : list entry) u :
  u ∈ detail_url_of <$> (save_to_csv installers).2 <-> u ∈ detail_url_of <$> installers.
Proof.
  induction installers as [|inst installers IH] using rev_ind; [done|].
  rewrite save_to_csv_snoc, !fmap_app, !elem_of_app, IH.
  case_decide as Hk; cbn [fmap list_fmap]; [done|].
  rewrite elem_of_nil, list_elem_of_singleton. split; [tauto|].
  intros [?| ->]; [tauto|]. left.
  destruct (decide (detail_url_of inst ∈ detail_url_of <$> installers)); [done|].
  exfalso. apply Hk. by right.
Qed.

Lemma save_to_csv_NoDup (installers : list entry) :
  NoDup (filter (fun u => u ≠ "") (detail_url_of <$> (save_to_csv installers).2)).
Proof.
  induction installers as [|inst installers IH] using rev_ind; [constructor|].
  rewrite save_to_csv_snoc, fmap_app, filter_app.
  case_decide as Hk; cbn [fmap list_fmap]; [|by rewrite filter_nil, app_nil_r].
  rewrite filter_cons, filter_nil. case_decide as Hu; [|by rewrite app_nil_r].
  apply NoDup_app. split_and!; [done| |apply NoDup_singleton].
  intros u [_ Hin]%list_elem_of_filter ->%list_elem_of_singleton.
  apply (proj1 (save_to_csv_urls installers _)) in Hin.
  destruct Hk as [?|Hn]; [done|by apply Hn].
Qed.

(** Claim C10. save_to_csv keeps a record exactly when its [detail_url]
    is empty or has not occurred in an earlier record; the records kept
    are in their input order, and the rows written are theirs. *)
Theorem save_to_csv_keeps_first (installers : list entry) :
  let unique := (save_to_csv installers).2 in
  (save_to_csv ([] : list entry)).2 = []
  /\ (forall inst : entry,
        (save_to_csv (installers ++ [inst])).2
        = unique ++ (if decide (detail_url_of inst = ""
                                \/ detail_url_of inst ∉ detail_url_of <$> installers)
                     then [inst] else []))
  /\ unique `sublist_of` installers
  /\ filter (fun inst => detail_url_of inst = "") unique
     = filter (fun inst => detail_url_of inst = "") installers
  /\ NoDup (filter (fun u => u ≠ "") (detail_url_of <$> unique))
  /\ (forall u, u ∈ detail_url_of <$> unique <-> u ∈ detail_url_of <$> installers)
  /\ (save_to_csv installers).1 = Csv listing_fieldnames (row_of listing_fieldnames <$> unique).
Proof.
  intros unique. split_and!.
  - reflexivity.
  - intros inst. apply save_to_csv_snoc.
  - apply save_to_csv_sublist.
  - unfold unique. induction installers as [|inst l IH] using rev_ind; [done|].
    rewrite save_to_csv_snoc, !filter_app, IH. f_equal.
    rewrite filter_cons, filter_nil.
    repeat case_decide; try done; try tauto.
    all: by rewrite ?filter_cons_True, ?filter_cons_False, ?filter_nil by done.
  - apply save_to_csv_NoDup.
  - apply save_to_csv_urls.
  - reflexivity.
Qed.

(** * Further properties *)

(** ** Stable sorting *)

Lemma insert_by_Permutation {A} (le : A -> A -> bool) x l : insert_by le x l ≡ₚ x :: l.
Proof.
  induction l as [|y l IH]; simpl; [done|].
  destruct (le x y); [done|]. rewrite IH. apply Permutation_swap.
Qed.

Lemma stable_sort_Permutation {A} (le : A -> A -> bool) l : stable_sort le l ≡ₚ l.
Proof.
  induction l as [|x l IH]; simpl; [done|].
  by rewrite insert_by_Permutation, IH.
Qed.

Lemma stable_sort_ext {A} (le1 le2 : A -> A -> bool) l :
  (forall x y, le1 x y = le2 x y) -> stable_sort le1 l = stable_sort le2 l.
Proof.
  intros Hle. induction l as [|x l IH]; simpl; [done|]. rewrite IH.
  generalize (stable_sort le2 l). intros s.
  induction s as [|y s IHs]; simpl; [done|]. by rewrite Hle, IHs.
Qed.

Lemma insert_by_fmap {A B} (f : A -> B) (le : B -> B -> bool) x l :
  insert_by le (f x) (f <$> l) = f <$> insert_by (fun a b => le (f a) (f b)) x l.
Proof.
  induction l as [|y l IH]; [done|]. rewrite fmap_cons. cbn [insert_by].
  destruct (le (f x) (f y)); [done|]. by rewrite IH.
Qed.

Lemma stable_sort_fmap {A B} (f : A -> B) (le : B -> B -> bool) l :
  stable_sort le (f <$> l) = f <$> stable_sort (fun a b => le (f a) (f b)) l.
Proof.
  induction l as [|x l IH]; [done|]. rewrite fmap_cons.
  change (stable_sort le (f x :: (f <$> l))) with (insert_by le (f x) (stable_sort le (f <$> l))).
  rewrite IH. apply insert_by_fmap.
Qed.

Section SortByKey.
Context {A : Type} (key : A -> Z).

Lemma insert_by_key_sorted x l :
  StronglySorted (fun a b => (key a ≤ key b)%Z) l ->
  StronglySorted (fun a b => (key a ≤ key b)%Z) (insert_by (key_le key) x l).
Proof.
  induction 1 as [|y l Hl IH Hy]; simpl.
  - repeat constructor.
  - unfold key_le at 1. destruct (Z.leb_spec (key x) (key y)) as [Hle|Hlt].
    + constructor; [by constructor|]. constructor; [done|].
      eapply Forall_impl; [exact Hy|]. simpl. intros z Hz. lia.
    + constructor; [done|].
      rewrite insert_by_Permutation. constructor; [lia|done].
Qed.

Lemma stable_sort_key_sorted l :
  StronglySorted (fun a b => (key a ≤ key b)%Z) (stable_sort (key_le key) l).
Proof.
  induction l as [|x l IH]; simpl; [constructor|]. by apply insert_by_key_sorted.
Qed.

(** Stability: the records of one key come out in the order they came in. *)
Lemma insert_by_key_filter k x l :
  filter (fun a => key a = k) (insert_by (key_le key) x l)
  = filter (fun a => key a = k) (x :: l).
Proof.
  induction l as [|y l IH]; simpl; [done|].
  unfold key_le at 1. destruct (Z.leb_spec (key x) (key y)) as [Hle|Hlt]; [done|].
  rewrite filter_cons, IH, !filter_cons.
  destruct (decide (key y = k)), (decide (key x = k)); try done. lia.
Qed.

Lemma stable_sort_key_filter k l :
  filter (fun a => key a = k) (stable_sort (key_le key) l) = filter (fun a => key a = k) l.
Proof.
  induction l as [|x l IH]; simpl; [done|].
  by rewrite insert_by_key_filter, !filter_cons, IH.
Qed.

End SortByKey.

(** ** read_and_sort_csv *)

Lemma dict_del_set_new {V} (d : list (string * V)) k v :
  PyDict.get d k = None -> dict_del (PyDict.set d k v) k = d.
Proof.
  induction d as [|[k' v'] d IH]; simpl.
  - by rewrite decide_True.
  - destruct (decide (k = k')) as [->|Hne]; [done|]. simpl.
    rewrite decide_False by done. intros Hd. by rewrite IH.
Qed.

Section ReadAndSortFacts.
Variable py_int : string -> option Z.

Lemma read_and_sort_csv_sort rows :
  Forall (fun row => PyDict.get row "_source_page_int" = None) rows ->
  read_and_sort_csv py_int rows = stable_sort (key_le (source_page_int py_int)) rows.
Proof.
  intros Hrows. unfold read_and_sort_csv.
  rewrite stable_sort_fmap, <- list_fmap_compose.
  rewrite (stable_sort_ext _ (key_le (source_page_int py_int))).
  - rewrite <- (list_fmap_id (stable_sort _ rows)) at 2.
    apply Forall_fmap_ext. rewrite stable_sort_Permutation.
    eapply Forall_impl; [exact Hrows|]. simpl. intros row Hrow.
    by apply dict_del_set_new.
  - intros x y. unfold key_le, sort_key. by rewrite !get_set_eq.
Qed.

End ReadAndSortFacts.

(** Property X1. read_and_sort_csv returns the rows it read, reordered by page
    number (0 for a page that is not a number), rows of one page in the
    order of the file. *)
Theorem read_and_sort_csv_stable (py_int : string -> option Z)
    (rows : list (list (string * pyval))) :
  Forall (fun row => PyDict.get row "_source_page_int" = None) rows ->
  let sorted := read_and_sort_csv py_int rows in
  sorted ≡ₚ rows
  /\ StronglySorted (fun a b => (source_page_int py_int a ≤ source_page_int py_int b)%Z) sorted
  /\ (forall page,
        filter (fun row => source_page_int py_int row = page) sorted
        = filter (fun row => source_page_int py_int row = page) rows).
Proof.
  intros Hrows sorted. unfold sorted. rewrite read_and_sort_csv_sort by done.
  split_and!.
  - apply stable_sort_Permutation.
  - apply stable_sort_key_sorted.
  - intros page. apply stable_sort_key_filter.
Qed.

Lemma read_and_sort_csv_stable_witness :
  Forall (fun row => PyDict.get row "_source_page_int" = None) paged_rows
  /\ (fun row => PyDict.get row "company_name") <$> read_and_sort_csv digits_int paged_rows
     = [Some (VStr "C"); Some (VStr "A"); Some (VStr "D"); Some (VStr "B")]
  /\ filter (fun row => source_page_int digits_int row = 1%Z)
            (read_and_sort_csv digits_int paged_rows)
     = filter (fun row => source_page_int digits_int row = 1%Z) paged_rows.
Proof.
  assert (Hrows : Forall (fun row => PyDict.get row "_source_page_int" = None) paged_rows).
  { repeat constructor. }
  split; [exact Hrows|]. split; [reflexivity|].
  destruct (read_and_sort_csv_stable digits_int paged_rows Hrows) as (_ & _ & Hpage).
  apply Hpage.
Defined.

(** ** generate_urls *)

Lemma to_uint_nonnil n : Nat.to_uint n <> Decimal.Nil.
Proof.
  intros H. pose proof (Unsigned.of_to n) as Hn. rewrite H in Hn. simpl in Hn.
  subst n. discriminate H.
Qed.

Lemma str_of_nat_inj n m : str_of_nat n = str_of_nat m -> n = m.
Proof.
  unfold str_of_nat. intros H.
  apply Unsigned.to_uint_inj.
  assert (Hs : Some (Nat.to_uint n) = Some (Nat.to_uint m)); [|by injection Hs].
  rewrite <- (NilZero.usu (Nat.to_uint n)) by apply to_uint_nonnil.
  rewrite <- (NilZero.usu (Nat.to_uint m)) by apply to_uint_nonnil.
  by rewrite H.
Qed.

(** Property X2. generate_urls lists the pages from [start_page] to [end_page] in
    order, one request each, with pairwise different urls. *)
Theorem generate_urls_pages (start_page end_page : nat) :
  page_num <$> generate_urls start_page end_page = seq start_page (end_page + 1 - start_page)
  /\ length (generate_urls start_page end_page) = end_page + 1 - start_page
  /\ NoDup (page_url <$> generate_urls start_page end_page).
Proof.
  unfold generate_urls, py_range. split_and!.
  - rewrite <- list_fmap_compose. simpl. apply list_fmap_id.
  - by rewrite length_fmap, length_seq.
  - rewrite <- list_fmap_compose. apply NoDup_fmap_2; [|apply NoDup_seq].
    intros n m Hnm. simpl in Hnm.
    apply String.app_inj, String.app_inj in Hnm. by apply str_of_nat_inj.
Qed.

(** ** The counts of generate_summary *)

Lemma get_elem_of_NoDup {K V} `{EqDecision K} (d : list (K * V)) k v :
  NoDup (PyDict.keys d) -> (k, v) ∈ d -> PyDict.get d k = Some v.
Proof.
  unfold PyDict.keys. induction d as [|[k0 v0] d IH]; simpl.
  - by intros _ ?%elem_of_nil.
  - intros [Hk0 Hnd]%NoDup_cons [[= -> ->]|Hin]%elem_of_cons.
    + by rewrite decide_True.
    + destruct (decide (k = k0)) as [->|Hk]; [|by apply IH].
      exfalso. apply Hk0. apply list_elem_of_fmap. by exists (k0, v).
Qed.

Lemma get_Some_elem_of {K V} `{EqDecision K} (d : list (K * V)) k v :
  PyDict.get d k = Some v -> (k, v) ∈ d.
Proof.
  induction d as [|[k0 v0] d IH]; simpl; [done|].
  destruct (decide (k = k0)) as [->|Hk].
  - intros [= ->]. left.
  - intros Hg. right. by apply IH.
Qed.

Lemma StronglySorted_weaken {A} (R R' : A -> A -> Prop) l :
  (forall x y, R x y -> R' x y) -> StronglySorted R l -> StronglySorted R' l.
Proof.
  intros HR. induction 1 as [|x l Hl IH Hx]; constructor; [done|].
  eapply Forall_impl; [exact Hx|]. apply HR.
Qed.

Lemma length_filter_fmap {A B} (f : A -> B) (P : B -> Prop) `{!forall b, Decision (P b)}
    (l : list A) :
  length (filter P (f <$> l)) = length (filter (fun a => P (f a)) l).
Proof.
  induction l as [|a l IH]; [done|]. rewrite fmap_cons, !filter_cons.
  destruct (decide (P (f a))); simpl; by rewrite IH.
Qed.

Lemma get_count_step (d : list (string * nat)) k a :
  PyDict.get_or (count_step d k) a 0
  = PyDict.get_or d a 0 + (if decide (a = k) then 1 else 0).
Proof.
  unfold count_step, PyDict.get_or. destruct (decide (a = k)) as [->|Hne].
  - by rewrite get_set_eq.
  - rewrite get_set_ne by done. lia.
Qed.

Lemma get_count_fold (ks : list string) (d : list (string * nat)) a :
  PyDict.get_or (foldl count_step d ks) a 0
  = PyDict.get_or d a 0 + length (filter (fun k => k = a) ks).
Proof.
  revert d. induction ks as [|k ks IH]; intros d; simpl; [lia|].
  rewrite IH, get_count_step, filter_cons.
  destruct (decide (a = k)) as [->|Hne].
  - rewrite decide_True by done. simpl. lia.
  - rewrite decide_False by done. lia.
Qed.

Lemma keys_count_step (d : list (string * nat)) k :
  PyDict.keys (count_step d k) = append_if_new (PyDict.keys d) k.
Proof.
  unfold count_step, append_if_new. rewrite keys_set.
  destruct (PyDict.get d k) eqn:Hg.
  - rewrite bool_decide_true; [done|].
    destruct (decide (k ∈ PyDict.keys d)) as [|Hn]; [done|].
    apply get_None_keys in Hn. congruence.
  - rewrite bool_decide_false; [done|]. by apply get_None_keys.
Qed.

Lemma keys_count_fold (ks : list string) (d : list (string * nat)) :
  PyDict.keys (foldl count_step d ks) = foldl append_if_new (PyDict.keys d) ks.
Proof.
  revert d. induction ks as [|k ks IH]; intros d; simpl; [done|].
  by rewrite IH, keys_count_step.
Qed.

Lemma count_fold_positive (ks : list string) (d : list (string * nat)) :
  Forall (fun kv => 0 < kv.2) d -> Forall (fun kv => 0 < kv.2) (foldl count_step d ks).
Proof.
  revert d. induction ks as [|k ks IH]; intros d Hd; simpl; [done|].
  apply IH. unfold count_step. generalize (PyDict.get_or d k 0). intros n.
  induction Hd as [|[k' v'] d Hkv Hd IHd]; simpl.
  - repeat constructor. simpl. lia.
  - destruct (decide (k = k')); constructor; simpl; try done. lia.
Qed.

Lemma sum_set (d : list (string * nat)) k v :
  sum_list (PyDict.set d k v).*2 + PyDict.get_or d k 0 = sum_list d.*2 + v.
Proof.
  unfold PyDict.get_or.
  induction d as [|[k' v'] d IH]; [simpl; lia|].
  cbn [PyDict.set PyDict.get]. destruct (decide (k = k')) as [->|Hne].
  - rewrite !fmap_cons. simpl. lia.
  - rewrite !fmap_cons. simpl in *. lia.
Qed.

Lemma sum_count_fold (ks : list string) (d : list (string * nat)) :
  sum_list (foldl count_step d ks).*2 = sum_list d.*2 + length ks.
Proof.
  revert d. induction ks as [|k ks IH]; intros d; simpl; [lia|].
  rewrite IH. unfold count_step.
  pose proof (sum_set d k (PyDict.get_or d k 0 + 1)). lia.
Qed.

Lemma NoDup_count_fold (ks : list string) (d : list (string * nat)) :
  NoDup (PyDict.keys d) -> NoDup (PyDict.keys (foldl count_step d ks)).
Proof.
  revert d. induction ks as [|k ks IH]; intros d Hnd; simpl; [done|].
  apply IH. unfold count_step. by apply NoDup_keys_set.
Qed.

(** Property X3. the area table of generate_summary has one line per area in the
    order the areas first occur, each with the number of installers of
    that area; the top list is that table by falling count, areas of equal
    count in their order of first occurrence, cut after fifteen lines. *)
Theorem top_areas_spec (installers : list entry) :
  let areas := count_areas installers in
  let sorted := stable_sort (fun x y : string * nat => y.2 <=? x.2) areas in
  PyDict.keys areas = foldl append_if_new [] (area_of <$> installers)
  /\ (forall a n, (a, n) ∈ areas <->
        (0 < n /\ n = length (filter (fun i => area_of i = a) installers)))
  /\ sum_list areas.*2 = length installers
  /\ top_areas installers = take 15 sorted
  /\ sorted ≡ₚ areas
  /\ StronglySorted (fun x y : string * nat => y.2 ≤ x.2) sorted
  /\ (forall n, filter (fun x : string * nat => x.2 = n) sorted
                = filter (fun x : string * nat => x.2 = n) areas).
Proof.
  intros areas sorted.
  assert (Hnd : NoDup (PyDict.keys areas)).
  { unfold areas, count_areas. apply NoDup_count_fold. constructor. }
  assert (Hget : forall a, PyDict.get_or areas a 0
                           = length (filter (fun i => area_of i = a) installers)).
  { intros a. unfold areas, count_areas. rewrite get_count_fold. simpl.
    apply length_filter_fmap. }
  assert (Hpos : Forall (fun kv : string * nat => 0 < kv.2) areas).
  { unfold areas, count_areas. apply count_fold_positive. constructor. }
  assert (Hsorted : sorted
            = stable_sort (key_le (fun x : string * nat => (- Z.of_nat x.2)%Z)) areas).
  { unfold sorted. apply stable_sort_ext. intros x y. unfold key_le.
    destruct (Nat.leb_spec y.2 x.2), (Z.leb_spec (- Z.of_nat x.2) (- Z.of_nat y.2)); lia. }
  split_and!.
  - unfold areas, count_areas. by rewrite keys_count_fold.
  - intros a n. rewrite <- Hget. split.
    + intros Hin. split.
      * by apply (proj1 (Forall_forall _ _) Hpos (a, n)).
      * unfold PyDict.get_or. by rewrite (get_elem_of_NoDup _ _ _ Hnd Hin).
    + intros [Hn ->]. unfold PyDict.get_or in *.
      destruct (PyDict.get areas a) as [n|] eqn:Hg; [|lia].
      by apply get_Some_elem_of.
  - unfold areas, count_areas.
    rewrite sum_count_fold. simpl. by rewrite length_fmap.
  - done.
  - apply stable_sort_Permutation.
  - rewrite Hsorted.
    eapply StronglySorted_weaken; [|apply stable_sort_key_sorted].
    simpl. intros x y. lia.
  - intros n. rewrite Hsorted.
    pose proof (stable_sort_key_filter (fun x : string * nat => (- Z.of_nat x.2)%Z)
                  (- Z.of_nat n)%Z areas) as Hst.
    etrans; [etrans; [|exact Hst]|]; apply list_filter_iff; intros x; lia.
Qed.

Lemma StronglySorted_lt_NoDup (l : list nat) : StronglySorted lt l -> NoDup l.
Proof.
  induction 1 as [|x l Hl IH Hx]; constructor; [|done].
  intros Hin. apply (proj1 (Forall_forall _ _) Hx) in Hin. lia.
Qed.

(** ** Selecting rows by index: get_missing_indices, multi_website_indices *)

Section Select.
Context {A : Type} (p : A -> bool).

Lemma select_from_cons k e l :
  select_from p k (e :: l) = (if p e then [k] else []) ++ select_from p (S k) l.
Proof.
  unfold select_from. rewrite imap_cons. cbn [List.filter snd].
  assert (Himap : imap ((fun i (e : A) => (k + i, e)) ∘ S) l
                  = imap (fun i (e : A) => (S k + i, e)) l).
  { apply imap_ext. intros i x _. simpl. f_equal. lia. }
  rewrite Himap. replace (k + 0) with k by lia.
  by destruct (p e).
Qed.

Lemma select_from_spec l k i :
  i ∈ select_from p k l <-> exists j e, i = k + j /\ l !! j = Some e /\ p e = true.
Proof.
  revert k. induction l as [|e l IH]; intros k.
  - split; [by intros ?%elem_of_nil|]. by intros (j & e & _ & ? & _).
  - rewrite select_from_cons, elem_of_app, IH. split.
    + intros [Hi|(j & e' & -> & Hj & Hp)].
      * destruct (p e) eqn:Hp; [|by apply elem_of_nil in Hi].
        apply list_elem_of_singleton in Hi as ->. exists 0, e. split; [lia|done].
      * exists (S j), e'. split; [lia|done].
    + intros (j & e' & -> & Hj & Hp). destruct j as [|j].
      * left. simpl in Hj. injection Hj as ->. rewrite Hp.
        apply list_elem_of_singleton. lia.
      * right. exists j, e'. split; [lia|done].
Qed.

Lemma select_from_sorted l k : StronglySorted lt (select_from p k l).
Proof.
  revert k. induction l as [|e l IH]; intros k; [constructor|].
  rewrite select_from_cons. destruct (p e); simpl; [|apply IH].
  constructor; [apply IH|]. apply Forall_forall. intros i Hi.
  apply select_from_spec in Hi as (j & _ & -> & _). lia.
Qed.

End Select.

Lemma get_missing_indices_select (entries : list entry) :
  get_missing_indices entries
  = select_from (fun e => negb (has_value e "website_url_primary")) 0 entries.
Proof. reflexivity. Qed.

Lemma multi_website_indices_select (rows : list entry) :
  multi_website_indices rows
  = select_from
      (fun e => negb (bool_decide (PyDict.get_or e "website_count" "0" ∈ [""; "0"; "1"])))
      0 rows.
Proof. reflexivity. Qed.

Lemma get_missing_indices_sorted (entries : list entry) :
  StronglySorted lt (get_missing_indices entries).
Proof. rewrite get_missing_indices_select. apply select_from_sorted. Qed.

Lemma get_missing_indices_elem (entries : list entry) i :
  i ∈ get_missing_indices entries <->
  exists e : entry, entries !! i = Some e /\ has_value e "website_url_primary" = false.
Proof.
  rewrite get_missing_indices_select, select_from_spec. split.
  - intros (j & e & -> & Hj & Hp). exists e. split; [done|]. by apply negb_true_iff.
  - intros (e & Hi & Hp). exists i, e. split; [done|]. split; [done|].
    by apply negb_true_iff.
Qed.

(** Property X4. get_missing_indices returns, in increasing order and
    once each, the positions of the records whose primary website is
    missing or empty. *)
Theorem get_missing_indices_spec (entries : list entry) :
  StronglySorted lt (get_missing_indices entries)
  /\ NoDup (get_missing_indices entries)
  /\ (forall i, i ∈ get_missing_indices entries <->
        exists e : entry, entries !! i = Some e /\ has_value e "website_url_primary" = false).
Proof.
  split_and!.
  - apply get_missing_indices_sorted.
  - apply StronglySorted_lt_NoDup, get_missing_indices_sorted.
  - apply get_missing_indices_elem.
Qed.

(** ** enf_rescrape_wecp.py: selecting and clearing *)

Lemma clear_primary_raise indices x :
  foldl clear_primary_body (Raise x) indices = Raise x.
Proof. induction indices as [|i l IH]; [done|]. simpl. apply IH. Qed.

Lemma clear_primary_body_step rows urls idx :
  clear_primary_body (Ok (rows, urls)) idx
  = match rows !! idx with
    | None => Raise IndexError
    | Some e =>
        match PyDict.get (cleared e) "detail_url" with
        | None => Raise KeyError
        | Some url => Ok (<[idx := cleared e]> rows, urls ++ [Target idx url])
        end
    end.
Proof. reflexivity. Qed.

Lemma get_cleared_other (e : entry) k :
  k ≠ "website_url_primary" -> k ≠ "website_domain_primary" ->
  PyDict.get (cleared e) k = PyDict.get e k.
Proof. intros H1 H2. unfold cleared. by rewrite !get_set_ne by done. Qed.

Lemma omap_ext_elem {A B} (f g : A -> option B) (l : list A) :
  (forall x, x ∈ l -> f x = g x) -> omap f l = omap g l.
Proof.
  induction l as [|x l IH]; intros Hfg; [done|]. cbn [omap list_omap].
  rewrite (Hfg x) by left. fold (omap f l) (omap g l).
  rewrite IH; [done|]. intros y Hy. apply Hfg. by right.
Qed.

Lemma clear_primary_fold indices :
  NoDup indices ->
  forall rows urls,
    Forall (fun i => exists e : entry, rows !! i = Some e
                                       /\ is_Some (PyDict.get e "detail_url")) indices ->
    exists rows',
      foldl clear_primary_body (Ok (rows, urls)) indices
      = Ok (rows',
            urls ++ omap (fun i => e ← rows !! i;
                                   Target i <$> PyDict.get e "detail_url") indices)
      /\ length rows' = length rows
      /\ forall i, rows' !! i
                   = if decide (i ∈ indices) then cleared <$> rows !! i else rows !! i.
Proof.
  induction 1 as [|idx indices Hidx Hnd IH]; intros rows urls Hall.
  - exists rows. split_and!; [by rewrite app_nil_r|done|].
    intros i. destruct (decide (i ∈ [])) as [Hi|Hi]; [by apply elem_of_nil in Hi|done].
  - apply Forall_cons in Hall as [(e & He & [url Hurl]) Hall].
    change (foldl ?f ?a (?x :: ?l)) with (foldl f (f a x) l).
    rewrite clear_primary_body_step, He.
    rewrite get_cleared_other by done. rewrite Hurl.
    assert (Hother : forall i, i ∈ indices -> <[idx := cleared e]> rows !! i = rows !! i).
    { intros i Hi. apply list_lookup_insert_ne. by intros ->. }
    destruct (IH (<[idx := cleared e]> rows) (urls ++ [Target idx url]))
      as (rows' & Hrun & Hlen & Hlook).
    { apply Forall_forall. intros i Hi. rewrite Hother by done.
      by apply (proj1 (Forall_forall _ _) Hall). }
    exists rows'. split_and!.
    + rewrite Hrun. f_equal. f_equal. rewrite <- app_assoc. f_equal.
      cbn [omap list_omap]. rewrite He. simpl. rewrite Hurl. simpl. f_equal.
      apply omap_ext_elem. intros i Hi. by rewrite Hother.
    + by rewrite Hlen, length_insert.
    + intros i. rewrite Hlook.
      assert (Hin : i ∈ idx :: indices <-> i = idx \/ i ∈ indices) by apply elem_of_cons.
      destruct (decide (i = idx)) as [->|Hne].
      * rewrite list_lookup_insert_eq by (by eapply lookup_lt_Some).
        rewrite He. repeat case_decide; tauto.
      * rewrite list_lookup_insert_ne by done. repeat case_decide; tauto.
Qed.

Lemma clear_primary_fold_missing indices :
  NoDup indices ->
  forall rows urls idx (e : entry),
    idx ∈ indices -> rows !! idx = Some e -> PyDict.get e "detail_url" = None ->
    Forall (fun i => i < length rows) indices ->
    foldl clear_primary_body (Ok (rows, urls)) indices = Raise KeyError.
Proof.
  induction 1 as [|j indices Hj Hnd IH]; intros rows urls idx e Hidx He Hurl Hall.
  - by apply elem_of_nil in Hidx.
  - apply Forall_cons in Hall as [Hlt Hall].
    change (foldl ?f ?a (?x :: ?l)) with (foldl f (f a x) l).
    rewrite clear_primary_body_step.
    destruct (lookup_lt_is_Some_2 rows j Hlt) as [ej Hej]. rewrite Hej.
    rewrite get_cleared_other by done.
    destruct (PyDict.get ej "detail_url") as [url|] eqn:Hju.
    + apply elem_of_cons in Hidx as [->|Hidx]; [congruence|].
      apply (IH _ _ idx e); try done.
      * rewrite list_lookup_insert_ne; [done|]. by intros ->.
      * by rewrite length_insert.
    + apply clear_primary_raise.
Qed.

Lemma targets_indices (rows : list entry) (l : list nat) :
  Forall (fun i => exists e : entry, rows !! i = Some e
                                     /\ is_Some (PyDict.get e "detail_url")) l ->
  tgt_index <$> omap (fun i => e ← rows !! i; Target i <$> PyDict.get e "detail_url") l = l.
Proof.
  induction 1 as [|i l (e & He & [url Hu]) _ IH]; [done|].
  cbn [omap list_omap]. rewrite He. simpl. rewrite Hu. simpl. f_equal. apply IH.
Qed.

(** Property X5. The clearing pass of enf_rescrape_wecp.py selects the rows whose
    website_count is none of '', '0', '1'; it blanks the primary website
    and domain of exactly those rows and queues one target per selected
    row, in order, with the row's detail_url. A selected row without a
    detail_url column ends the pass with KeyError. *)
Theorem clear_primary_selected (rows : list entry) :
  let selected := multi_website_indices rows in
  StronglySorted lt selected
  /\ (forall i, i ∈ selected <->
        exists e : entry, rows !! i = Some e
                          /\ PyDict.get_or e "website_count" "0" ∉ [""; "0"; "1"])
  /\ ((forall i (e : entry), i ∈ selected -> rows !! i = Some e ->
         is_Some (PyDict.get e "detail_url")) ->
      exists rows' urls_to_scrape,
        clear_primary rows selected = Ok (rows', urls_to_scrape)
        /\ length rows' = length rows
        /\ (forall i, rows' !! i
                      = if decide (i ∈ selected) then cleared <$> rows !! i else rows !! i)
        /\ urls_to_scrape
           = omap (fun i => e ← rows !! i; Target i <$> PyDict.get e "detail_url") selected
        /\ tgt_index <$> urls_to_scrape = selected)
  /\ (forall i (e : entry), i ∈ selected -> rows !! i = Some e ->
        PyDict.get e "detail_url" = None ->
        clear_primary rows selected = Raise KeyError).
Proof.
  intros selected.
  assert (Hsorted : StronglySorted lt selected).
  { unfold selected. rewrite multi_website_indices_select. apply select_from_sorted. }
  assert (Hspec : forall i, i ∈ selected <->
            exists e : entry, rows !! i = Some e
                              /\ PyDict.get_or e "website_count" "0" ∉ [""; "0"; "1"]).
  { intros i. unfold selected. rewrite multi_website_indices_select, select_from_spec. split.
    - intros (j & e & -> & Hj & Hp). exists e. split; [done|].
      by apply negb_true_iff, bool_decide_eq_false in Hp.
    - intros (e & Hi & Hp). exists i, e. split; [done|]. split; [done|].
      by apply negb_true_iff, bool_decide_eq_false. }
  assert (Hnd : NoDup selected).
  { apply StronglySorted_lt_NoDup. exact Hsorted. }
  assert (Hlt : Forall (fun i => i < length rows) selected).
  { apply Forall_forall. intros i (e & Hi & _)%Hspec. by eapply lookup_lt_Some. }
  split_and!; [done|done| |].
  - intros Hurl.
    assert (Hall : Forall (fun i => exists e : entry, rows !! i = Some e
                                       /\ is_Some (PyDict.get e "detail_url")) selected).
    { apply Forall_forall. intros i Hi.
      destruct (proj1 (Hspec i) Hi) as (e & He & _). exists e. split; [done|]. eauto. }
    destruct (clear_primary_fold selected Hnd rows [] Hall) as (rows' & Hrun & Hlen & Hlook).
    exists rows', (omap (fun i => e ← rows !! i; Target i <$> PyDict.get e "detail_url")
                        selected).
    split_and!; try done. by apply targets_indices.
  - intros i e Hi He Hurl. by eapply clear_primary_fold_missing.
Qed.

Lemma clear_primary_selected_witness :
  multi_website_indices wecp_rows = [0; 2]
  /\ exists rows' urls_to_scrape,
       clear_primary wecp_rows [0; 2] = Ok (rows', urls_to_scrape)
       /\ tgt_index <$> urls_to_scrape = [0; 2]
       /\ field_at rows' 0 "website_url_primary" = Some ""
       /\ field_at rows' 1 "website_url_primary" = Some "http://b.com".
Proof.
  split; [reflexivity|].
  destruct (clear_primary_selected wecp_rows) as (_ & _ & Hok & _).
  destruct Hok as (rows' & urls_to_scrape & Hrun & _ & Hlook & _ & Hidx).
  { intros i e Hi He. change (i ∈ [0; 2]) in Hi.
    apply elem_of_cons in Hi as [->|Hi%list_elem_of_singleton]; [|subst i];
      injection He as <-; by eexists. }
  exists rows', urls_to_scrape. split; [exact Hrun|]. split; [exact Hidx|].
  unfold field_at. rewrite !Hlook. split; reflexivity.
Defined.

(** ** update_entries: outcome, effect, and the records still missing *)

Section UpdateEntriesMore.
Variable ok : string -> bool.

Lemma update_entries_fold_out_of_range results :
  forall entries updated,
    ¬ Forall (fun kv : nat * item => reads_entry kv.2 = true -> kv.1 < length entries) results ->
    foldl (update_entries_body ok) (Ok (entries, updated)) results = Raise IndexError.
Proof.
  induction results as [|[j it] results IH]; intros entries updated Hnot.
  - exfalso. apply Hnot. constructor.
  - change (foldl ?f ?a (?x :: ?l)) with (foldl f (f a x) l).
    rewrite update_entries_body_step.
    destruct (reads_entry it) eqn:Hr.
    + destruct (entries !! j) as [e|] eqn:He.
      * apply IH. rewrite length_insert. intros Hall. apply Hnot.
        constructor; [|done]. simpl. intros _. by eapply lookup_lt_Some.
      * apply update_entries_raise.
    + apply IH. intros Hall. apply Hnot. constructor; [|done]. simpl. by rewrite Hr.
Qed.

Lemma get_set_websites_primary w0 ws (e : entry) :
  PyDict.get (set_websites ok (w0 :: ws) e) "website_url_primary" = Some w0
  /\ PyDict.get (set_websites ok (w0 :: ws) e) "website_domain_primary"
     = Some (normalize_domain_str ok w0).
Proof.
  rewrite set_websites_assign.
  destruct (website_assignments_keys ok (w0 :: ws)) as [_ Hnd].
  split; apply get_assign_in; try done; unfold website_assignments;
    apply elem_of_app; left; repeat constructor.
Qed.

Lemma merge_item_primary it w0 ws (e : entry) :
  websites it = w0 :: ws ->
  PyDict.get (merge_item ok it e) "website_url_primary" = Some w0
  /\ PyDict.get (merge_item ok it e) "website_domain_primary"
     = Some (normalize_domain_str ok w0).
Proof.
  intros Hw. unfold merge_item. rewrite !get_fill_ne by done. rewrite Hw.
  apply get_set_websites_primary.
Qed.

Lemma merge_item_fills k it (e : entry) v :
  (k = "phone" /\ v = phone it) \/ (k = "address" /\ v = address it) ->
  has_value e k = false -> truthy v = true ->
  PyDict.get (merge_item ok it e) k = Some v.
Proof.
  intros Hk He Hv. unfold merge_item.
  assert (Hw : forall k', k' = "phone" \/ k' = "address" ->
             PyDict.get (set_websites ok (websites it) e) k' = PyDict.get e k').
  { intros k' Hk'. apply get_set_websites_other. destruct Hk' as [-> | ->]; solve_decide. }
  destruct Hk as [[-> ->]|[-> ->]].
  - rewrite get_fill_ne by done. unfold fill_if_empty at 1, has_value.
    rewrite Hw by auto. unfold has_value in He.
    rewrite Hv. destruct (PyDict.get e "phone") as [p|] eqn:Hp.
    + rewrite He. simpl. apply get_set_eq.
    + simpl. apply get_set_eq.
  - unfold fill_if_empty at 1, has_value. rewrite get_fill_ne by done.
    rewrite Hw by auto. unfold has_value in He.
    rewrite Hv. destruct (PyDict.get e "address") as [p|] eqn:Hp.
    + rewrite He. simpl. apply get_set_eq.
    + simpl. apply get_set_eq.
Qed.

Lemma merge_item_other k it (e : entry) :
  k ∉ website_keys ++ ["phone"; "address"] ->
  PyDict.get (merge_item ok it e) k = PyDict.get e k.
Proof.
  intros Hk. unfold merge_item.
  rewrite !get_fill_ne.
  - apply get_set_websites_other. intros Hin. apply Hk. apply elem_of_app. by left.
  - intros <-. apply Hk. apply elem_of_app. right. repeat constructor.
  - intros <-. apply Hk. apply elem_of_app. right. repeat constructor.
Qed.

Lemma merge_item_keeps_website it (e : entry) :
  (forall w0 ws, websites it = w0 :: ws -> w0 ≠ "") ->
  has_value e "website_url_primary" = true ->
  has_value (merge_item ok it e) "website_url_primary" = true.
Proof.
  intros Hw He. unfold has_value.
  destruct (websites it) as [|w0 ws] eqn:Hws.
  - rewrite merge_item_no_website by done. exact He.
  - rewrite (proj1 (merge_item_primary it w0 ws e Hws)).
    apply negb_true_iff, String.eqb_neq. by eapply Hw.
Qed.

End UpdateEntriesMore.

(** Property X6. update_entries either raises IndexError, exactly when
    some result that carries a website, a phone or an address names a
    position outside the store, or it returns the store at its length
    with the number of results that carry a website. *)
Theorem update_entries_outcome (ok : string -> bool) (entries : list entry)
    (results : list (nat * item)) :
  (Forall (fun kv : nat * item => reads_entry kv.2 = true -> kv.1 < length entries) results ->
   exists entries',
     update_entries ok entries results = Ok (entries', found_count results)
     /\ length entries' = length entries)
  /\ (¬ Forall (fun kv : nat * item => reads_entry kv.2 = true -> kv.1 < length entries)
               results ->
      update_entries ok entries results = Raise IndexError).
Proof.
  split.
  - intros Hall. destruct (update_entries_fold_ok ok results entries 0 Hall) as [entries' Hrun].
    exists entries'. split; [exact Hrun|].
    by apply update_entries_fold_inv in Hrun as (_ & _ & ?).
  - apply update_entries_fold_out_of_range.
Qed.

Lemma update_entries_outcome_witness :
  (exists entries',
      update_entries no_brackets [bare_entry] [(0, two_site_page)] = Ok (entries', 1)
      /\ length entries' = 1)
  /\ update_entries no_brackets [bare_entry] [(0, two_site_page); (1, acme_page)]
     = Raise IndexError.
Proof.
  split.
  - apply (proj1 (update_entries_outcome no_brackets [bare_entry] [(0, two_site_page)])).
    repeat constructor.
  - apply (proj2 (update_entries_outcome no_brackets [bare_entry]
                    [(0, two_site_page); (1, acme_page)])).
    intros [_ [Hlt _]%Forall_cons]%Forall_cons. specialize (Hlt eq_refl). simpl in Hlt. lia.
Defined.

Lemma update_entries_primary (ok : string -> bool) (entries entries' : list entry)
    (results : list (nat * item)) (n : nat) idx it w0 ws :
  NoDup (PyDict.keys results) ->
  update_entries ok entries results = Ok (entries', n) ->
  PyDict.get results idx = Some it -> websites it = w0 :: ws ->
  field_at entries' idx "website_url_primary" = Some w0
  /\ field_at entries' idx "website_domain_primary" = Some (normalize_domain_str ok w0).
Proof.
  intros Hnd Hrun Hit Hw.
  pose proof (update_entries_lookup ok _ _ _ _ Hnd Hrun) as Hlook.
  pose proof (update_entries_fold_inv ok _ _ _ _ _ Hrun) as (Hall & _ & _).
  unfold field_at. rewrite Hlook, Hit.
  assert (Hlt : idx < length entries).
  { apply get_Some_elem_of in Hit.
    apply (proj1 (Forall_forall _ _) Hall (idx, it) Hit). simpl.
    unfold reads_entry. rewrite Hw. done. }
  destruct (lookup_lt_is_Some_2 entries idx Hlt) as [e He]. rewrite He. simpl.
  by apply merge_item_primary with (ws := ws).
Qed.

(** Property X7. After update_entries, a record whose result lists websites has the
    first one as primary website and its normalised domain; an empty
    phone or address is filled from the result; fields other than the
    website fields, phone and address are never changed, and a record
    without a result is not changed at all. *)
Theorem update_entries_effect (ok : string -> bool) (entries entries' : list entry)
    (results : list (nat * item)) (n : nat) :
  NoDup (PyDict.keys results) ->
  update_entries ok entries results = Ok (entries', n) ->
  (forall idx it w0 ws,
      PyDict.get results idx = Some it -> websites it = w0 :: ws ->
      field_at entries' idx "website_url_primary" = Some w0
      /\ field_at entries' idx "website_domain_primary" = Some (normalize_domain_str ok w0))
  /\ (forall idx it (e : entry),
        PyDict.get results idx = Some it -> entries !! idx = Some e ->
        (has_value e "phone" = false -> truthy (phone it) = true ->
         field_at entries' idx "phone" = Some (phone it))
        /\ (has_value e "address" = false -> truthy (address it) = true ->
            field_at entries' idx "address" = Some (address it)))
  /\ (forall idx k,
        k ∉ website_keys ++ ["phone"; "address"] ->
        field_at entries' idx k = field_at entries idx k)
  /\ (forall idx, PyDict.get results idx = None -> entries' !! idx = entries !! idx).
Proof.
  intros Hnd Hrun.
  pose proof (update_entries_lookup ok _ _ _ _ Hnd Hrun) as Hlook.
  split_and!.
  - intros idx it w0 ws. by apply (update_entries_primary ok entries entries' results n).
  - intros idx it e Hit He. unfold field_at. rewrite Hlook, Hit, He. simpl.
    split; intros Hv Ht; apply merge_item_fills; auto.
  - intros idx k Hk. unfold field_at. rewrite Hlook.
    destruct (PyDict.get results idx) as [it|]; [|done].
    destruct (entries !! idx) as [e|]; simpl; [|done]. by apply merge_item_other.
  - intros idx Hidx. by rewrite Hlook, Hidx.
Qed.

Lemma update_entries_effect_witness :
  NoDup (PyDict.keys [(0, two_site_page)])
  /\ exists entries',
       update_entries no_brackets [bare_entry] [(0, two_site_page)] = Ok (entries', 1)
       /\ field_at entries' 0 "website_url_primary" = Some "http://acme.com"
       /\ field_at entries' 0 "website_domain_primary" = Some "acme.com"
       /\ field_at entries' 0 "phone" = Some "555-9999"
       /\ field_at entries' 0 "company_name" = Some "Bare Solar".
Proof.
  assert (Hnd : NoDup (PyDict.keys [(0, two_site_page)])) by solve_decide.
  split; [exact Hnd|]. eexists. split; [vm_compute; reflexivity|].
  match goal with
  | |- field_at ?entries' _ _ = _ /\ _ =>
      destruct (update_entries_effect no_brackets [bare_entry] entries'
                  [(0, two_site_page)] 1 Hnd)
        as (Hprimary & Hfill & Hother & _)
  end.
  { vm_compute. reflexivity. }
  destruct (Hprimary 0 two_site_page "http://acme.com" ["http://www.acme-solar.com/home"])
    as [Hurl Hdomain]; [reflexivity|reflexivity|].
  split; [exact Hurl|]. split; [exact Hdomain|]. split.
  - apply (proj1 (Hfill 0 two_site_page bare_entry eq_refl eq_refl)); reflexivity.
  - rewrite Hother; [reflexivity|]. solve_decide.
Defined.

(** Property X8. When no result lists an empty string as its first website, the
    records still missing a website after update_entries were missing
    one before, and a record whose result lists a website is no longer
    among them. *)
Theorem update_entries_shrinks_missing (ok : string -> bool) (entries entries' : list entry)
    (results : list (nat * item)) (n : nat) :
  NoDup (PyDict.keys results) ->
  (forall idx it w0 ws, (idx, it) ∈ results -> websites it = w0 :: ws -> w0 ≠ "") ->
  update_entries ok entries results = Ok (entries', n) ->
  get_missing_indices entries' ⊆ get_missing_indices entries
  /\ (forall idx it, (idx, it) ∈ results -> websites it ≠ [] ->
        idx ∉ get_missing_indices entries').
Proof.
  intros Hnd Hweb Hrun.
  pose proof (update_entries_lookup ok _ _ _ _ Hnd Hrun) as Hlook.
  split.
  - intros i (e' & He' & Hmiss)%get_missing_indices_elem.
    apply get_missing_indices_elem.
    rewrite Hlook in He'.
    destruct (PyDict.get results i) as [it|] eqn:Hit; [|by exists e'].
    destruct (entries !! i) as [e|] eqn:He; simpl in He'; [|done].
    injection He' as <-. exists e. split; [done|].
    destruct (has_value e "website_url_primary") eqn:Hv; [|done].
    rewrite merge_item_keeps_website in Hmiss; [done| |done].
    intros w0 ws. apply (Hweb i it). by apply get_Some_elem_of.
  - intros idx it Hin Hw (e' & He' & Hmiss)%get_missing_indices_elem.
    destruct (websites it) as [|w0 ws] eqn:Hws; [done|].
    destruct (update_entries_primary ok entries entries' results n idx it w0 ws)
      as [Hp _]; [done|done|by apply get_elem_of_NoDup|done|].
    unfold field_at in Hp. rewrite He' in Hp. simpl in Hp.
    unfold has_value in Hmiss. rewrite Hp in Hmiss.
    apply negb_false_iff, String.eqb_eq in Hmiss. by eapply Hweb.
Qed.

Lemma update_entries_shrinks_missing_witness :
  NoDup (PyDict.keys [(0, two_site_page)])
  /\ get_missing_indices [bare_entry] = [0]
  /\ exists entries',
       update_entries no_brackets [bare_entry] [(0, two_site_page)] = Ok (entries', 1)
       /\ get_missing_indices entries' ⊆ get_missing_indices [bare_entry]
       /\ 0 ∉ get_missing_indices entries'.
Proof.
  assert (Hnd : NoDup (PyDict.keys [(0, two_site_page)])) by solve_decide.
  split; [exact Hnd|]. split; [reflexivity|].
  eexists. split; [vm_compute; reflexivity|].
  match goal with
  | |- get_missing_indices ?entries' ⊆ _ /\ _ =>
      destruct (update_entries_shrinks_missing no_brackets [bare_entry] entries'
                  [(0, two_site_page)] 1 Hnd)
        as [Hsub Hresolved]
  end.
  { intros idx it w0 ws Hin%list_elem_of_singleton. injection Hin as -> ->.
    intros [= <- _]. done. }
  { vm_compute. reflexivity. }
  split; [exact Hsub|]. apply (Hresolved 0 two_site_page); [left|done].
Defined.

(** ** update_entries_with_results: what it changes and what it counts *)

Section UpdateWithResultsMore.
Variable ok : string -> bool.

Lemma sum_list_cons (x : nat) (l : list nat) : sum_list (x :: l) = x + sum_list l.
Proof. reflexivity. Qed.

Lemma update_with_results_fold_count results l :
  NoDup l ->
  forall entries updated,
    (foldl (update_entries_with_results_body ok results) (entries, updated) l).2
    = updated + sum_list (found_at results entries <$> l).
Proof.
  induction 1 as [|j l Hj Hnd IH]; intros entries updated; [simpl; lia|].
  change (foldl ?f ?a (?x :: ?l)) with (foldl f (f a x) l).
  rewrite update_with_results_body_step, fmap_cons, sum_list_cons.
  unfold found_at at 1.
  destruct (entries !! j) as [e|] eqn:He; rewrite IH; [|lia].
  assert (Hext : found_at results (<[j := applied ok results e]> entries) <$> l
                 = found_at results entries <$> l).
  { apply list_fmap_ext. intros _ i Hi%list_elem_of_lookup_2. unfold found_at.
    rewrite list_lookup_insert_ne; [done|]. by intros ->. }
  rewrite Hext. lia.
Qed.

Lemma submitted_for_ext (entries entries' : list entry) i :
  length entries' = length entries ->
  (forall e e' : entry, entries !! i = Some e -> entries' !! i = Some e' ->
           PyDict.get e' "detail_url" = PyDict.get e "detail_url") ->
  submitted_for entries' i = submitted_for entries i.
Proof.
  intros Hlen Hurl. unfold submitted_for.
  destruct (entries !! i) as [e|] eqn:He.
  - destruct (lookup_lt_is_Some_2 entries' i) as [e' He'].
    { rewrite Hlen. by eapply lookup_lt_Some. }
    rewrite He'. simpl. unfold has_value, PyDict.get_or.
    by rewrite (Hurl e e' eq_refl He').
  - apply lookup_ge_None_1 in He. rewrite <- Hlen in He.
    by rewrite (lookup_ge_None_2 entries' i He).
Qed.

Lemma prepare_urls_for_batch_update entries results start_idx end_idx s e :
  prepare_urls_for_batch (update_entries_with_results ok entries results start_idx end_idx).1 s e
  = prepare_urls_for_batch entries s e.
Proof.
  rewrite !prepare_urls_for_batch_spec, update_with_results_length.
  apply omap_ext_elem. intros i _. apply submitted_for_ext.
  { apply update_with_results_length. }
  intros e0 e0' He0. rewrite update_with_results_lookup, He0.
  case_decide; simpl; [|congruence]. intros [= <-].
  unfold applied. apply apply_result_other. solve_decide.
Qed.

End UpdateWithResultsMore.

(** Property X9. update_entries_with_results keeps the length of the store, leaves
    the records outside the chunk as they are, never changes a field
    other than the website fields, phone and address, leaves every
    record of the chunk with the four fields website_url_primary,
    website_domain_primary, phone and address present, and returns the
    number of records of the chunk whose result lists a website. The
    requests prepare_urls_for_batch builds are the same after as
    before. *)
Theorem update_with_results_frame (ok : string -> bool) (entries : list entry)
    (results : list (string * item)) (start_idx end_idx : nat) :
  let chunk := py_range start_idx (end_idx `min` length entries) in
  let entries' := (update_entries_with_results ok entries results start_idx end_idx).1 in
  let updated := (update_entries_with_results ok entries results start_idx end_idx).2 in
  length entries' = length entries
  /\ (forall i, i ∉ chunk -> entries' !! i = entries !! i)
  /\ (forall i k, k ∉ website_keys ++ ["phone"; "address"] ->
        field_at entries' i k = field_at entries i k)
  /\ (forall i k, i ∈ chunk ->
        k ∈ ["website_url_primary"; "website_domain_primary"; "phone"; "address"] ->
        is_Some (field_at entries' i k))
  /\ updated = sum_list (found_at results entries <$> chunk)
  /\ (forall s e, prepare_urls_for_batch entries' s e = prepare_urls_for_batch entries s e).
Proof.
  intros chunk entries' updated.
  assert (Hlen : length entries' = length entries) by apply update_with_results_length.
  assert (Hchunk : forall i, i ∈ chunk <-> start_idx ≤ i < end_idx `min` length entries).
  { intros i. unfold chunk, py_range. rewrite elem_of_seq. lia. }
  assert (Hlook : forall i, entries' !! i
            = if decide (i ∈ chunk) then applied ok results <$> entries !! i
              else entries !! i).
  { intros i. unfold entries'. rewrite update_with_results_lookup.
    repeat case_decide; try done; exfalso; rewrite Hchunk in *; tauto. }
  assert (Hother : forall i k, k ∉ website_keys ++ ["phone"; "address"] ->
            field_at entries' i k = field_at entries i k).
  { intros i k Hk. unfold field_at. rewrite Hlook. case_decide; [|done].
    destruct (entries !! i) as [e|]; simpl; [|done].
    unfold applied. by apply apply_result_other. }
  split_and!; [done| |done| | |].
  - intros i Hi. rewrite Hlook. by rewrite decide_False.
  - intros i k Hi Hk. unfold field_at. rewrite Hlook, decide_True by done.
    assert (Hlt : i < length entries) by (apply Hchunk in Hi; lia).
    destruct (lookup_lt_is_Some_2 entries i Hlt) as [e He]. rewrite He. simpl.
    unfold applied. set (r := result_for results e).
    destruct (apply_result_phone ok r e) as [Hp Ha].
    assert (Hw : is_Some (PyDict.get (apply_result ok r e) "website_url_primary")
                 /\ is_Some (PyDict.get (apply_result ok r e) "website_domain_primary")).
    { destruct (websites r) as [|w0 ws] eqn:Hws.
      - destruct (apply_result_no_website ok r e Hws) as [-> ->]. eauto.
      - rewrite !apply_result_assign.
        destruct (result_assignments_keys ok r) as [_ Hnd].
        split; eexists; apply get_assign_in; try done;
          unfold result_assignments, website_assignments; rewrite Hws;
          apply elem_of_app; left; apply elem_of_app; left; repeat constructor. }
    repeat (apply elem_of_cons in Hk as [->|Hk]; [tauto || eauto|]).
    by apply elem_of_nil in Hk.
  - unfold updated, update_entries_with_results.
    rewrite update_with_results_fold_count by apply NoDup_seq. done.
  - intros s e. apply prepare_urls_for_batch_update.
Qed.

(** ** run_apify_batch: the mapping of a succeeded job, and a job that
    never ends *)

Section ClientMore.
Context {K : Type} `{EqDecision K}.
Variable key_of : item -> option K.

Lemma collect_results_snoc items it :
  collect_results key_of (items ++ [it])
  = collect_results_body key_of (collect_results key_of items) it.
Proof. unfold collect_results. by rewrite foldl_app. Qed.

Lemma collect_results_get items k :
  PyDict.get (collect_results key_of items) k
  = last (filter (fun it => key_of it = Some k) items).
Proof.
  induction items as [|it items IH] using rev_ind; [done|].
  rewrite collect_results_snoc, filter_app, filter_cons, filter_nil.
  unfold collect_results_body.
  destruct (key_of it) as [k'|] eqn:Hk.
  - destruct (decide (k' = k)) as [->|Hne].
    + rewrite decide_True by done. rewrite get_set_eq. by rewrite last_snoc.
    + rewrite get_set_ne by done. rewrite decide_False by congruence.
      by rewrite app_nil_r.
  - rewrite decide_False by done. by rewrite app_nil_r.
Qed.

Lemma poll_status_never w n fuel :
  (forall m status, run_get w m = PollStatus status -> terminal status = false) ->
  poll_status w n fuel = None.
Proof.
  intros Hnever. revert n. induction fuel as [|fuel IH]; intros n; [done|].
  simpl. destruct (run_get w n) as [x|status] eqn:Hget; [apply IH|].
  rewrite (Hnever n status Hget). apply IH.
Qed.

End ClientMore.

(** Property X10. When the job succeeds run_apify_batch returns a mapping with one
    entry per key, holding for each key the last item returned with that
    key; items without a key are dropped. *)
Theorem run_apify_batch_succeeded (K : Type) (HK : EqDecision K) (key_of : item -> option K)
    (w : world) (n fuel : nat) actor_run dataset_id items :
  actor_call w = Ok actor_run ->
  first_terminal w n "SUCCEEDED" ->
  defaultDatasetId actor_run = Some dataset_id ->
  truthy dataset_id = true ->
  iterate_items w = Ok items ->
  n < fuel ->
  exists results,
    run_apify_batch key_of w fuel = Some results
    /\ NoDup (PyDict.keys results)
    /\ (forall k, PyDict.get results k = last (filter (fun it => key_of it = Some k) items)).
Proof.
  intros Hcall Hfirst Hds Hid Hitems Hfuel. exists (collect_results key_of items).
  split_and!.
  - unfold run_apify_batch. rewrite Hcall.
    rewrite (poll_status_first w n _ Hfirst 0 fuel) by lia. simpl.
    by rewrite Hds, Hid, Hitems.
  - apply collect_results_NoDup.
  - apply collect_results_get.
Qed.

Lemma run_apify_batch_succeeded_witness :
  first_terminal repeated_item_world 0 "SUCCEEDED"
  /\ iterate_items repeated_item_world = Ok [acme_page; acme_page_other_phone]
  /\ exists results,
       run_apify_batch key_by_url repeated_item_world 1 = Some results
       /\ PyDict.keys results = ["https://www.enfsolar.com/acme"]
       /\ PyDict.get results "https://www.enfsolar.com/acme" = Some acme_page_other_phone.
Proof.
  assert (Hfirst : first_terminal repeated_item_world 0 "SUCCEEDED").
  { split; [reflexivity|]. split; [reflexivity|]. intros m s Hm. lia. }
  split; [exact Hfirst|]. split; [reflexivity|].
  destruct (run_apify_batch_succeeded string _ key_by_url repeated_item_world 0 1
              (Run "run-3" (Some "dataset-3")) "dataset-3"
              [acme_page; acme_page_other_phone])
    as (results & Hrun & _ & Hget); [reflexivity|exact Hfirst|reflexivity|reflexivity| |lia|].
  { reflexivity. }
  exists results. split; [exact Hrun|]. split.
  - injection Hrun as <-. reflexivity.
  - rewrite Hget. reflexivity.
Defined.

(** Property X11. The polling loop has no limit of its own: when the submission went
    through and no status request ever reports a terminal status (each
    raises or reports a status that is not terminal), run_apify_batch does
    not return, however many requests it makes. *)
Theorem run_apify_batch_never_returns (K : Type) (HK : EqDecision K)
    (key_of : item -> option K) (w : world) actor_run :
  actor_call w = Ok actor_run ->
  (forall m status, run_get w m = PollStatus status -> terminal status = false) ->
  forall fuel, run_apify_batch key_of w fuel = None.
Proof.
  intros Hcall Hnever fuel. unfold run_apify_batch. rewrite Hcall.
  by rewrite poll_status_never.
Qed.

Lemma run_apify_batch_never_returns_witness :
  actor_call stuck_world = Ok (Run "run-4" (Some "dataset-4"))
  /\ run_apify_batch key_by_url stuck_world 1000 = None.
Proof.
  split; [reflexivity|].
  apply (run_apify_batch_never_returns string _ key_by_url stuck_world
           (Run "run-4" (Some "dataset-4")) eq_refl).
  intros m status [= <-]. reflexivity.
Defined.

(** ** Writing the store: a field outside the header *)

Lemma checked_row_of_ok fieldnames (e : entry) :
  PyDict.keys e ⊆ fieldnames -> checked_row_of fieldnames e = Ok (row_of fieldnames e).
Proof.
  intros He. unfold checked_row_of.
  assert (forallb (fun k => bool_decide (k ∈ fieldnames)) (PyDict.keys e) = true) as ->; [|done].
  apply forallb_forall. intros k Hk%list_elem_of_In. apply bool_decide_eq_true. by apply He.
Qed.

Lemma checked_row_of_raise fieldnames (e : entry) :
  ¬ PyDict.keys e ⊆ fieldnames -> checked_row_of fieldnames e = Raise ValueError.
Proof.
  intros He. unfold checked_row_of.
  destruct (forallb _ (PyDict.keys e)) eqn:Hall; [|done].
  exfalso. apply He. intros k Hk.
  rewrite forallb_forall in Hall. apply list_elem_of_In, Hall in Hk.
  by apply bool_decide_eq_true in Hk.
Qed.

Lemma write_rows_stops fieldnames (before : list entry) (e : entry) after :
  Forall (fun e : entry => PyDict.keys e ⊆ fieldnames) before ->
  ¬ PyDict.keys e ⊆ fieldnames ->
  write_rows fieldnames (before ++ e :: after)
  = (row_of fieldnames <$> before, Raise ValueError).
Proof.
  intros Hbefore He. induction Hbefore as [|b before Hb _ IH]; simpl.
  - by rewrite checked_row_of_raise.
  - by rewrite checked_row_of_ok, IH.
Qed.

(** Property X12. The store writer of enf_rescrape_missing.py and enf_rescrape_wecp.py
    writes every record when all their fields are in the header; the
    first record with a field outside the header raises ValueError, and
    the file is left with the header and only the records before it. *)
Theorem save_csv_with_outcome (entries : list entry) (fieldnames : list string) :
  csv_header (save_csv_with entries fieldnames).1 = fieldnames
  /\ (Forall (fun e : entry => PyDict.keys e ⊆ fieldnames) entries ->
      save_csv_with entries fieldnames
      = (Csv fieldnames (row_of fieldnames <$> entries), Ok ()))
  /\ (forall before (e : entry) after,
        entries = before ++ e :: after ->
        Forall (fun e : entry => PyDict.keys e ⊆ fieldnames) before ->
        ¬ PyDict.keys e ⊆ fieldnames ->
        save_csv_with entries fieldnames
        = (Csv fieldnames (row_of fieldnames <$> before), Raise ValueError)).
Proof.
  split_and!.
  - unfold save_csv_with. by destruct (write_rows fieldnames entries).
  - apply save_csv_with_ok.
  - intros before e after -> Hbefore He. unfold save_csv_with.
    by rewrite write_rows_stops.
Qed.

Lemma save_csv_with_outcome_witness :
  save_csv_with [acme_entry] base_cols = (Csv base_cols [row_of base_cols acme_entry], Ok ())
  /\ save_csv_with (acme_entry :: zip_fax_store ++ [acme_entry]) base_cols
     = (Csv base_cols [row_of base_cols acme_entry], Raise ValueError).
Proof.
  assert (Hacme : PyDict.keys acme_entry ⊆ base_cols).
  { intros k Hk. by repeat (apply elem_of_cons in Hk as [->|Hk]; [solve_decide|]); 
      apply elem_of_nil in Hk. }
  split.
  - apply (proj1 (proj2 (save_csv_with_outcome [acme_entry] base_cols))).
    constructor; [exact Hacme|constructor].
  - refine (proj2 (proj2 (save_csv_with_outcome (acme_entry :: zip_fax_store ++ [acme_entry])
                            base_cols))
                  [acme_entry] _ [acme_entry] eq_refl _ _).
    + constructor; [exact Hacme|constructor].
    + intros Hsub. assert (Hzip : "zip" ∈ base_cols) by (apply Hsub; solve_decide).
      revert Hzip. solve_decide.
Defined.

(** ** Reading back what save_csv wrote *)

Lemma assign_fresh (kvs : list (string * string)) (d : entry) :
  NoDup kvs.*1 -> (forall k, k ∈ kvs.*1 -> k ∉ PyDict.keys d) -> assign kvs d = d ++ kvs.
Proof.
  unfold assign. revert d. induction kvs as [|[k v] kvs IH]; intros d Hnd Hfresh.
  - by rewrite app_nil_r.
  - rewrite fmap_cons in Hnd. apply NoDup_cons in Hnd as [Hk Hnd].
    change (foldl ?f ?a (?x :: ?l)) with (foldl f (f a x) l). simpl.
    assert (Hset : PyDict.set d k v = d ++ [(k, v)]).
    { assert (Hd : k ∉ PyDict.keys d) by (apply Hfresh; left).
      clear -Hd. unfold PyDict.keys in Hd. induction d as [|[k' v'] d IH]; [done|].
      rewrite fmap_cons in Hd. apply not_elem_of_cons in Hd as [Hne Hd]. simpl.
      rewrite decide_False by done. by rewrite IH. }
    rewrite Hset, IH; [by rewrite <- app_assoc|done|].
    intros k' Hk'. unfold PyDict.keys. rewrite fmap_app, elem_of_app.
    intros [Hin|Hin%list_elem_of_singleton].
    + apply (Hfresh k'); [by right|done].
    + simpl in Hin. by subst.
Qed.

Lemma zip_fmap_self {A B} (f : A -> B) (l : list A) :
  zip l (f <$> l) = (fun k => (k, f k)) <$> l.
Proof. induction l as [|x l IH]; [done|]. rewrite !fmap_cons. simpl. by rewrite IH. Qed.

Lemma read_row_row_of fieldnames (e : entry) :
  NoDup fieldnames ->
  read_row fieldnames (row_of fieldnames e)
  = (fun k => (k, PyDict.get_or e k "")) <$> fieldnames.
Proof.
  intros Hnd. unfold read_row, row_of.
  rewrite zip_fmap_self.
  change (foldl ?f [] ?l) with (assign l []).
  rewrite assign_fresh; [done| |].
  - rewrite <- list_fmap_compose. simpl. by rewrite list_fmap_id.
  - intros k _. apply not_elem_of_nil.
Qed.

Lemma get_fmap_pair (f : string -> string) (l : list string) k :
  PyDict.get ((fun k => (k, f k)) <$> l) k = if decide (k ∈ l) then Some (f k) else None.
Proof.
  induction l as [|k' l IH]; [done|]. rewrite fmap_cons. simpl.
  destruct (decide (k = k')) as [->|Hne].
  - by rewrite decide_True by left.
  - rewrite IH. destruct (decide (k ∈ l)) as [Hin|Hin].
    + by rewrite decide_True by (by right).
    + rewrite decide_False; [done|]. by intros [?|?]%elem_of_cons.
Qed.

Lemma keys_in_fieldnames (set_iter : gset string -> list string) (entries : list entry)
    (e : entry) k :
  (forall s, set_iter s ≡ₚ elements s) ->
  e ∈ entries -> k ∈ PyDict.keys e -> k ∈ get_fieldnames set_iter entries.
Proof.
  intros Hiter He Hk. rewrite get_fieldnames_spec by done.
  apply elem_of_app. destruct (decide (k ∈ base_cols)) as [|Hn]; [by left|right].
  apply list_elem_of_filter. split; [done|].
  rewrite Hiter, elem_of_elements. apply existing_cols_of_spec. eauto.
Qed.

Lemma NoDup_get_fieldnames (set_iter : gset string -> list string) (entries : list entry) :
  (forall s, set_iter s ≡ₚ elements s) -> NoDup (get_fieldnames set_iter entries).
Proof.
  intros Hiter. rewrite get_fieldnames_spec by done.
  apply NoDup_app. split_and!.
  - solve_decide.
  - intros c Hc [Hn _]%list_elem_of_filter. done.
  - apply NoDup_filter. rewrite Hiter. apply NoDup_elements.
Qed.

(** Property X13. save_csv of enf_detail_scraper.py writes nothing for an empty
    store; otherwise it writes one row per record, and reading a row
    back under the header gives a record with exactly the header's fields
    that holds every value the record had and [""] for the fields it
    lacked: no field of any record is lost. *)
Theorem save_csv_round_trip (set_iter : gset string -> list string) (entries : list entry) :
  (forall s, set_iter s ≡ₚ elements s) ->
  save_csv set_iter [] = None
  /\ (entries ≠ [] ->
      exists file,
        save_csv set_iter entries = Some file
        /\ NoDup (csv_header file)
        /\ length (csv_rows file) = length entries
        /\ (forall i (e : entry), entries !! i = Some e ->
              exists cells,
                csv_rows file !! i = Some cells
                /\ PyDict.keys (read_row (csv_header file) cells) = csv_header file
                /\ (forall k v, PyDict.get e k = Some v ->
                      PyDict.get (read_row (csv_header file) cells) k = Some v)
                /\ (forall k, k ∈ csv_header file -> PyDict.get e k = None ->
                      PyDict.get (read_row (csv_header file) cells) k = Some ""))).
Proof.
  intros Hiter. split; [done|]. intros Hne.
  set (fieldnames := get_fieldnames set_iter entries).
  assert (Hnd : NoDup fieldnames) by by apply NoDup_get_fieldnames.
  exists (Csv fieldnames (row_of fieldnames <$> entries)). split_and!.
  - unfold save_csv. by destruct entries.
  - done.
  - simpl. by rewrite length_fmap.
  - intros i e He. exists (row_of fieldnames e). simpl.
    rewrite list_lookup_fmap, He. split; [done|].
    rewrite read_row_row_of by done. split_and!.
    + unfold PyDict.keys. rewrite <- list_fmap_compose. simpl. apply list_fmap_id.
    + intros k v Hk. rewrite (get_fmap_pair (fun k => PyDict.get_or e k "")).
      rewrite decide_True.
      * unfold PyDict.get_or. by rewrite Hk.
      * apply (keys_in_fieldnames set_iter entries e); [done| |].
        -- by eapply list_elem_of_lookup_2.
        -- destruct (decide (k ∈ PyDict.keys e)) as [|Hn]; [done|].
           apply get_None_keys in Hn. congruence.
    + intros k Hk Hnone. rewrite (get_fmap_pair (fun k => PyDict.get_or e k "")).
      rewrite decide_True by done. unfold PyDict.get_or. by rewrite Hnone.
Qed.

Lemma save_csv_round_trip_witness :
  exists file,
    save_csv alphabetical_iter zip_fax_store = Some file
    /\ csv_header file = base_cols ++ ["fax"; "zip"]
    /\ exists cells,
         csv_rows file !! 0 = Some cells
         /\ PyDict.get (read_row (csv_header file) cells) "zip" = Some "94105"
         /\ PyDict.get (read_row (csv_header file) cells) "phone" = Some "".
Proof.
  destruct (proj2 (save_csv_round_trip alphabetical_iter zip_fax_store
                     alphabetical_iter_elements))
    as (file & Hsave & _ & _ & Hrows); [done|].
  exists file. split; [exact Hsave|].
  assert (Hheader : csv_header file = base_cols ++ ["fax"; "zip"]).
  { assert (Hfile : save_csv alphabetical_iter zip_fax_store
                    = Some (Csv (base_cols ++ ["fax"; "zip"])
                                (row_of (base_cols ++ ["fax"; "zip"]) <$> zip_fax_store))).
    { vm_compute. reflexivity. }
    rewrite Hfile in Hsave. by injection Hsave as <-. }
  split; [exact Hheader|].
  destruct (Hrows 0 [("company_name", "Acme Solar"); ("zip", "94105"); ("fax", "555-0000")]
              eq_refl)
    as (cells & Hcells & _ & Hkept & Hblank).
  exists cells. split; [exact Hcells|]. split.
  - by apply Hkept.
  - apply Hblank; [|reflexivity]. rewrite Hheader. solve_decide.
Defined.

(** ** The batch loop of enf_detail_scraper.py as a whole *)

Section DetailLoop.
Variable ok : string -> bool.
Variable set_iter : gset string -> list string.


End DetailLoop.



(** ** The batch loop of enf_rescrape_missing.py and the header *)

Section RescrapeLoop.
Variable ok : string -> bool.

Lemma keys_set_subseteq (e : entry) k v : PyDict.keys (PyDict.set e k v) ⊆ PyDict.keys e ++ [k].
Proof.
  rewrite keys_set. destruct (PyDict.get e k); intros x Hx; [|done].
  apply elem_of_app. by left.
Qed.






Lemma write_rows_raise fieldnames (entries : list entry) :
  ¬ Forall (fun e : entry => PyDict.keys e ⊆ fieldnames) entries ->
  (write_rows fieldnames entries).2 = Raise ValueError.
Proof.
  induction entries as [|e l IH]; intros Hnot.
  - exfalso. apply Hnot. constructor.
  - cbn [write_rows].
    destruct (decide (PyDict.keys e ⊆ fieldnames)) as [He|He].
    + rewrite checked_row_of_ok by done.
      destruct (write_rows fieldnames l) as [rows r]. simpl in *.
      apply IH. intros Hl. apply Hnot. by constructor.
    + by rewrite checked_row_of_raise.
Qed.

Lemma rescrape_batch_too_small BATCH_SIZE missing fieldnames worlds fuel st batch_num
    u us results entries' found :
  prepare_urls (st_entries st) (batch_of BATCH_SIZE missing batch_num) = Ok (u :: us) ->
  run_apify_batch key_by_index (worlds batch_num) fuel = Some results ->
  update_entries ok (st_entries st) results = Ok (entries', found) ->
  ¬ Forall (fun e : entry => PyDict.keys e ⊆ fieldnames) entries' ->
  rescrape_batch ok BATCH_SIZE missing fieldnames worlds fuel st batch_num
  = Some (Raise ValueError).
Proof.
  intros Hurls Hrun Hupd Hnot. unfold rescrape_batch. rewrite Hurls, Hrun. simpl.
  rewrite Hupd. simpl.
  pose proof (write_rows_raise fieldnames entries' Hnot) as Hsave.
  unfold save_csv_with. destruct (write_rows fieldnames entries') as [rows r].
  simpl in Hsave. by rewrite Hsave.
Qed.

End RescrapeLoop.

(** Property X15. One iteration of the batch loop of
    enf_rescrape_missing.py that submits a job and merges its results:
    when every field of every merged record is in the header read from
    the file, the store is rewritten in full and the loop goes on; when
    the merge has left a record with a field outside that header, the
    rewriting raises ValueError, which nothing catches. *)
Theorem rescrape_batch_header (ok : string -> bool) (BATCH_SIZE : nat) (missing : list nat)
    (fieldnames : list string) (worlds : nat -> world) (fuel : nat) (st : run_state)
    (batch_num : nat) u us results entries' found :
  prepare_urls (st_entries st) (batch_of BATCH_SIZE missing batch_num) = Ok (u :: us) ->
  run_apify_batch key_by_index (worlds batch_num) fuel = Some results ->
  update_entries ok (st_entries st) results = Ok (entries', found) ->
  (Forall (fun e : entry => PyDict.keys e ⊆ fieldnames) entries' ->
   rescrape_batch ok BATCH_SIZE missing fieldnames worlds fuel st batch_num
   = Some (Ok (RunState entries' (st_total st + found)
                        (Some (Csv fieldnames (row_of fieldnames <$> entries')))
                        (st_submitted st ++ [batch_num]))))
  /\ (¬ Forall (fun e : entry => PyDict.keys e ⊆ fieldnames) entries' ->
      rescrape_batch ok BATCH_SIZE missing fieldnames worlds fuel st batch_num
      = Some (Raise ValueError)).
Proof.
  intros Hurls Hrun Hupd. split.
  - intros Hkeys. unfold rescrape_batch. rewrite Hurls, Hrun. simpl.
    rewrite Hupd. simpl. by rewrite save_csv_with_ok.
  - by apply rescrape_batch_too_small with (u := u) (us := us) (results := results)
                                           (entries' := entries') (found := found).
Qed.

Lemma rescrape_batch_header_witness :
  (exists entries',
      update_entries no_brackets [bare_entry] [(0, two_site_page)] = Ok (entries', 1)
      /\ field_at entries' 0 "website_count" = Some "2")
  /\ rescrape_batch no_brackets 100 [0] ["company_name"; "detail_url"; "phone"]
                    (fun _ => two_site_world) 1 (RunState [bare_entry] 0 None []) 1
     = Some (Raise ValueError).
Proof.
  split; [eexists; split; vm_compute; reflexivity|].
  refine (proj2 (rescrape_batch_header no_brackets 100 [0] ["company_name"; "detail_url"; "phone"]
                   (fun _ => two_site_world) 1 (RunState [bare_entry] 0 None []) 1
                   _ _ [(0, two_site_page)] _ 1 _ _ _) _).
  - vm_compute. reflexivity.
  - reflexivity.
  - vm_compute. reflexivity.
  - intros [Hsub _]%Forall_cons.
    assert (Hin : "website_url_primary" ∈ ["company_name"; "detail_url"; "phone"]).
    { apply Hsub. solve_decide. }
    revert Hin. solve_decide.
Defined.



(** ** Domain Normalizer: the characters of a domain *)

Lemma contains_char_take c n s :
  PyStr.contains_char c (PyStr.take n s) = true ->
  exists w, PyStr.find c s = Some w /\ w < n.
Proof.
  revert n. induction s as [|d r IH]; intros [|n]; simpl; try done.
  destruct (Ascii.eqb c d); simpl.
  - intros _. exists 0. split; [done|lia].
  - intros (w & -> & Hw)%IH. exists (S w). split; [done|lia].
Qed.

Lemma contains_char_drop c n s :
  PyStr.contains_char c (PyStr.drop n s) = true -> PyStr.contains_char c s = true.
Proof.
  revert n. induction s as [|d r IH]; intros [|n]; simpl; try done.
  intros H%IH. rewrite H. apply orb_true_r.
Qed.

Lemma contains_char_split_head c d s :
  PyStr.contains_char c (PyStr.split_head d s) = true -> PyStr.contains_char c s = true.
Proof.
  induction s as [|x r IH]; simpl; [done|].
  destruct (Ascii.eqb d x); simpl; [done|].
  destruct (Ascii.eqb c x); simpl; [done|]. exact IH.
Qed.

Lemma contains_char_split_head_self d s :
  PyStr.contains_char d (PyStr.split_head d s) = false.
Proof.
  induction s as [|x r IH]; simpl; [done|].
  destruct (Ascii.eqb d x) eqn:Hd; simpl; [done|]. by rewrite Hd.
Qed.

Lemma lower_char_separator x c :
  c ∈ ["/"; "?"; "#"; ":"]%char ->
  Ascii.eqb c (PyStr.lower_char x) = Ascii.eqb c x.
Proof.
  intros Hc. repeat (apply elem_of_cons in Hc as [->|Hc]);
    [..|by apply elem_of_nil in Hc];
    destruct x as [[] [] [] [] [] [] [] []]; vm_compute; reflexivity.
Qed.

Lemma contains_char_lower c s :
  c ∈ ["/"; "?"; "#"; ":"]%char ->
  PyStr.contains_char c (PyStr.lower s) = PyStr.contains_char c s.
Proof.
  intros Hc. induction s as [|x r IH]; simpl; [done|].
  by rewrite lower_char_separator, IH.
Qed.

Lemma lower_char_idemp x : PyStr.lower_char (PyStr.lower_char x) = PyStr.lower_char x.
Proof. destruct x as [[] [] [] [] [] [] [] []]; vm_compute; reflexivity. Qed.

Lemma lower_idemp s : PyStr.lower (PyStr.lower s) = PyStr.lower s.
Proof. induction s as [|x r IH]; simpl; [done|]. by rewrite lower_char_idemp, IH. Qed.

Lemma lower_drop n s : PyStr.lower (PyStr.drop n s) = PyStr.drop n (PyStr.lower s).
Proof. revert n. induction s as [|x r IH]; intros [|n]; simpl; try done. Qed.

Lemma lower_split_head_fixed c s :
  PyStr.lower s = s -> PyStr.lower (PyStr.split_head c s) = PyStr.split_head c s.
Proof.
  induction s as [|x r IH]; simpl; [done|]. intros [= Hx Hr].
  destruct (Ascii.eqb c x); simpl; [done|]. by rewrite Hx, IH.
Qed.

Lemma separators_with_colon c :
  c ∈ ["/"; "?"; "#"]%char -> c ∈ ["/"; "?"; "#"; ":"]%char.
Proof.
  intros Hc. change (c ∈ ["/"; "?"; "#"]%char ++ [":"%char]). apply elem_of_app. by left.
Qed.

Lemma separators_without_colon c :
  c ∈ ["/"; "?"; "#"; ":"]%char -> c ≠ ":"%char -> c ∈ ["/"; "?"; "#"]%char.
Proof.
  change (c ∈ ["/"; "?"; "#"]%char ++ [":"%char] -> c ≠ ":"%char -> c ∈ ["/"; "?"; "#"]%char).
  by intros [Hc|Hc%list_elem_of_singleton]%elem_of_app.
Qed.

Section Netloc.
Variable ok : string -> bool.

Lemma delim_le url start (cs : list ascii) d :
  let delim :=
    foldl (fun delim c =>
             match PyStr.find_from c start url with
             | Some wdelim => Nat.min delim wdelim
             | None => delim
             end) d cs in
  delim ≤ d
  /\ forall c w, c ∈ cs -> PyStr.find_from c start url = Some w -> delim ≤ w.
Proof.
  revert d. induction cs as [|c cs IH]; intros d; simpl.
  - split; [done|]. by intros c w ?%elem_of_nil.
  - destruct (IH (match PyStr.find_from c start url with
                  | Some wdelim => d `min` wdelim
                  | None => d
                  end)) as [Hle Hall].
    split.
    + etrans; [exact Hle|]. destruct (PyStr.find_from c start url); lia.
    + intros c' w [->|Hc']%elem_of_cons Hw; [|by eapply Hall].
      etrans; [exact Hle|]. rewrite Hw. lia.
Qed.

Lemma splitnetloc_separators url start c :
  c ∈ ["/"; "?"; "#"]%char ->
  PyStr.contains_char c (splitnetloc url start).1 = false.
Proof.
  intros Hc. unfold splitnetloc. cbn [fst].
  destruct (delim_le url start ["/"; "?"; "#"]%char (String.length url)) as [_ Hdelim].
  cbv zeta in Hdelim. set (delim := foldl _ _ _) in *.
  destruct (PyStr.contains_char c (PyStr.slice start delim url)) eqn:Hin; [|done].
  unfold PyStr.slice in Hin. apply contains_char_take in Hin as (w & Hw & Hlt).
  specialize (Hdelim c (start + w) Hc). unfold PyStr.find_from in Hdelim.
  rewrite Hw in Hdelim. specialize (Hdelim eq_refl). lia.
Qed.

Lemma urlsplit_netloc_separators url netloc c :
  urlsplit_netloc ok url = Ok netloc ->
  c ∈ ["/"; "?"; "#"]%char ->
  PyStr.contains_char c netloc = false.
Proof.
  unfold urlsplit_netloc. intros Hnet Hc.
  destruct (String.eqb _ "//"); [|by injection Hnet as <-].
  set (u := strip_scheme _) in *.
  assert (Hsplit : PyStr.contains_char c (splitnetloc u 2).1 = false)
    by by apply splitnetloc_separators.
  destruct (_ || _); [done|].
  destruct (_ && _); [|by injection Hnet as <-].
  destruct (ok _); [|done]. by injection Hnet as <-.
Qed.

End Netloc.

(** Property X17. The domain normalize_domain returns contains none of
    the characters / ? # : and is left unchanged by lower(): no path,
    query, fragment or port is ever stored as part of a domain. The
    domain extract_domain of enf_rescrape_wecp.py returns contains none
    of / ? #. *)
Theorem domains_have_no_separators (ok : string -> bool) (url : string) :
  (forall c, c ∈ ["/"; "?"; "#"; ":"]%char ->
     PyStr.contains_char c (normalize_domain_str ok url) = false)
  /\ PyStr.lower (normalize_domain_str ok url) = normalize_domain_str ok url
  /\ (forall c, c ∈ ["/"; "?"; "#"]%char ->
        PyStr.contains_char c (extract_domain ok url) = false).
Proof.
  assert (Hnorm : normalize_domain_str ok url = ""
            \/ exists u netloc,
                 urlsplit_netloc ok u = Ok netloc
                 /\ normalize_domain_str ok url
                    = let domain := PyStr.lower netloc in
                      let domain :=
                        if PyStr.startswith "www." domain then PyStr.drop 4 domain
                        else domain in
                      if PyStr.contains_char ":" domain then PyStr.split_head ":" domain
                      else domain).
  { unfold normalize_domain_str, normalize_domain.
    destruct (_ || _); [by left|].
    set (u := if _ : bool then _ else _).
    destruct (urlsplit_netloc ok u) as [netloc|x] eqn:Hnet; [|by left].
    right. by exists u, netloc. }
  split_and!.
  - intros c Hc. destruct Hnorm as [->|(u & netloc & Hnet & ->)]; [done|]. cbv zeta.
    set (domain := if PyStr.startswith "www." _ then _ else _).
    assert (Hdomain : forall c', c' ∈ ["/"; "?"; "#"]%char ->
              PyStr.contains_char c' domain = false).
    { intros c' Hc'.
      assert (Hlower : PyStr.contains_char c' (PyStr.lower netloc) = false).
      { rewrite contains_char_lower by by apply separators_with_colon.
        by eapply urlsplit_netloc_separators. }
      unfold domain. destruct (PyStr.startswith _ _); [|done].
      destruct (PyStr.contains_char c' (PyStr.drop 4 _)) eqn:Hd; [|done].
      apply contains_char_drop in Hd. congruence. }
    destruct (PyStr.contains_char ":" domain) eqn:Hcolon.
    + destruct (decide (c = ":"%char)) as [->|Hne]; [apply contains_char_split_head_self|].
      destruct (PyStr.contains_char c (PyStr.split_head ":" domain)) eqn:Hs; [|done].
      apply contains_char_split_head in Hs. rewrite Hdomain in Hs; [done|].
      by apply separators_without_colon.
    + destruct (decide (c = ":"%char)) as [->|Hne]; [done|].
      by apply Hdomain, separators_without_colon.
  - destruct Hnorm as [->|(u & netloc & Hnet & ->)]; [done|]. cbv zeta.
    set (domain := if PyStr.startswith "www." _ then _ else _).
    assert (Hdomain : PyStr.lower domain = domain).
    { unfold domain. destruct (PyStr.startswith _ _).
      - by rewrite lower_drop, lower_idemp.
      - apply lower_idemp. }
    destruct (PyStr.contains_char ":" domain); [|done].
    by apply lower_split_head_fixed.
  - intros c Hc. unfold extract_domain. destruct (truthy url); [|done].
    destruct (urlsplit_netloc ok url) as [netloc|x] eqn:Hnet; [|done].
    pose proof (urlsplit_netloc_separators ok url netloc c Hnet Hc) as Hn.
    destruct (PyStr.startswith _ _); [|done].
    destruct (PyStr.contains_char c (PyStr.drop 4 netloc)) eqn:Hd; [|done].
    apply contains_char_drop in Hd. congruence.
Qed.

(** ** Stripping *)

Lemma all_chars_rev_app p s1 s2 :
  PyStr.all_chars p (String.rev_app s1 s2) = PyStr.all_chars p s1 && PyStr.all_chars p s2.
Proof.
  revert s2. induction s1 as [|c s1 IH]; intros s2; simpl; [done|].
  rewrite IH. simpl. destruct (p c), (PyStr.all_chars p s1); done.
Qed.

Lemma all_chars_rev p s : PyStr.all_chars p (String.rev s) = PyStr.all_chars p s.
Proof. unfold String.rev. rewrite all_chars_rev_app. simpl. apply andb_true_r. Qed.

Lemma rev_app_empty s1 s2 : String.rev_app s1 s2 = "" -> s1 = "" /\ s2 = "".
Proof.
  revert s2. induction s1 as [|c s1 IH]; intros s2; simpl; [done|].
  intros H. by apply IH in H as [_ ?].
Qed.

Lemma lstrip_by_head p s :
  PyStr.lstrip_by p s = "" \/ PyStr.all_chars p (PyStr.lstrip_by p s) = false.
Proof.
  induction s as [|c s IH]; simpl; [by left|].
  destruct (p c) eqn:Hc; [done|]. right. simpl. by rewrite Hc.
Qed.

Lemma lstrip_by_empty p s : PyStr.lstrip_by p s = "" -> PyStr.all_chars p s = true.
Proof.
  induction s as [|c s IH]; simpl; [done|].
  destruct (p c); [done|]. discriminate.
Qed.

Lemma strip_empty s : PyStr.strip s = "" <-> PyStr.all_chars PyStr.isspace s = true.
Proof.
  split; [|apply strip_whitespace].
  unfold PyStr.strip, PyStr.rstrip_by, String.rev at 1.
  intros [H _]%rev_app_empty. apply lstrip_by_empty in H.
  rewrite all_chars_rev in H.
  destruct (lstrip_by_head PyStr.isspace s) as [Hs|Hs]; [|congruence].
  by apply lstrip_by_empty.
Qed.

Lemma strip_all_chars s :
  PyStr.strip s ≠ "" -> PyStr.all_chars PyStr.isspace (PyStr.strip s) = false.
Proof.
  unfold PyStr.strip, PyStr.rstrip_by. intros Hne. rewrite all_chars_rev.
  destruct (lstrip_by_head PyStr.isspace (String.rev (PyStr.lstrip_by PyStr.isspace s)))
    as [H|H]; [|done].
  rewrite H in Hne. done.
Qed.

(** A stripped string that is not empty is not blank. *)
Lemma truthy_strip_strip s :
  truthy (PyStr.strip s) = true -> truthy (PyStr.strip (PyStr.strip s)) = true.
Proof.
  unfold truthy. rewrite !negb_true_iff, !String.eqb_neq. intros Hne Hs.
  apply strip_empty in Hs. by rewrite strip_all_chars in Hs.
Qed.

(** ** The update loop of enf_rescrape_wecp.py *)

Lemma still_missing_fold rows indices :
  Forall (fun i => i < length rows) indices ->
  forall n,
    foldl (still_missing_body rows) (Ok n) indices
    = Ok (n + length (filter (fun i => blank_at rows i = true) indices)).
Proof.
  induction 1 as [|i l Hi _ IH]; intros n; [simpl; f_equal; lia|].
  change (foldl ?f ?a (?x :: ?l)) with (foldl f (f a x) l).
  destruct (lookup_lt_is_Some_2 rows i Hi) as [e He].
  assert (Hstep : still_missing_body rows (Ok n) i
                  = Ok (n + if blank_at rows i then 1 else 0)).
  { unfold still_missing_body, blank_at. simpl. rewrite He.
    destruct (truthy _); simpl; f_equal; lia. }
  rewrite Hstep, IH, filter_cons. f_equal.
  destruct (blank_at rows i).
  - rewrite decide_True by done. simpl. lia.
  - rewrite decide_False by done. lia.
Qed.

Lemma filter_complement {A} (P Q : A -> Prop) `{!forall a, Decision (P a)}
    `{!forall a, Decision (Q a)} (l : list A) :
  (forall a, a ∈ l -> (P a <-> ¬ Q a)) ->
  length (filter Q l) + length (filter P l) = length l.
Proof.
  induction l as [|a l IH]; intros HPQ; [done|].
  rewrite !filter_cons. specialize (IH (fun b Hb => HPQ b (list_elem_of_further _ _ _ Hb))).
  pose proof (HPQ a (list_elem_of_here _ _)) as Ha.
  destruct (decide (Q a)), (decide (P a)); simpl; try lia; tauto.
Qed.

Section WecpFacts.
Variable ok : string -> bool.

Lemma wecp_update_body_in_range m rows n tgt (e : entry) :
  rows !! tgt_index tgt = Some e ->
  wecp_update_body ok m (rows, Ok n) tgt
  = (<[tgt_index tgt := wecp_resolved ok m tgt e]> rows,
     Ok (n + if wecp_found m tgt then 1 else 0)).
Proof.
  intros He. unfold wecp_update_body, wecp_resolved, wecp_found.
  destruct (PyDict.get m (tgt_url tgt)) as [r|].
  - destruct (truthy (PyStr.strip (wecp_website r))).
    + by rewrite He.
    + rewrite list_insert_id by done. do 2 f_equal. lia.
  - rewrite list_insert_id by done. do 2 f_equal. lia.
Qed.

Lemma wecp_update_fold m batch :
  NoDup (tgt_index <$> batch) ->
  forall rows n,
    Forall (fun t => tgt_index t < length rows) batch ->
    exists rows',
      foldl (wecp_update_body ok m) (rows, Ok n) batch
      = (rows', Ok (n + length (filter (fun t => wecp_found m t = true) batch)))
      /\ length rows' = length rows
      /\ (forall i, i ∉ tgt_index <$> batch -> rows' !! i = rows !! i)
      /\ (forall t, t ∈ batch ->
            rows' !! tgt_index t = wecp_resolved ok m t <$> rows !! tgt_index t).
Proof.
  induction batch as [|t batch IH]; intros Hnd rows n Hall.
  - exists rows. simpl. split_and!; [do 2 f_equal; lia|done|done|].
    by intros t ?%elem_of_nil.
  - rewrite fmap_cons in Hnd. apply NoDup_cons in Hnd as [Ht Hnd].
    apply Forall_cons in Hall as [Hlt Hall].
    destruct (lookup_lt_is_Some_2 rows (tgt_index t) Hlt) as [e He].
    change (foldl ?f ?a (?x :: ?l)) with (foldl f (f a x) l).
    rewrite (wecp_update_body_in_range m rows n t e He).
    destruct (IH Hnd (<[tgt_index t := wecp_resolved ok m t e]> rows)
                 (n + if wecp_found m t then 1 else 0))
      as (rows' & Hrun & Hlen & Hframe & Htargets).
    { by rewrite length_insert. }
    exists rows'. split_and!.
    + rewrite Hrun, filter_cons. do 2 f_equal.
      destruct (wecp_found m t).
      * rewrite decide_True by done. simpl. lia.
      * rewrite decide_False by done. lia.
    + by rewrite Hlen, length_insert.
    + intros i Hi. rewrite fmap_cons in Hi. apply not_elem_of_cons in Hi as [Hne Hi].
      rewrite Hframe by done. by rewrite list_lookup_insert_ne.
    + intros t' [->|Ht']%elem_of_cons.
      * rewrite Hframe by done.
        rewrite list_lookup_insert_eq by done. by rewrite He.
      * rewrite Htargets by done. rewrite list_lookup_insert_ne; [done|].
        intros Heq. apply Ht. rewrite Heq. apply list_elem_of_fmap. by exists t'.
Qed.

Lemma get_wecp_resolved_other m t (e : entry) k :
  k ≠ "website_url_primary" -> k ≠ "website_domain_primary" ->
  PyDict.get (wecp_resolved ok m t e) k = PyDict.get e k.
Proof.
  intros H1 H2. unfold wecp_resolved.
  destruct (PyDict.get m (tgt_url t)) as [r|]; [|done].
  destruct (truthy _); [|done]. by rewrite !get_set_ne by done.
Qed.

Lemma blank_wecp_resolved m t (e : entry) :
  truthy (PyStr.strip (PyDict.get_or e "website_url_primary" "")) = false ->
  truthy (PyStr.strip (PyDict.get_or (wecp_resolved ok m t e) "website_url_primary" ""))
  = wecp_found m t.
Proof.
  intros He. unfold wecp_resolved, wecp_found.
  destruct (PyDict.get m (tgt_url t)) as [r|]; [|done].
  destruct (truthy (PyStr.strip (wecp_website r))) eqn:Hw; [|done].
  unfold PyDict.get_or. rewrite get_set_ne by done. rewrite get_set_eq.
  by apply truthy_strip_strip.
Qed.

End WecpFacts.

Lemma length_filter_all {A} (P : A -> Prop) `{!forall a, Decision (P a)} (l : list A) :
  Forall P l -> length (filter P l) = length l.
Proof.
  induction 1 as [|a l Ha _ IH]; [done|].
  rewrite filter_cons, decide_True by done. simpl. by rewrite IH.
Qed.

Lemma length_filter_ext_elem {A} (P Q : A -> Prop) `{!forall a, Decision (P a)}
    `{!forall a, Decision (Q a)} (l : list A) :
  (forall a, a ∈ l -> (P a <-> Q a)) -> length (filter P l) = length (filter Q l).
Proof.
  induction l as [|a l IH]; intros HPQ; [done|].
  rewrite !filter_cons. specialize (IH (fun b Hb => HPQ b (list_elem_of_further _ _ _ Hb))).
  pose proof (HPQ a (list_elem_of_here _ _)) as Ha.
  destruct (decide (P a)), (decide (Q a)); simpl; try lia; tauto.
Qed.

Section WecpLoopFacts.
Variable ok : string -> bool.

Lemma wecp_accounts_unchanged (st st' : run_state) ts :
  st_entries st' = st_entries st -> st_total st' = st_total st ->
  Forall (fun t => blank_at (st_entries st) (tgt_index t) = true) ts ->
  wecp_accounts st st' ts.
Proof.
  intros He Ht Hblank. unfold wecp_accounts. rewrite He, Ht. split_and!; try done.
  rewrite length_filter_fmap, length_filter_all; done.
Qed.

Lemma wecp_batch_account fieldnames worlds st k batch :
  NoDup (tgt_index <$> batch) ->
  Forall (fun t => blank_at (st_entries st) (tgt_index t) = true) batch ->
  wecp_accounts st (wecp_batch ok fieldnames worlds st k batch) batch.
Proof.
  intros Hnd Hblank. unfold wecp_batch.
  destruct (wecp_call (worlds k)); [|by apply wecp_accounts_unchanged].
  destruct (wecp_items (worlds k)) as [results|]; [|by apply wecp_accounts_unchanged].
  destruct (url_to_result results) as [m|]; [|by apply wecp_accounts_unchanged].
  assert (Hrange : Forall (fun t => tgt_index t < length (st_entries st)) batch).
  { eapply Forall_impl; [exact Hblank|]. simpl. intros t Ht. unfold blank_at in Ht.
    destruct (st_entries st !! tgt_index t) eqn:He; [|done]. by eapply lookup_lt_Some. }
  unfold wecp_update.
  destruct (wecp_update_fold ok m batch Hnd (st_entries st) 0 Hrange)
    as (rows' & Hrun & Hlen & Hframe & Htargets).
  rewrite Hrun. destruct (save_csv_with rows' fieldnames) as [file written].
  unfold wecp_accounts. cbn [st_entries st_total]. split_and!.
  - done.
  - done.
  - intros i key H1 H2. unfold field_at.
    destruct (decide (i ∈ tgt_index <$> batch)) as [Hi|Hi]; [|by rewrite Hframe].
    apply list_elem_of_fmap in Hi as (t & -> & Ht). rewrite Htargets by done.
    destruct (st_entries st !! tgt_index t) as [e|]; simpl; [|done].
    by apply get_wecp_resolved_other.
  - rewrite length_filter_fmap. simpl.
    rewrite <- Nat.add_assoc. f_equal. apply filter_complement.
    intros t Ht. unfold blank_at. rewrite Htargets by done.
    pose proof (proj1 (Forall_forall _ _) Hblank t Ht) as Hb. simpl in Hb.
    unfold blank_at in Hb. destruct (st_entries st !! tgt_index t) as [e|]; [|done].
    simpl. apply negb_true_iff in Hb. rewrite (blank_wecp_resolved ok m t e Hb).
    destruct (wecp_found m t); simpl; split; congruence.
Qed.

Lemma wecp_fold_account fieldnames worlds (batch_at : nat -> list target) ks :
  forall st,
    NoDup (tgt_index <$> concat (batch_at <$> ks)) ->
    Forall (fun t => blank_at (st_entries st) (tgt_index t) = true)
           (concat (batch_at <$> ks)) ->
    wecp_accounts st
      (foldl (fun st k => wecp_batch ok fieldnames worlds st k (batch_at k)) st ks)
      (concat (batch_at <$> ks)).
Proof.
  induction ks as [|k ks IH]; intros st Hnd Hblank.
  - by apply wecp_accounts_unchanged.
  - rewrite fmap_cons in *. cbn [concat] in *.
    rewrite fmap_app in Hnd. apply NoDup_app in Hnd as (Hnd1 & Hdisj & Hnd2).
    apply Forall_app in Hblank as [Hblank1 Hblank2].
    change (foldl ?f ?a (?x :: ?l)) with (foldl f (f a x) l).
    destruct (wecp_batch_account fieldnames worlds st k (batch_at k) Hnd1 Hblank1)
      as (Hlen1 & Hframe1 & Hfield1 & Hcount1).
    set (st1 := wecp_batch ok fieldnames worlds st k (batch_at k)) in *.
    assert (Hblank2' : Forall (fun t => blank_at (st_entries st1) (tgt_index t) = true)
                              (concat (batch_at <$> ks))).
    { apply Forall_forall. intros t Ht.
      pose proof (proj1 (Forall_forall _ _) Hblank2 t Ht) as Hb. simpl in Hb.
      unfold blank_at in *. rewrite Hframe1; [done|].
      intros Hin. apply (Hdisj _ Hin). apply list_elem_of_fmap. by exists t. }
    destruct (IH st1 Hnd2 Hblank2') as (Hlen & Hframe & Hfield & Hcount).
    set (st' := foldl _ st1 ks) in *.
    unfold wecp_accounts. split_and!.
    + by rewrite Hlen.
    + intros i Hi. rewrite fmap_app in Hi. apply not_elem_of_app in Hi as [Hi1 Hi2].
      by rewrite Hframe, Hframe1.
    + intros i key H1 H2. by rewrite Hfield, Hfield1.
    + rewrite fmap_app, filter_app, !length_app.
      assert (Hsame : length (filter (fun i => blank_at (st_entries st') i = true)
                                     (tgt_index <$> batch_at k))
                      = length (filter (fun i => blank_at (st_entries st1) i = true)
                                       (tgt_index <$> batch_at k))).
      { apply length_filter_ext_elem. intros i Hi. unfold blank_at.
        rewrite Hframe; [done|]. intros Hin. by apply (Hdisj _ Hi). }
      rewrite Hsame. lia.
Qed.

Lemma concat_wecp_batches {A} B (l : list A) :
  0 < B -> concat (wecp_batch_of B l <$> py_range 0 (ceil_div (length l) B)) = l.
Proof.
  intros HB. pose proof (ceil_div_spec (length l) B HB) as Hk.
  change (concat (wecp_batches B l) = l).
  rewrite wecp_batches_alt, batches_alt, concat_chunks. apply take_ge. lia.
Qed.

End WecpLoopFacts.

(** Property X18. The batch loop of enf_rescrape_wecp.py, started on
    targets with pairwise different rows whose primary website is blank,
    keeps the number of rows, changes no row that is not a target and no
    field other than website_url_primary and website_domain_primary, and
    whatever the chunks returned or raised, the websites it counts as
    found and the targets whose primary website is still blank add up to
    the number of targets. *)
Theorem wecp_loop_accounting (ok : string -> bool) (BATCH_SIZE : nat)
    (fieldnames : list string) (worlds : nat -> wecp_world) (urls_to_scrape : list target)
    (st : run_state) :
  0 < BATCH_SIZE ->
  NoDup (tgt_index <$> urls_to_scrape) ->
  Forall (fun t => blank_at (st_entries st) (tgt_index t) = true) urls_to_scrape ->
  let st' := wecp_loop ok BATCH_SIZE fieldnames worlds urls_to_scrape st in
  length (st_entries st') = length (st_entries st)
  /\ (forall i, i ∉ tgt_index <$> urls_to_scrape -> st_entries st' !! i = st_entries st !! i)
  /\ (forall i k, k ≠ "website_url_primary" -> k ≠ "website_domain_primary" ->
        field_at (st_entries st') i k = field_at (st_entries st) i k)
  /\ exists missing,
       still_missing (st_entries st') (tgt_index <$> urls_to_scrape) = Ok missing
       /\ st_total st' + missing = st_total st + length urls_to_scrape.
Proof.
  intros HB Hnd Hblank st'.
  pose proof (wecp_fold_account ok fieldnames worlds (wecp_batch_of BATCH_SIZE urls_to_scrape)
                (py_range 0 (ceil_div (length urls_to_scrape) BATCH_SIZE)) st) as Hacc.
  rewrite concat_wecp_batches in Hacc by done.
  destruct (Hacc Hnd Hblank) as (Hlen & Hframe & Hfield & Hcount).
  fold (wecp_loop ok BATCH_SIZE fieldnames worlds urls_to_scrape st) in *.
  fold st' in Hlen, Hframe, Hfield, Hcount.
  split_and!; try done.
  eexists. split; [|exact Hcount].
  unfold still_missing. rewrite still_missing_fold; [done|].
  apply Forall_fmap. eapply Forall_impl; [exact Hblank|]. simpl. intros t Ht.
  rewrite Hlen. unfold blank_at in Ht.
  destruct (st_entries st !! tgt_index t) eqn:He; [|done]. by eapply lookup_lt_Some.
Qed.

Lemma wecp_loop_accounting_witness :
  exists rows1 urls,
    clear_primary wecp_rows [0; 2] = Ok (rows1, urls)
    /\ st_total (wecp_loop no_brackets 1 wecp_header wecp_sample_worlds urls
                           (RunState rows1 0 None [])) = 1
    /\ still_missing
         (st_entries (wecp_loop no_brackets 1 wecp_header wecp_sample_worlds urls
                                (RunState rows1 0 None [])))
         [0; 2] = Ok 1.
Proof.
  eexists _, _. split; [vm_compute; reflexivity|]. split; [vm_compute; reflexivity|].
  match goal with
  | |- still_missing (st_entries (wecp_loop _ _ _ _ ?urls (RunState ?rows1 _ _ _))) _ = _ =>
      destruct (wecp_loop_accounting no_brackets 1 wecp_header wecp_sample_worlds urls
                  (RunState rows1 0 None []))
        as (_ & _ & _ & missing & Hmissing & Hsum)
  end.
  - lia.
  - solve_decide.
  - repeat constructor.
  - change (tgt_index <$> _) with [0; 2] in Hmissing. rewrite Hmissing. f_equal.
    match type of Hsum with
    | ?t + _ = _ => assert (Ht : t = 1) by (vm_compute; reflexivity); rewrite Ht in Hsum
    end.
    simpl in Hsum. lia.
Defined.

(** ** enf_rescrape_wecp.py as a whole *)

Lemma blank_cleared (e : entry) :
  truthy (PyStr.strip (PyDict.get_or (cleared e) "website_url_primary" "")) = false.
Proof.
  unfold cleared, PyDict.get_or. rewrite get_set_ne by done. by rewrite get_set_eq.
Qed.

Lemma keys_cleared (e : entry) fieldnames :
  PyDict.keys e ⊆ fieldnames ->
  "website_url_primary" ∈ fieldnames -> "website_domain_primary" ∈ fieldnames ->
  PyDict.keys (cleared e) ⊆ fieldnames.
Proof.
  intros He H1 H2 k Hk. unfold cleared in Hk.
  apply keys_set_subseteq, elem_of_app in Hk as [Hk|Hk%list_elem_of_singleton]; [|by subst].
  apply keys_set_subseteq, elem_of_app in Hk as [Hk|Hk%list_elem_of_singleton]; [|by subst].
  by apply He.
Qed.

Lemma multi_website_indices_lookup (rows : list entry) i :
  i ∈ multi_website_indices rows -> is_Some (rows !! i).
Proof.
  rewrite multi_website_indices_select, select_from_spec.
  intros (j & e & -> & Hj & _). by eexists.
Qed.

Lemma clear_primary_targets (rows rows1 : list entry) urls :
  clear_primary rows (multi_website_indices rows) = Ok (rows1, urls) ->
  length rows1 = length rows
  /\ tgt_index <$> urls = multi_website_indices rows
  /\ NoDup (tgt_index <$> urls)
  /\ Forall (fun t => blank_at rows1 (tgt_index t) = true) urls
  /\ (forall i, rows1 !! i
                = if decide (i ∈ multi_website_indices rows) then cleared <$> rows !! i
                  else rows !! i).
Proof.
  intros Hclear. set (selected := multi_website_indices rows) in *.
  assert (Hnd : NoDup selected).
  { apply StronglySorted_lt_NoDup. unfold selected.
    rewrite multi_website_indices_select. apply select_from_sorted. }
  assert (Hlt : Forall (fun i => i < length rows) selected).
  { apply Forall_forall. intros i [e He]%multi_website_indices_lookup.
    by eapply lookup_lt_Some. }
  assert (Hall : Forall (fun i => exists e : entry, rows !! i = Some e
                                     /\ is_Some (PyDict.get e "detail_url")) selected).
  { apply Forall_forall. intros i Hi.
    destruct (multi_website_indices_lookup rows i Hi) as [e He]. exists e. split; [done|].
    destruct (PyDict.get e "detail_url") as [url|] eqn:Hurl; [by eexists|].
    unfold clear_primary in Hclear.
    by rewrite (clear_primary_fold_missing selected Hnd rows [] i e Hi He Hurl Hlt)
      in Hclear. }
  destruct (clear_primary_fold selected Hnd rows [] Hall) as (rows1' & Hrun & Hlen & Hlook).
  unfold clear_primary in Hclear. rewrite Hrun in Hclear. injection Hclear as <- <-.
  assert (Hidx : tgt_index <$> omap (fun i => e ← rows !! i;
                                       Target i <$> PyDict.get e "detail_url") selected
                 = selected) by by apply targets_indices.
  simpl. rewrite Hidx. split_and!; try done.
  apply Forall_forall. intros t Ht.
  assert (Hi : tgt_index t ∈ selected).
  { rewrite <- Hidx. apply list_elem_of_fmap. by exists t. }
  unfold blank_at. rewrite Hlook, decide_True by done.
  destruct (multi_website_indices_lookup rows _ Hi) as [e ->]. simpl.
  by rewrite blank_cleared.
Qed.

Lemma wecp_main_run (ok : string -> bool) BATCH_SIZE fieldnames (rows rows1 : list entry)
    urls file worlds :
  0 < BATCH_SIZE ->
  clear_primary rows (multi_website_indices rows) = Ok (rows1, urls) ->
  let st' := wecp_loop ok BATCH_SIZE fieldnames worlds urls (RunState rows1 0 file []) in
  length (st_entries st') = length rows
  /\ (forall i, i ∉ multi_website_indices rows -> st_entries st' !! i = rows !! i)
  /\ (forall i k, k ≠ "website_url_primary" -> k ≠ "website_domain_primary" ->
        field_at (st_entries st') i k = field_at rows i k)
  /\ exists missing,
       still_missing (st_entries st') (multi_website_indices rows) = Ok missing
       /\ st_total st' + missing = length (multi_website_indices rows).
Proof.
  intros HB Hclear st'.
  destruct (clear_primary_targets rows rows1 urls Hclear)
    as (Hlen1 & Hidx & Hnd & Hblank & Hlook).
  pose proof (wecp_fold_account ok fieldnames worlds (wecp_batch_of BATCH_SIZE urls)
                (py_range 0 (ceil_div (length urls) BATCH_SIZE))
                (RunState rows1 0 file [])) as Hacc.
  rewrite concat_wecp_batches in Hacc by done.
  destruct (Hacc Hnd Hblank) as (Hlen & Hframe & Hfield & Hcount).
  fold (wecp_loop ok BATCH_SIZE fieldnames worlds urls (RunState rows1 0 file [])) in *.
  fold st' in Hlen, Hframe, Hfield, Hcount. cbn [st_entries st_total] in *.
  rewrite Hidx in *. split_and!.
  - by rewrite Hlen.
  - intros i Hi. rewrite Hframe by done. by rewrite Hlook, decide_False.
  - intros i k H1 H2. rewrite Hfield by done. unfold field_at. rewrite Hlook.
    case_decide; [|done]. destruct (rows !! i) as [e|]; simpl; [|done].
    by apply get_cleared_other.
  - eexists. split.
    + unfold still_missing. rewrite still_missing_fold; [done|].
      rewrite Hlen, Hlen1. apply Forall_forall.
      intros i [e He]%multi_website_indices_lookup. by eapply lookup_lt_Some.
    + rewrite <- (length_fmap tgt_index urls), Hidx in Hcount. exact Hcount.
Qed.

(** Property X19. enf_rescrape_wecp.py as a whole. Without a row of
    website_count above 1 it returns at once. When it reaches its
    summary, the websites found and the rows still missing add up to the
    entries processed, the number of rows is unchanged, rows that were
    not selected are unchanged, and no field other than
    website_url_primary and website_domain_primary has changed. It does
    reach the summary, whatever the chunks return or raise, when every
    selected row has a detail_url, the header holds the fields of the
    rows and the two website fields, and the connection succeeds. *)
Theorem wecp_main_accounting (ok : string -> bool) (BATCH_SIZE : nat)
    (fieldnames : list string) (rows : list entry) (connect : result unit)
    (worlds : nat -> wecp_world) :
  0 < BATCH_SIZE ->
  (multi_website_indices rows = [] ->
   wecp_main ok BATCH_SIZE fieldnames rows connect worlds = Ok None)
  /\ (forall rows' summary,
        wecp_main ok BATCH_SIZE fieldnames rows connect worlds = Ok (Some (rows', summary)) ->
        entries_processed summary = length (multi_website_indices rows)
        /\ websites_found summary + still_missing_count summary = entries_processed summary
        /\ length rows' = length rows
        /\ (forall i, i ∉ multi_website_indices rows -> rows' !! i = rows !! i)
        /\ (forall i k, k ≠ "website_url_primary" -> k ≠ "website_domain_primary" ->
              field_at rows' i k = field_at rows i k))
  /\ (multi_website_indices rows ≠ [] ->
      (forall i (e : entry), i ∈ multi_website_indices rows -> rows !! i = Some e ->
         is_Some (PyDict.get e "detail_url")) ->
      Forall (fun e : entry => PyDict.keys e ⊆ fieldnames) rows ->
      "website_url_primary" ∈ fieldnames -> "website_domain_primary" ∈ fieldnames ->
      connect = Ok () ->
      exists rows' summary,
        wecp_main ok BATCH_SIZE fieldnames rows connect worlds = Ok (Some (rows', summary))).
Proof.
  intros HB. split_and!.
  - intros Hnone. unfold wecp_main. by rewrite Hnone.
  - intros rows' summary. unfold wecp_main.
    destruct (multi_website_indices rows) as [|i0 l] eqn:Hsel; [done|].
    rewrite <- Hsel.
    destruct (clear_primary rows (multi_website_indices rows)) as [[rows1 urls]|x] eqn:Hclear;
      [|done].
    simpl. destruct (save_csv_with rows1 fieldnames) as [file written].
    destruct written as [[]|x]; [|done]. simpl.
    destruct connect as [[]|x]; [|done]. simpl.
    destruct (wecp_main_run ok BATCH_SIZE fieldnames rows rows1 urls (Some file) worlds
                HB Hclear) as (Hlen & Hframe & Hfield & missing & Hmissing & Hcount).
    rewrite Hmissing. simpl. intros [= <- <-]. simpl. done.
  - intros Hsel Hurl Hkeys H1 H2 ->. unfold wecp_main.
    destruct (multi_website_indices rows) as [|i0 l] eqn:Hsel'; [done|].
    rewrite <- Hsel' in *. clear Hsel.
    assert (Hnd : NoDup (multi_website_indices rows)).
    { apply StronglySorted_lt_NoDup. rewrite multi_website_indices_select.
      apply select_from_sorted. }
    assert (Hall : Forall (fun i => exists e : entry, rows !! i = Some e
                                       /\ is_Some (PyDict.get e "detail_url"))
                          (multi_website_indices rows)).
    { apply Forall_forall. intros i Hi.
      destruct (multi_website_indices_lookup rows i Hi) as [e He]. exists e.
      split; [done|]. by apply (Hurl i). }
    destruct (clear_primary_fold _ Hnd rows [] Hall) as (rows1 & Hrun & Hlen1 & Hlook).
    rewrite app_nil_l in Hrun. set (urls := omap _ _) in Hrun.
    unfold clear_primary at 1. rewrite Hrun. simpl.
    rewrite save_csv_with_ok.
    2:{ apply Forall_lookup. intros i e1 He1. rewrite Hlook in He1.
        case_decide.
        - destruct (rows !! i) as [e|] eqn:He; [|done]. injection He1 as <-.
          apply keys_cleared; [|done|done].
          by apply (proj1 (Forall_lookup _ _) Hkeys i e He).
        - by apply (proj1 (Forall_lookup _ _) Hkeys i e1 He1). }
    simpl.
    destruct (wecp_main_run ok BATCH_SIZE fieldnames rows rows1 urls
                (Some (Csv fieldnames (row_of fieldnames <$> rows1))) worlds HB Hrun)
      as (_ & _ & _ & missing & Hmissing & _).
    rewrite Hmissing. simpl. by eexists _, _.
Qed.

Lemma wecp_main_accounting_witness :
  multi_website_indices wecp_rows = [0; 2]
  /\ exists rows',
       wecp_main no_brackets 1 wecp_header wecp_rows (Ok ()) wecp_sample_worlds
       = Ok (Some (rows', WecpSummary 2 1 1))
       /\ field_at rows' 0 "website_url_primary" = Some "http://www.a-solar.com/home"
       /\ field_at rows' 0 "website_domain_primary" = Some "a-solar.com"
       /\ field_at rows' 2 "website_url_primary" = Some ""
       /\ length rows' = 3.
Proof.
  split; [reflexivity|]. eexists. split; [vm_compute; reflexivity|].
  split; [reflexivity|]. split; [reflexivity|]. split; [reflexivity|].
  match goal with
  | |- length ?rows' = 3 =>
      destruct (proj1 (proj2 (wecp_main_accounting no_brackets 1 wecp_header wecp_rows (Ok ())
                                wecp_sample_worlds ltac:(lia)))
                  rows' (WecpSummary 2 1 1)) as (_ & _ & Hlen & _)
  end.
  - vm_compute. reflexivity.
  - exact Hlen.
Defined.
